(** * The collaboration / escrow / dispute / review core of colaboreaza.ro

    A shallow embedding of the Express handlers of the Node.js server (and of
    the FastAPI handlers they were ported from) that own the money and status
    transitions: escrow creation, securing, release and refund, the
    collaboration status endpoint, cancellation, disputes, reviews and the
    commission calculator.

    Conventions of the embedding.
    - A MongoDB collection is the list of its documents in insertion order;
      [findOne] returns the first match and [updateOne] rewrites the first
      match, as the driver does on a collection without an index order.
    - JavaScript numbers that hold money, rates and ratings are exact
      rationals ([Q]): the two-decimal rounding of the code is modelled, the
      binary floating point error of a double is not.
    - [now()] and [Date.now()] are one clock reading [ts] (milliseconds) handed
      to the handler; identifiers produced by [genId] are handed in as well.
    - [requireAuth] receives the user the session resolves to, if any. *)

From Stdlib Require Import List String ZArith QArith Qround Qabs Bool Lia Lqa.
Import ListNotations.

Open Scope string_scope.
Open Scope Z_scope.

(** ** JavaScript values *)

(** [Math.round]: the nearest integer, halves towards plus infinity. *)
Definition jsRound (x : Q) : Z := Qfloor (x + (1 # 2)).

(** The idiom [Math.round(x * 100) / 100]. *)
Definition round2 (x : Q) : Q := inject_Z (jsRound (x * 100)) / 100.

(** The idiom [Math.round(x * 10) / 10]. *)
Definition round1 (x : Q) : Q := inject_Z (jsRound (x * 10)) / 10.

(** [a || b] on a numeric field that may be null or undefined: null,
    undefined and 0 are falsy. *)
Definition jsOrQ (a : option Q) (b : Q) : Q :=
  match a with
  | Some x => if Qeq_bool x 0 then b else x
  | None => b
  end.

(** [a || b] on a string field that may be missing: the empty string is
    falsy too. *)
Definition jsOrS (a : option string) (b : string) : string :=
  match a with
  | Some "" => b
  | Some s => s
  | None => b
  end.

(** [a === b] on strings. *)
Infix "===" := String.eqb (at level 70, no associativity).

(** [l.includes(s)] *)
Definition includes (l : list string) (s : string) : bool :=
  existsb (fun x => x === s) l.

(** ** Collections *)

Section Collection.
Context {A : Type}.

Definition findOne (q : A -> bool) (c : list A) : option A := find q c.

Fixpoint updateOne (q : A -> bool) (set : A -> A) (c : list A) : list A :=
  match c with
  | [] => []
  | d :: c' => if q d then set d :: c' else d :: updateOne q set c'
  end.

Definition updateMany (q : A -> bool) (set : A -> A) (c : list A) : list A :=
  map (fun d => if q d then set d else d) c.

Definition insertOne (d : A) (c : list A) : list A := c ++ [d].

(** [$set: { f1: v1, f2: v2, .. }] as the list of its field updates. *)
Definition set_all (fs : list (A -> A)) (d : A) : A :=
  fold_left (fun d f => f d) fs d.

End Collection.

(** ** Responses *)

(** One constructor per failure response of the handlers modelled here. *)
Inductive Failure : Type :=
| NotAuthenticated
| AdminRequired
| NotAuthorized
| CollabNotFound
| FundsNotSecured
| CancelTooLate
| CancelNotPossible
| DisputeOnlyPendingRelease
| DisputeAlreadyOpen
| DisputeNotFound
| DisputeAlreadyResolved
| CancellationNotFound
| CancellationAlreadyResolved
| EscrowOnlyPaid
| EscrowAlreadyExists
| EscrowNotFound
| EscrowNotPending
| EscrowNotReleaseReady
| EscrowCannotRefund
| RatingOutOfRange
| ApplicationNotFound
| ApplicationNotAccepted
| ReviewFundsNotReleased
| ReviewCollabNotCompleted
| ReviewNotAuthorized
| AlreadyReviewed
| CommissionRateOutOfRange
| FreeUserLimit.

Definition http_status (f : Failure) : Z :=
  match f with
  | NotAuthenticated => 401
  | AdminRequired | NotAuthorized | ReviewNotAuthorized | FreeUserLimit => 403
  | CollabNotFound | DisputeNotFound | CancellationNotFound
  | EscrowNotFound | ApplicationNotFound => 404
  | _ => 400
  end.

Definition detail (f : Failure) : string :=
  match f with
  | NotAuthenticated => "Not authenticated"
  | AdminRequired => "Admin access required"
  | NotAuthorized => "Not authorized"
  | CollabNotFound => "Collaboration not found"
  | FundsNotSecured => "Fondurile trebuie securizate înainte de finalizare"
  | CancelTooLate =>
      "Anularea nu mai este posibilă în această etapă. Folosiți sistemul de dispute."
  | CancelNotPossible => "Anularea nu este posibilă în starea curentă"
  | DisputeOnlyPendingRelease =>
      "Disputele sunt posibile doar în faza de verificare a livrării (completed_pending_release)"
  | DisputeAlreadyOpen => "O dispută este deja deschisă pentru această colaborare"
  | DisputeNotFound => "Dispute not found"
  | DisputeAlreadyResolved => "Dispute already resolved"
  | CancellationNotFound => "Cancellation not found"
  | CancellationAlreadyResolved => "Already resolved"
  | EscrowOnlyPaid => "Escrow only for paid collaborations"
  | EscrowAlreadyExists => "Escrow already exists for this collaboration"
  | EscrowNotFound => "Escrow not found"
  | EscrowNotPending => "Escrow is not in pending state"
  | EscrowNotReleaseReady => "Escrow not in release-ready state"
  | EscrowCannotRefund => "Cannot refund in current state"
  | RatingOutOfRange => "Rating must be between 1 and 5"
  | ApplicationNotFound => "Application not found"
  | ApplicationNotAccepted => "Can only review accepted collaborations"
  | ReviewFundsNotReleased =>
      "Recenziile sunt disponibile doar după eliberarea fondurilor"
  | ReviewCollabNotCompleted =>
      "Colaborarea trebuie finalizată înainte de recenzie"
  | ReviewNotAuthorized => "Not authorized to review this collaboration"
  | AlreadyReviewed => "Already reviewed this collaboration"
  | CommissionRateOutOfRange => "Commission rate must be between 0 and 100"
  | FreeUserLimit =>
      "Free users limited to 3 active collaborations. Upgrade to PRO!"
  end.

(** The failure classes of the design's error taxonomy. *)
Inductive ErrorKind : Type :=
| NotFound
| Unauthorized
| InvalidState
| Conflict
| PreconditionFailed
| ValidationError
| NotEligible.

(** How the responses of the handlers fall into the taxonomy: a status
    that does not permit the transition is [InvalidState], a duplicate
    active record is [Conflict], an unmet requirement across entities is
    [PreconditionFailed], a malformed input is [ValidationError]. *)
Definition error_kind (f : Failure) : ErrorKind :=
  match f with
  | NotAuthenticated | AdminRequired | NotAuthorized | ReviewNotAuthorized
  | FreeUserLimit => Unauthorized
  | CollabNotFound | DisputeNotFound | CancellationNotFound
  | EscrowNotFound | ApplicationNotFound => NotFound
  | FundsNotSecured => PreconditionFailed
  | CancelTooLate | CancelNotPossible | DisputeOnlyPendingRelease
  | DisputeAlreadyResolved | CancellationAlreadyResolved
  | EscrowNotPending | EscrowNotReleaseReady | EscrowCannotRefund
  | EscrowOnlyPaid | ApplicationNotAccepted => InvalidState
  | DisputeAlreadyOpen | EscrowAlreadyExists | AlreadyReviewed => Conflict
  | RatingOutOfRange | CommissionRateOutOfRange => ValidationError
  | ReviewFundsNotReleased | ReviewCollabNotCompleted => NotEligible
  end.

Inductive result (A : Type) : Type :=
| Ok (a : A)
| Err (f : Failure).
Arguments Ok {A} a.
Arguments Err {A} f.

Definition bind {A B : Type} (r : result A) (k : A -> result B) : result B :=
  match r with
  | Ok a => k a
  | Err f => Err f
  end.

Notation "x <- r ;; k" := (bind r (fun x => k))
  (at level 61, r at next level, right associativity).
Notation "r ;;; k" := (bind r (fun _ => k))
  (at level 61, right associativity).

(** [if (c) return res.status(..)] *)
Definition reject_if (c : bool) (f : Failure) : result unit :=
  if c then Err f else Ok tt.

(** [const d = await findOne(..); if (!d) return res.status(404)] *)
Definition found {A : Type} (o : option A) (f : Failure) : result A :=
  match o with
  | Some a => Ok a
  | None => Err f
  end.

(** ** Documents *)

(** The authenticated user a session resolves to. *)
Module User.
Record t : Type := mk {
  user_id : string;
  name : string;
  email : string;
  is_admin : bool;
  is_pro : bool
}.

End User.

(** A document of [collaborations]. *)
Module Collab.
Record t : Type := mk {
  collab_id : string;
  brand_user_id : string;
  title : string;
  budget_min : option Q;
  budget_max : option Q;
  collaboration_type : option string;
  status : string;
  payment_status : option string;
  escrow_id : option string;
  completed_at : option Z;
  release_scheduled_at : option Z;
  cancelled_at : option Z;
  cancelled_by : option string;
  cancellation_reason : option string;
  disputed_at : option Z;
  released_at : option Z
}.

Definition set_status (v : string) (d : t) : t :=
  mk d.(collab_id) d.(brand_user_id) d.(title) d.(budget_min) d.(budget_max)
    d.(collaboration_type) v d.(payment_status) d.(escrow_id) d.(completed_at)
    d.(release_scheduled_at) d.(cancelled_at) d.(cancelled_by)
    d.(cancellation_reason) d.(disputed_at) d.(released_at).

Definition set_payment_status (v : option string) (d : t) : t :=
  mk d.(collab_id) d.(brand_user_id) d.(title) d.(budget_min) d.(budget_max)
    d.(collaboration_type) d.(status) v d.(escrow_id) d.(completed_at)
    d.(release_scheduled_at) d.(cancelled_at) d.(cancelled_by)
    d.(cancellation_reason) d.(disputed_at) d.(released_at).

Definition set_escrow_id (v : option string) (d : t) : t :=
  mk d.(collab_id) d.(brand_user_id) d.(title) d.(budget_min) d.(budget_max)
    d.(collaboration_type) d.(status) d.(payment_status) v d.(completed_at)
    d.(release_scheduled_at) d.(cancelled_at) d.(cancelled_by)
    d.(cancellation_reason) d.(disputed_at) d.(released_at).

Definition set_completed_at (v : option Z) (d : t) : t :=
  mk d.(collab_id) d.(brand_user_id) d.(title) d.(budget_min) d.(budget_max)
    d.(collaboration_type) d.(status) d.(payment_status) d.(escrow_id) v
    d.(release_scheduled_at) d.(cancelled_at) d.(cancelled_by)
    d.(cancellation_reason) d.(disputed_at) d.(released_at).

Definition set_release_scheduled_at (v : option Z) (d : t) : t :=
  mk d.(collab_id) d.(brand_user_id) d.(title) d.(budget_min) d.(budget_max)
    d.(collaboration_type) d.(status) d.(payment_status) d.(escrow_id)
    d.(completed_at) v d.(cancelled_at) d.(cancelled_by)
    d.(cancellation_reason) d.(disputed_at) d.(released_at).

Definition set_cancelled_at (v : option Z) (d : t) : t :=
  mk d.(collab_id) d.(brand_user_id) d.(title) d.(budget_min) d.(budget_max)
    d.(collaboration_type) d.(status) d.(payment_status) d.(escrow_id)
    d.(completed_at) d.(release_scheduled_at) v d.(cancelled_by)
    d.(cancellation_reason) d.(disputed_at) d.(released_at).

Definition set_cancelled_by (v : option string) (d : t) : t :=
  mk d.(collab_id) d.(brand_user_id) d.(title) d.(budget_min) d.(budget_max)
    d.(collaboration_type) d.(status) d.(payment_status) d.(escrow_id)
    d.(completed_at) d.(release_scheduled_at) d.(cancelled_at) v
    d.(cancellation_reason) d.(disputed_at) d.(released_at).

Definition set_cancellation_reason (v : option string) (d : t) : t :=
  mk d.(collab_id) d.(brand_user_id) d.(title) d.(budget_min) d.(budget_max)
    d.(collaboration_type) d.(status) d.(payment_status) d.(escrow_id)
    d.(completed_at) d.(release_scheduled_at) d.(cancelled_at)
    d.(cancelled_by) v d.(disputed_at) d.(released_at).

Definition set_disputed_at (v : option Z) (d : t) : t :=
  mk d.(collab_id) d.(brand_user_id) d.(title) d.(budget_min) d.(budget_max)
    d.(collaboration_type) d.(status) d.(payment_status) d.(escrow_id)
    d.(completed_at) d.(release_scheduled_at) d.(cancelled_at)
    d.(cancelled_by) d.(cancellation_reason) v d.(released_at).

Definition set_released_at (v : option Z) (d : t) : t :=
  mk d.(collab_id) d.(brand_user_id) d.(title) d.(budget_min) d.(budget_max)
    d.(collaboration_type) d.(status) d.(payment_status) d.(escrow_id)
    d.(completed_at) d.(release_scheduled_at) d.(cancelled_at)
    d.(cancelled_by) d.(cancellation_reason) d.(disputed_at) v.

End Collab.

(** A document of [escrow_payments]. *)
Module Escrow.
Record t : Type := mk {
  escrow_id : string;
  collab_id : string;
  brand_user_id : string;
  total_amount : Q;
  influencer_payout : Q;
  platform_commission : Q;
  commission_rate : Q;
  payment_status : string;
  status : string;
  payment_provider : string;
  payment_reference : option string;
  created_at : Z;
  secured_at : option Z;
  completed_at : option Z;
  release_scheduled_at : option Z;
  released_at : option Z;
  refunded_at : option Z;
  disputed_at : option Z;
  resolved_at : option Z;
  split_influencer : option Q;
  split_brand : option Q;
  partial_refund_amount : option Q
}.

Definition set_status (v : string) (d : t) : t :=
  mk d.(escrow_id) d.(collab_id) d.(brand_user_id) d.(total_amount)
    d.(influencer_payout) d.(platform_commission) d.(commission_rate)
    d.(payment_status) v d.(payment_provider) d.(payment_reference)
    d.(created_at) d.(secured_at) d.(completed_at) d.(release_scheduled_at)
    d.(released_at) d.(refunded_at) d.(disputed_at) d.(resolved_at)
    d.(split_influencer) d.(split_brand) d.(partial_refund_amount).

Definition set_payment_reference (v : option string) (d : t) : t :=
  mk d.(escrow_id) d.(collab_id) d.(brand_user_id) d.(total_amount)
    d.(influencer_payout) d.(platform_commission) d.(commission_rate)
    d.(payment_status) d.(status) d.(payment_provider) v d.(created_at)
    d.(secured_at) d.(completed_at) d.(release_scheduled_at) d.(released_at)
    d.(refunded_at) d.(disputed_at) d.(resolved_at) d.(split_influencer)
    d.(split_brand) d.(partial_refund_amount).

Definition set_secured_at (v : option Z) (d : t) : t :=
  mk d.(escrow_id) d.(collab_id) d.(brand_user_id) d.(total_amount)
    d.(influencer_payout) d.(platform_commission) d.(commission_rate)
    d.(payment_status) d.(status) d.(payment_provider) d.(payment_reference)
    d.(created_at) v d.(completed_at) d.(release_scheduled_at) d.(released_at)
    d.(refunded_at) d.(disputed_at) d.(resolved_at) d.(split_influencer)
    d.(split_brand) d.(partial_refund_amount).

Definition set_completed_at (v : option Z) (d : t) : t :=
  mk d.(escrow_id) d.(collab_id) d.(brand_user_id) d.(total_amount)
    d.(influencer_payout) d.(platform_commission) d.(commission_rate)
    d.(payment_status) d.(status) d.(payment_provider) d.(payment_reference)
    d.(created_at) d.(secured_at) v d.(release_scheduled_at) d.(released_at)
    d.(refunded_at) d.(disputed_at) d.(resolved_at) d.(split_influencer)
    d.(split_brand) d.(partial_refund_amount).

Definition set_release_scheduled_at (v : option Z) (d : t) : t :=
  mk d.(escrow_id) d.(collab_id) d.(brand_user_id) d.(total_amount)
    d.(influencer_payout) d.(platform_commission) d.(commission_rate)
    d.(payment_status) d.(status) d.(payment_provider) d.(payment_reference)
    d.(created_at) d.(secured_at) d.(completed_at) v d.(released_at)
    d.(refunded_at) d.(disputed_at) d.(resolved_at) d.(split_influencer)
    d.(split_brand) d.(partial_refund_amount).

Definition set_released_at (v : option Z) (d : t) : t :=
  mk d.(escrow_id) d.(collab_id) d.(brand_user_id) d.(total_amount)
    d.(influencer_payout) d.(platform_commission) d.(commission_rate)
    d.(payment_status) d.(status) d.(payment_provider) d.(payment_reference)
    d.(created_at) d.(secured_at) d.(completed_at) d.(release_scheduled_at) v
    d.(refunded_at) d.(disputed_at) d.(resolved_at) d.(split_influencer)
    d.(split_brand) d.(partial_refund_amount).

Definition set_refunded_at (v : option Z) (d : t) : t :=
  mk d.(escrow_id) d.(collab_id) d.(brand_user_id) d.(total_amount)
    d.(influencer_payout) d.(platform_commission) d.(commission_rate)
    d.(payment_status) d.(status) d.(payment_provider) d.(payment_reference)
    d.(created_at) d.(secured_at) d.(completed_at) d.(release_scheduled_at)
    d.(released_at) v d.(disputed_at) d.(resolved_at) d.(split_influencer)
    d.(split_brand) d.(partial_refund_amount).

Definition set_disputed_at (v : option Z) (d : t) : t :=
  mk d.(escrow_id) d.(collab_id) d.(brand_user_id) d.(total_amount)
    d.(influencer_payout) d.(platform_commission) d.(commission_rate)
    d.(payment_status) d.(status) d.(payment_provider) d.(payment_reference)
    d.(created_at) d.(secured_at) d.(completed_at) d.(release_scheduled_at)
    d.(released_at) d.(refunded_at) v d.(resolved_at) d.(split_influencer)
    d.(split_brand) d.(partial_refund_amount).

Definition set_resolved_at (v : option Z) (d : t) : t :=
  mk d.(escrow_id) d.(collab_id) d.(brand_user_id) d.(total_amount)
    d.(influencer_payout) d.(platform_commission) d.(commission_rate)
    d.(payment_status) d.(status) d.(payment_provider) d.(payment_reference)
    d.(created_at) d.(secured_at) d.(completed_at) d.(release_scheduled_at)
    d.(released_at) d.(refunded_at) d.(disputed_at) v d.(split_influencer)
    d.(split_brand) d.(partial_refund_amount).

Definition set_split_influencer (v : option Q) (d : t) : t :=
  mk d.(escrow_id) d.(collab_id) d.(brand_user_id) d.(total_amount)
    d.(influencer_payout) d.(platform_commission) d.(commission_rate)
    d.(payment_status) d.(status) d.(payment_provider) d.(payment_reference)
    d.(created_at) d.(secured_at) d.(completed_at) d.(release_scheduled_at)
    d.(released_at) d.(refunded_at) d.(disputed_at) d.(resolved_at) v
    d.(split_brand) d.(partial_refund_amount).

Definition set_split_brand (v : option Q) (d : t) : t :=
  mk d.(escrow_id) d.(collab_id) d.(brand_user_id) d.(total_amount)
    d.(influencer_payout) d.(platform_commission) d.(commission_rate)
    d.(payment_status) d.(status) d.(payment_provider) d.(payment_reference)
    d.(created_at) d.(secured_at) d.(completed_at) d.(release_scheduled_at)
    d.(released_at) d.(refunded_at) d.(disputed_at) d.(resolved_at)
    d.(split_influencer) v d.(partial_refund_amount).

Definition set_partial_refund_amount (v : option Q) (d : t) : t :=
  mk d.(escrow_id) d.(collab_id) d.(brand_user_id) d.(total_amount)
    d.(influencer_payout) d.(platform_commission) d.(commission_rate)
    d.(payment_status) d.(status) d.(payment_provider) d.(payment_reference)
    d.(created_at) d.(secured_at) d.(completed_at) d.(release_scheduled_at)
    d.(released_at) d.(refunded_at) d.(disputed_at) d.(resolved_at)
    d.(split_influencer) d.(split_brand) v.

End Escrow.

(** A document of [applications]. *)
Module Application.
Record t : Type := mk {
  application_id : string;
  collab_id : string;
  influencer_user_id : string;
  proposed_price : option Q;
  status : string
}.

End Application.

(** A document of [disputes]. *)
Module Dispute.
Record t : Type := mk {
  dispute_id : string;
  collab_id : string;
  opened_by : string;
  opener_type : string;
  opener_name : string;
  reason : string;
  details : string;
  status : string;
  created_at : Z;
  brand_user_id : string;
  influencer_user_id : option string;
  resolution : option string;
  admin_notes : option string;
  split_influencer : option Q;
  split_brand : option Q;
  resolved_at : option Z
}.

Definition set_status (v : string) (d : t) : t :=
  mk d.(dispute_id) d.(collab_id) d.(opened_by) d.(opener_type)
    d.(opener_name) d.(reason) d.(details) v d.(created_at) d.(brand_user_id)
    d.(influencer_user_id) d.(resolution) d.(admin_notes) d.(split_influencer)
    d.(split_brand) d.(resolved_at).

Definition set_resolution (v : option string) (d : t) : t :=
  mk d.(dispute_id) d.(collab_id) d.(opened_by) d.(opener_type)
    d.(opener_name) d.(reason) d.(details) d.(status) d.(created_at)
    d.(brand_user_id) d.(influencer_user_id) v d.(admin_notes)
    d.(split_influencer) d.(split_brand) d.(resolved_at).

Definition set_admin_notes (v : option string) (d : t) : t :=
  mk d.(dispute_id) d.(collab_id) d.(opened_by) d.(opener_type)
    d.(opener_name) d.(reason) d.(details) d.(status) d.(created_at)
    d.(brand_user_id) d.(influencer_user_id) d.(resolution) v
    d.(split_influencer) d.(split_brand) d.(resolved_at).

Definition set_split_influencer (v : option Q) (d : t) : t :=
  mk d.(dispute_id) d.(collab_id) d.(opened_by) d.(opener_type)
    d.(opener_name) d.(reason) d.(details) d.(status) d.(created_at)
    d.(brand_user_id) d.(influencer_user_id) d.(resolution) d.(admin_notes) v
    d.(split_brand) d.(resolved_at).

Definition set_split_brand (v : option Q) (d : t) : t :=
  mk d.(dispute_id) d.(collab_id) d.(opened_by) d.(opener_type)
    d.(opener_name) d.(reason) d.(details) d.(status) d.(created_at)
    d.(brand_user_id) d.(influencer_user_id) d.(resolution) d.(admin_notes)
    d.(split_influencer) v d.(resolved_at).

Definition set_resolved_at (v : option Z) (d : t) : t :=
  mk d.(dispute_id) d.(collab_id) d.(opened_by) d.(opener_type)
    d.(opener_name) d.(reason) d.(details) d.(status) d.(created_at)
    d.(brand_user_id) d.(influencer_user_id) d.(resolution) d.(admin_notes)
    d.(split_influencer) d.(split_brand) v.

End Dispute.

(** A document of [cancellations]. *)
Module Cancellation.
Record t : Type := mk {
  cancellation_id : string;
  collab_id : string;
  requested_by : string;
  requester_type : string;
  reason : string;
  details : string;
  status : string;
  resolution : option string;
  created_at : Z;
  resolved_at : option Z;
  admin_notes : option string;
  partial_amount : option Q
}.

Definition set_status (v : string) (d : t) : t :=
  mk d.(cancellation_id) d.(collab_id) d.(requested_by) d.(requester_type)
    d.(reason) d.(details) v d.(resolution) d.(created_at) d.(resolved_at)
    d.(admin_notes) d.(partial_amount).

Definition set_resolution (v : option string) (d : t) : t :=
  mk d.(cancellation_id) d.(collab_id) d.(requested_by) d.(requester_type)
    d.(reason) d.(details) d.(status) v d.(created_at) d.(resolved_at)
    d.(admin_notes) d.(partial_amount).

Definition set_resolved_at (v : option Z) (d : t) : t :=
  mk d.(cancellation_id) d.(collab_id) d.(requested_by) d.(requester_type)
    d.(reason) d.(details) d.(status) d.(resolution) d.(created_at) v
    d.(admin_notes) d.(partial_amount).

Definition set_admin_notes (v : option string) (d : t) : t :=
  mk d.(cancellation_id) d.(collab_id) d.(requested_by) d.(requester_type)
    d.(reason) d.(details) d.(status) d.(resolution) d.(created_at)
    d.(resolved_at) v d.(partial_amount).

Definition set_partial_amount (v : option Q) (d : t) : t :=
  mk d.(cancellation_id) d.(collab_id) d.(requested_by) d.(requester_type)
    d.(reason) d.(details) d.(status) d.(resolution) d.(created_at)
    d.(resolved_at) d.(admin_notes) v.

End Cancellation.

(** A document of [messages]. *)
Module Message.
Record t : Type := mk {
  message_id : string;
  collab_id : string;
  sender_id : string;
  sender_name : string;
  sender_type : string;
  content : string;
  created_at : Z;
  thread_locked : bool
}.

Definition set_thread_locked (v : bool) (d : t) : t :=
  mk d.(message_id) d.(collab_id) d.(sender_id) d.(sender_name)
    d.(sender_type) d.(content) d.(created_at) v.

End Message.

(** A document of [commissions]. *)
Module Commission.
Record t : Type := mk {
  commission_id : string;
  collab_id : string;
  application_id : string;
  brand_user_id : string;
  influencer_user_id : string;
  gross_amount : Q;
  commission_rate : Q;
  commission_amount : Q;
  net_amount : Q;
  status : string;
  created_at : Z
}.

End Commission.

(** A document of [reviews]. *)
Module Review.
Record t : Type := mk {
  review_id : string;
  application_id : string;
  collab_id : string;
  reviewer_user_id : string;
  reviewer_name : string;
  reviewer_type : string;
  reviewed_user_id : string;
  rating : Q;
  comment : option string;
  collab_title : string;
  is_revealed : bool;
  created_at : Z
}.

Definition set_is_revealed (v : bool) (d : t) : t :=
  mk d.(review_id) d.(application_id) d.(collab_id) d.(reviewer_user_id)
    d.(reviewer_name) d.(reviewer_type) d.(reviewed_user_id) d.(rating)
    d.(comment) d.(collab_title) v d.(created_at).

End Review.

(** A document of [influencer_profiles]. *)
Module Profile.
Record t : Type := mk {
  user_id : string;
  username : string;
  avg_rating : option Q;
  review_count : option nat
}.

Definition set_avg_rating (v : option Q) (d : t) : t :=
  mk d.(user_id) d.(username) v d.(review_count).

Definition set_review_count (v : option nat) (d : t) : t :=
  mk d.(user_id) d.(username) d.(avg_rating) v.

End Profile.

(** The database: one list per collection; [settings_commission_rate] is the
    value of the [settings] document whose key is [commission_rate], if any. *)
Module Db.
Record t : Type := mk {
  collaborations : list Collab.t;
  escrow_payments : list Escrow.t;
  applications : list Application.t;
  disputes : list Dispute.t;
  cancellations : list Cancellation.t;
  messages : list Message.t;
  commissions : list Commission.t;
  reviews : list Review.t;
  influencer_profiles : list Profile.t;
  settings_commission_rate : option Q
}.

Definition set_collaborations (v : list Collab.t) (d : t) : t :=
  mk v d.(escrow_payments) d.(applications) d.(disputes) d.(cancellations)
    d.(messages) d.(commissions) d.(reviews) d.(influencer_profiles)
    d.(settings_commission_rate).

Definition set_escrow_payments (v : list Escrow.t) (d : t) : t :=
  mk d.(collaborations) v d.(applications) d.(disputes) d.(cancellations)
    d.(messages) d.(commissions) d.(reviews) d.(influencer_profiles)
    d.(settings_commission_rate).

Definition set_applications (v : list Application.t) (d : t) : t :=
  mk d.(collaborations) d.(escrow_payments) v d.(disputes) d.(cancellations)
    d.(messages) d.(commissions) d.(reviews) d.(influencer_profiles)
    d.(settings_commission_rate).

Definition set_disputes (v : list Dispute.t) (d : t) : t :=
  mk d.(collaborations) d.(escrow_payments) d.(applications) v
    d.(cancellations) d.(messages) d.(commissions) d.(reviews)
    d.(influencer_profiles) d.(settings_commission_rate).

Definition set_cancellations (v : list Cancellation.t) (d : t) : t :=
  mk d.(collaborations) d.(escrow_payments) d.(applications) d.(disputes) v
    d.(messages) d.(commissions) d.(reviews) d.(influencer_profiles)
    d.(settings_commission_rate).

Definition set_messages (v : list Message.t) (d : t) : t :=
  mk d.(collaborations) d.(escrow_payments) d.(applications) d.(disputes)
    d.(cancellations) v d.(commissions) d.(reviews) d.(influencer_profiles)
    d.(settings_commission_rate).

Definition set_commissions (v : list Commission.t) (d : t) : t :=
  mk d.(collaborations) d.(escrow_payments) d.(applications) d.(disputes)
    d.(cancellations) d.(messages) v d.(reviews) d.(influencer_profiles)
    d.(settings_commission_rate).

Definition set_reviews (v : list Review.t) (d : t) : t :=
  mk d.(collaborations) d.(escrow_payments) d.(applications) d.(disputes)
    d.(cancellations) d.(messages) d.(commissions) v d.(influencer_profiles)
    d.(settings_commission_rate).

Definition set_influencer_profiles (v : list Profile.t) (d : t) : t :=
  mk d.(collaborations) d.(escrow_payments) d.(applications) d.(disputes)
    d.(cancellations) d.(messages) d.(commissions) d.(reviews) v
    d.(settings_commission_rate).

Definition set_settings_commission_rate (v : option Q) (d : t) : t :=
  mk d.(collaborations) d.(escrow_payments) d.(applications) d.(disputes)
    d.(cancellations) d.(messages) d.(commissions) d.(reviews)
    d.(influencer_profiles) v.

End Db.


(** ** Helpers of the server *)

Definition DEFAULT_COMMISSION_RATE : Q := 10.
Definition REVIEW_REVEAL_TIMEOUT_DAYS : Z := 14.

Definition requireAuth (session : option User.t) : result User.t :=
  found session NotAuthenticated.

(** [ADMIN_EMAILS] comes from the environment of the process. *)
Definition requireAdmin (ADMIN_EMAILS : list string) (session : option User.t)
  : result User.t :=
  user <- requireAuth session ;;
  reject_if (negb (User.is_admin user)
             && negb (includes ADMIN_EMAILS (User.email user)))
    AdminRequired ;;;
  Ok user.

Definition getCommissionRate (db : Db.t) : Q :=
  match Db.settings_commission_rate db with
  | Some value => value
  | None => DEFAULT_COMMISSION_RATE
  end.

Definition by_collab_id (id : string) (c : Collab.t) : bool :=
  Collab.collab_id c === id.

Definition by_escrow_id (id : string) (e : Escrow.t) : bool :=
  Escrow.escrow_id e === id.

(** [{ collab_id, status: { $in: sts } }] on [escrow_payments]. *)
Definition escrow_of_collab_in (id : string) (sts : list string)
  (e : Escrow.t) : bool :=
  (Escrow.collab_id e === id) && includes sts (Escrow.status e).

(** [(collab.collaboration_type || 'paid') === 'paid'] *)
Definition is_paid (collab : Collab.t) : bool :=
  jsOrS (Collab.collaboration_type collab) "paid" === "paid".

(** [{ collab_id, influencer_user_id, status: 'accepted' }] on
    [applications]. *)
Definition accepted_application_of (collab_id user_id : string)
  (a : Application.t) : bool :=
  (Application.collab_id a === collab_id)
  && (Application.influencer_user_id a === user_id)
  && (Application.status a === "accepted").

(** [{ collab_id, status: 'accepted' }] on [applications]. *)
Definition accepted_application (collab_id : string) (a : Application.t)
  : bool :=
  (Application.collab_id a === collab_id)
  && (Application.status a === "accepted").

(** The participant check shared by the cancel, dispute and message
    handlers: the brand, or an influencer with an accepted application. *)
Definition is_influencer_of (db : Db.t) (collab : Collab.t) (user : User.t)
  : bool :=
  if Collab.brand_user_id collab === User.user_id user then false
  else match findOne (accepted_application_of (Collab.collab_id collab)
                        (User.user_id user)) (Db.applications db) with
       | Some _ => true
       | None => false
       end.

(** ** Collaborations *)

(** The body of [POST /collaborations], as far as the core reads it. *)
Record CollabData : Type := {
  data_title : string;
  data_budget_min : option Q;
  data_budget_max : option Q;
  data_collaboration_type : option string
}.

(** [router.post('/collaborations')] *)
Definition createCollaboration (db : Db.t) (session : option User.t)
  (data : CollabData) (collab_id : string) : result (Db.t * Collab.t) :=
  user <- requireAuth session ;;
  reject_if (negb (User.is_pro user)
             && (3 <=? Z.of_nat (List.length (filter
                   (fun c => (Collab.brand_user_id c === User.user_id user)
                             && (Collab.status c === "active"))
                   (Db.collaborations db)))))
    FreeUserLimit ;;;
  let collabDoc :=
    Collab.mk collab_id (User.user_id user) (data_title data)
      (data_budget_min data)
      (match data_budget_max data with
       | Some x => if Qeq_bool x 0 then None else Some x
       | None => None
       end)
      (Some (jsOrS (data_collaboration_type data) "paid"))
      "active"
      (Some (match data_collaboration_type data with
             | Some "paid" => "awaiting_escrow"
             | _ => "none"
             end))
      None None None None None None None None in
  Ok (Db.set_collaborations (insertOne collabDoc (Db.collaborations db)) db,
      collabDoc).

(** [router.patch('/collaborations/:collab_id/status')] *)
Definition requestStatusChange (db : Db.t) (session : option User.t)
  (collab_id newStatus : string) (ts : Z) : result Db.t :=
  user <- requireAuth session ;;
  collab <- found (findOne (by_collab_id collab_id) (Db.collaborations db))
              CollabNotFound ;;
  reject_if (negb (Collab.brand_user_id collab === User.user_id user))
    NotAuthorized ;;;
  if (newStatus === "completed") && is_paid collab then
    escrow <- found (findOne (escrow_of_collab_in collab_id ["secured"])
                       (Db.escrow_payments db)) FundsNotSecured ;;
    let release_at := ts + 48 * 60 * 60 * 1000 in
    let db1 :=
      Db.set_collaborations
        (updateOne (by_collab_id collab_id)
           (set_all [Collab.set_status "completed_pending_release";
                     Collab.set_payment_status (Some "completed_pending_release");
                     Collab.set_completed_at (Some ts);
                     Collab.set_release_scheduled_at (Some release_at)])
           (Db.collaborations db)) db in
    Ok (Db.set_escrow_payments
          (updateOne (by_escrow_id (Escrow.escrow_id escrow))
             (set_all [Escrow.set_status "completed_pending_release";
                       Escrow.set_completed_at (Some ts);
                       Escrow.set_release_scheduled_at (Some release_at)])
             (Db.escrow_payments db1)) db1)
  else if (newStatus === "completed") && negb (is_paid collab) then
    Ok (Db.set_collaborations
          (updateOne (by_collab_id collab_id)
             (set_all [Collab.set_status "completed";
                       Collab.set_payment_status (Some "none");
                       Collab.set_completed_at (Some ts)])
             (Db.collaborations db)) db)
  else
    Ok (Db.set_collaborations
          (updateOne (by_collab_id collab_id) (Collab.set_status newStatus)
             (Db.collaborations db)) db).

(** ** Cancellation *)

Definition blocked : list string :=
  ["completed_pending_release"; "completed"; "disputed"; "cancelled"].

(** [collab.payment_status === 'secured'] *)
Definition payment_secured (collab : Collab.t) : bool :=
  match Collab.payment_status collab with
  | Some s => s === "secured"
  | None => false
  end.

(** [router.post('/collaborations/:collab_id/cancel')] *)
Definition requestCancellation (db : Db.t) (session : option User.t)
  (collab_id reason details cancellation_id : string) (ts : Z)
  : result Db.t :=
  user <- requireAuth session ;;
  collab <- found (findOne (by_collab_id collab_id) (Db.collaborations db))
              CollabNotFound ;;
  let is_brand := Collab.brand_user_id collab === User.user_id user in
  let is_influencer :=
    if is_brand then false
    else match findOne (accepted_application_of collab_id (User.user_id user))
                 (Db.applications db) with
         | Some _ => true
         | None => false
         end in
  reject_if (negb is_brand && negb is_influencer) NotAuthorized ;;;
  reject_if (includes blocked (Collab.status collab)) CancelTooLate ;;;
  if (Collab.status collab === "active")
     && includes ["secured"; "awaiting_escrow"; "none"]
          (jsOrS (Collab.payment_status collab) "none") then
    let db1 :=
      Db.set_collaborations
        (updateOne (by_collab_id collab_id)
           (set_all [Collab.set_status "cancelled";
                     Collab.set_payment_status
                       (Some (if payment_secured collab then "refunded"
                              else "none"));
                     Collab.set_cancelled_at (Some ts);
                     Collab.set_cancelled_by (Some (User.user_id user));
                     Collab.set_cancellation_reason (Some reason)])
           (Db.collaborations db)) db in
    let db2 :=
      if payment_secured collab then
        Db.set_escrow_payments
          (updateOne (escrow_of_collab_in collab_id ["secured"])
             (set_all [Escrow.set_status "refunded";
                       Escrow.set_refunded_at (Some ts)])
             (Db.escrow_payments db1)) db1
      else db1 in
    Ok (Db.set_cancellations
          (insertOne
             (Cancellation.mk cancellation_id collab_id (User.user_id user)
                (if is_brand then "brand" else "influencer") reason details
                "completed"
                (Some (if payment_secured collab then "full_refund"
                       else "no_payment"))
                ts (Some ts) None None)
             (Db.cancellations db2)) db2)
  else if Collab.status collab === "in_progress" then
    let requesterType := if is_brand then "brand" else "influencer" in
    let cancelStatus := "cancellation_requested_by_" ++ requesterType in
    let db1 :=
      Db.set_collaborations
        (updateOne (by_collab_id collab_id) (Collab.set_status cancelStatus)
           (Db.collaborations db)) db in
    Ok (Db.set_cancellations
          (insertOne
             (Cancellation.mk cancellation_id collab_id (User.user_id user)
                requesterType reason details "pending_admin_review" None
                ts None None None)
             (Db.cancellations db1)) db1)
  else Err CancelNotPossible.

(** [router.patch('/admin/cancellations/:cancellation_id/resolve')] *)
Definition resolveCancellation (db : Db.t) (ADMIN_EMAILS : list string)
  (session : option User.t) (cancellation_id resolution admin_notes : string)
  (partial_amount : Q) (ts : Z) : result Db.t :=
  user <- requireAdmin ADMIN_EMAILS session ;;
  cancellation <- found (findOne
                           (fun c => Cancellation.cancellation_id c
                                     === cancellation_id)
                           (Db.cancellations db)) CancellationNotFound ;;
  reject_if (negb (Cancellation.status cancellation === "pending_admin_review"))
    CancellationAlreadyResolved ;;;
  let collab_id := Cancellation.collab_id cancellation in
  let held := ["secured"; "completed_pending_release"] in
  let db1 :=
    if resolution === "full_refund" then
      let d :=
        Db.set_collaborations
          (updateOne (by_collab_id collab_id)
             (set_all [Collab.set_status "cancelled";
                       Collab.set_payment_status (Some "refunded");
                       Collab.set_cancelled_at (Some ts)])
             (Db.collaborations db)) db in
      Db.set_escrow_payments
        (updateOne (escrow_of_collab_in collab_id held)
           (set_all [Escrow.set_status "refunded";
                     Escrow.set_refunded_at (Some ts)])
           (Db.escrow_payments d)) d
    else if resolution === "partial_refund" then
      let d :=
        Db.set_collaborations
          (updateOne (by_collab_id collab_id)
             (set_all [Collab.set_status "cancelled";
                       Collab.set_payment_status (Some "partial_refund");
                       Collab.set_cancelled_at (Some ts)])
             (Db.collaborations db)) db in
      match findOne (escrow_of_collab_in collab_id held)
              (Db.escrow_payments d) with
      | Some escrow =>
          Db.set_escrow_payments
            (updateOne (by_escrow_id (Escrow.escrow_id escrow))
               (set_all [Escrow.set_status "partial_refund";
                         Escrow.set_partial_refund_amount (Some partial_amount);
                         Escrow.set_refunded_at (Some ts)])
               (Db.escrow_payments d)) d
      | None => d
      end
    else if resolution === "continue" then
      Db.set_collaborations
        (updateOne (by_collab_id collab_id) (Collab.set_status "in_progress")
           (Db.collaborations db)) db
    else db in
  Ok (Db.set_cancellations
        (updateOne
           (fun c => Cancellation.cancellation_id c === cancellation_id)
           (set_all [Cancellation.set_status "resolved";
                     Cancellation.set_resolution (Some resolution);
                     Cancellation.set_admin_notes (Some admin_notes);
                     Cancellation.set_partial_amount
                       (if resolution === "partial_refund"
                        then Some partial_amount else None);
                     Cancellation.set_resolved_at (Some ts)])
           (Db.cancellations db1)) db1).

(** ** Disputes *)

(** [{ collab_id, status: { $in: ['open', 'under_review'] } }] on
    [disputes]. *)
Definition active_dispute_of (collab_id : string) (d : Dispute.t) : bool :=
  (Dispute.collab_id d === collab_id)
  && includes ["open"; "under_review"] (Dispute.status d).

Definition by_dispute_id (id : string) (d : Dispute.t) : bool :=
  Dispute.dispute_id d === id.

(** [router.post('/disputes/create/:collab_id')] *)
Definition openDispute (db : Db.t) (session : option User.t)
  (collab_id reason details dispute_id : string) (ts : Z)
  : result (Db.t * Dispute.t) :=
  user <- requireAuth session ;;
  collab <- found (findOne (by_collab_id collab_id) (Db.collaborations db))
              CollabNotFound ;;
  reject_if (negb (Collab.status collab === "completed_pending_release"))
    DisputeOnlyPendingRelease ;;;
  let is_brand := Collab.brand_user_id collab === User.user_id user in
  let is_influencer :=
    if is_brand then false
    else match findOne (accepted_application_of collab_id (User.user_id user))
                 (Db.applications db) with
         | Some _ => true
         | None => false
         end in
  reject_if (negb is_brand && negb is_influencer) NotAuthorized ;;;
  match findOne (active_dispute_of collab_id) (Db.disputes db) with
  | Some _ => Err DisputeAlreadyOpen
  | None =>
      let infApp := findOne (accepted_application collab_id)
                      (Db.applications db) in
      let disputeDoc :=
        Dispute.mk dispute_id collab_id (User.user_id user)
          (if is_brand then "brand" else "influencer") (User.name user)
          reason details "open" ts (Collab.brand_user_id collab)
          (option_map Application.influencer_user_id infApp)
          None None None None None in
      let db1 := Db.set_disputes (insertOne disputeDoc (Db.disputes db)) db in
      let db2 :=
        Db.set_collaborations
          (updateOne (by_collab_id collab_id)
             (set_all [Collab.set_status "disputed";
                       Collab.set_payment_status (Some "disputed");
                       Collab.set_disputed_at (Some ts)])
             (Db.collaborations db1)) db1 in
      let db3 :=
        Db.set_escrow_payments
          (updateOne (escrow_of_collab_in collab_id ["completed_pending_release"])
             (set_all [Escrow.set_status "disputed";
                       Escrow.set_disputed_at (Some ts)])
             (Db.escrow_payments db2)) db2 in
      Ok (Db.set_messages
            (updateMany (fun m => Message.collab_id m === collab_id)
               (Message.set_thread_locked true) (Db.messages db3)) db3,
          disputeDoc)
  end.

(** ** Commissions *)

(** [escrow.commission_rate || await getCommissionRate()] *)
Definition release_rate (db : Db.t) (escrow : Escrow.t) : Q :=
  jsOrQ (Some (Escrow.commission_rate escrow)) (getCommissionRate db).

(** The body of the loop [for (const a of apps)] of the release handler
    and of the dispute resolution that favours the influencer. *)
Definition commission_of (escrow : Escrow.t) (rate : Q) (commission_id : string)
  (ts : Z) (a : Application.t) : Commission.t :=
  let proposed :=
    jsOrQ (Application.proposed_price a)
      (jsOrQ (Some (Escrow.total_amount escrow)) 0) in
  let commission := round2 (proposed * rate / 100) in
  let net := round2 (proposed - commission) in
  Commission.mk commission_id (Escrow.collab_id escrow)
    (Application.application_id a) (Escrow.brand_user_id escrow)
    (Application.influencer_user_id a) proposed rate commission net
    "completed" ts.

(** The documents the loop inserts; [genId n] is the identifier drawn for
    the [n]-th accepted application. *)
Fixpoint commissions_from (escrow : Escrow.t) (rate : Q) (genId : nat -> string)
  (ts : Z) (n : nat) (apps : list Application.t) : list Commission.t :=
  match apps with
  | [] => []
  | a :: apps' =>
      commission_of escrow rate (genId n) ts a
      :: commissions_from escrow rate genId ts (S n) apps'
  end.

(** [router.patch('/admin/disputes/:dispute_id/resolve')] *)
Definition resolveDispute (db : Db.t) (ADMIN_EMAILS : list string)
  (session : option User.t) (dispute_id resolution admin_notes : string)
  (split_influencer split_brand : Q) (genId : nat -> string) (ts : Z)
  : result Db.t :=
  user <- requireAdmin ADMIN_EMAILS session ;;
  dispute <- found (findOne (by_dispute_id dispute_id) (Db.disputes db))
               DisputeNotFound ;;
  reject_if (Dispute.status dispute === "resolved") DisputeAlreadyResolved ;;;
  let collab_id := Dispute.collab_id dispute in
  let escrow := findOne (escrow_of_collab_in collab_id ["disputed"])
                  (Db.escrow_payments db) in
  let db1 :=
    if resolution === "release_to_influencer" then
      let d :=
        match escrow with
        | Some escrow =>
            let rate := release_rate db escrow in
            let apps := filter (accepted_application collab_id)
                          (Db.applications db) in
            let d0 :=
              Db.set_commissions
                (Db.commissions db
                 ++ commissions_from escrow rate genId ts 0 apps) db in
            Db.set_escrow_payments
              (updateOne (by_escrow_id (Escrow.escrow_id escrow))
                 (set_all [Escrow.set_status "released";
                           Escrow.set_released_at (Some ts)])
                 (Db.escrow_payments d0)) d0
        | None => db
        end in
      Db.set_collaborations
        (updateOne (by_collab_id collab_id)
           (set_all [Collab.set_status "completed";
                     Collab.set_payment_status (Some "released");
                     Collab.set_released_at (Some ts)])
           (Db.collaborations d)) d
    else if resolution === "refund_to_brand" then
      let d :=
        match escrow with
        | Some escrow =>
            Db.set_escrow_payments
              (updateOne (by_escrow_id (Escrow.escrow_id escrow))
                 (set_all [Escrow.set_status "refunded";
                           Escrow.set_refunded_at (Some ts)])
                 (Db.escrow_payments db)) db
        | None => db
        end in
      Db.set_collaborations
        (updateOne (by_collab_id collab_id)
           (set_all [Collab.set_status "cancelled";
                     Collab.set_payment_status (Some "refunded");
                     Collab.set_cancelled_at (Some ts)])
           (Db.collaborations d)) d
    else if resolution === "split" then
      let d :=
        match escrow with
        | Some escrow =>
            Db.set_escrow_payments
              (updateOne (by_escrow_id (Escrow.escrow_id escrow))
                 (set_all [Escrow.set_status "split_resolved";
                           Escrow.set_split_influencer (Some split_influencer);
                           Escrow.set_split_brand (Some split_brand);
                           Escrow.set_resolved_at (Some ts)])
                 (Db.escrow_payments db)) db
        | None => db
        end in
      Db.set_collaborations
        (updateOne (by_collab_id collab_id)
           (set_all [Collab.set_status "completed";
                     Collab.set_payment_status (Some "split_resolved")])
           (Db.collaborations d)) d
    else db in
  Ok (Db.set_disputes
        (updateOne (by_dispute_id dispute_id)
           (set_all [Dispute.set_status "resolved";
                     Dispute.set_resolution (Some resolution);
                     Dispute.set_admin_notes (Some admin_notes);
                     Dispute.set_split_influencer
                       (if resolution === "split"
                        then Some split_influencer else None);
                     Dispute.set_split_brand
                       (if resolution === "split"
                        then Some split_brand else None);
                     Dispute.set_resolved_at (Some ts)])
           (Db.disputes db1)) db1).

(** ** Escrow *)

(** [router.post('/escrow/create/:collab_id')] *)
Definition createEscrow (db : Db.t) (session : option User.t)
  (collab_id escrow_id : string) (ts : Z) : result (Db.t * Escrow.t) :=
  user <- requireAuth session ;;
  collab <- found (findOne (by_collab_id collab_id) (Db.collaborations db))
              CollabNotFound ;;
  reject_if (negb (Collab.brand_user_id collab === User.user_id user))
    NotAuthorized ;;;
  reject_if (negb (is_paid collab)) EscrowOnlyPaid ;;;
  match findOne (escrow_of_collab_in collab_id ["pending"; "secured"])
          (Db.escrow_payments db) with
  | Some _ => Err EscrowAlreadyExists
  | None =>
      let rate := getCommissionRate db in
      let budget :=
        jsOrQ (Collab.budget_max collab) (jsOrQ (Collab.budget_min collab) 0) in
      let commission := round2 (budget * rate / 100) in
      let influencer_payout := round2 (budget - commission) in
      let escrowDoc :=
        Escrow.mk escrow_id collab_id (User.user_id user) budget
          influencer_payout commission rate "pending" "pending" "mock" None ts
          None None None None None None None None None None in
      Ok (Db.set_escrow_payments (insertOne escrowDoc (Db.escrow_payments db))
            db, escrowDoc)
  end.

(** [router.post('/escrow/:escrow_id/secure')] *)
Definition secureEscrow (db : Db.t) (session : option User.t)
  (escrow_id payment_ref : string) (ts : Z) : result Db.t :=
  user <- requireAuth session ;;
  escrow <- found (findOne (by_escrow_id escrow_id) (Db.escrow_payments db))
              EscrowNotFound ;;
  reject_if (negb (Escrow.brand_user_id escrow === User.user_id user))
    NotAuthorized ;;;
  reject_if (negb (Escrow.status escrow === "pending")) EscrowNotPending ;;;
  let db1 :=
    Db.set_escrow_payments
      (updateOne (by_escrow_id escrow_id)
         (set_all [Escrow.set_status "secured";
                   Escrow.set_payment_reference (Some payment_ref);
                   Escrow.set_secured_at (Some ts)])
         (Db.escrow_payments db)) db in
  Ok (Db.set_collaborations
        (updateOne (by_collab_id (Escrow.collab_id escrow))
           (set_all [Collab.set_payment_status (Some "secured");
                     Collab.set_escrow_id (Some escrow_id)])
           (Db.collaborations db1)) db1).

(** [router.post('/escrow/:escrow_id/release')] *)
Definition releaseEscrow (db : Db.t) (session : option User.t)
  (escrow_id : string) (genId : nat -> string) (ts : Z) : result Db.t :=
  user <- requireAuth session ;;
  escrow <- found (findOne (by_escrow_id escrow_id) (Db.escrow_payments db))
              EscrowNotFound ;;
  reject_if (negb (Escrow.brand_user_id escrow === User.user_id user)
             && negb (User.is_admin user)) NotAuthorized ;;;
  reject_if (negb (Escrow.status escrow === "completed_pending_release"))
    EscrowNotReleaseReady ;;;
  let rate := release_rate db escrow in
  let apps := filter (accepted_application (Escrow.collab_id escrow))
                (Db.applications db) in
  let db1 :=
    Db.set_commissions
      (Db.commissions db ++ commissions_from escrow rate genId ts 0 apps) db in
  let db2 :=
    Db.set_escrow_payments
      (updateOne (by_escrow_id escrow_id)
         (set_all [Escrow.set_status "released";
                   Escrow.set_released_at (Some ts)])
         (Db.escrow_payments db1)) db1 in
  Ok (Db.set_collaborations
        (updateOne (by_collab_id (Escrow.collab_id escrow))
           (set_all [Collab.set_status "completed";
                     Collab.set_payment_status (Some "released");
                     Collab.set_released_at (Some ts)])
           (Db.collaborations db2)) db2).

(** [router.post('/escrow/:escrow_id/refund')] *)
Definition refundEscrow (db : Db.t) (session : option User.t)
  (escrow_id : string) (ts : Z) : result Db.t :=
  user <- requireAuth session ;;
  escrow <- found (findOne (by_escrow_id escrow_id) (Db.escrow_payments db))
              EscrowNotFound ;;
  reject_if (negb (Escrow.brand_user_id escrow === User.user_id user)
             && negb (User.is_admin user)) NotAuthorized ;;;
  reject_if (negb (includes ["secured"; "completed_pending_release"]
                     (Escrow.status escrow))) EscrowCannotRefund ;;;
  let db1 :=
    Db.set_escrow_payments
      (updateOne (by_escrow_id escrow_id)
         (set_all [Escrow.set_status "refunded";
                   Escrow.set_refunded_at (Some ts)])
         (Db.escrow_payments db)) db in
  Ok (Db.set_collaborations
        (updateOne (by_collab_id (Escrow.collab_id escrow))
           (Collab.set_payment_status (Some "refunded"))
           (Db.collaborations db1)) db1).

(** ** Settings and the commission calculator *)

(** [router.put('/settings/commission')]; the body's [commission_rate] may
    be missing. *)
Definition setCommissionRate (db : Db.t) (ADMIN_EMAILS : list string)
  (session : option User.t) (commission_rate : option Q) : result Db.t :=
  user <- requireAdmin ADMIN_EMAILS session ;;
  match commission_rate with
  | None => Err CommissionRateOutOfRange
  | Some r =>
      reject_if (negb (Qle_bool 0 r) || negb (Qle_bool r 100))
        CommissionRateOutOfRange ;;;
      Ok (Db.set_settings_commission_rate (Some r) db)
  end.



(** ** Reviews *)

(** [{ reviewed_user_id: userId, reviewer_type: 'brand', is_revealed: true }] *)
Definition revealed_brand_review_of (userId : string) (r : Review.t) : bool :=
  (Review.reviewed_user_id r === userId)
  && (Review.reviewer_type r === "brand")
  && Review.is_revealed r.

(** [$avg] of a group of numbers. *)
Definition avg (l : list Q) : Q :=
  fold_right Qplus 0%Q l / inject_Z (Z.of_nat (List.length l)).

(** [updateInfluencerRating]: the aggregation returns no group when no
    review matches, and the profile is then left alone. *)
Definition updateInfluencerRating (db : Db.t) (userId : string) : Db.t :=
  match filter (revealed_brand_review_of userId) (Db.reviews db) with
  | [] => db
  | matched =>
      Db.set_influencer_profiles
        (updateOne (fun p => Profile.user_id p === userId)
           (set_all [Profile.set_avg_rating
                       (Some (round1 (avg (map Review.rating matched))));
                     Profile.set_review_count (Some (List.length matched))])
           (Db.influencer_profiles db)) db
  end.

(** [new Set()] filled by [add]: first occurrences, in insertion order. *)
Definition set_add (acc : list string) (x : string) : list string :=
  if includes acc x then acc else acc ++ [x].

(** [autoRevealTimedOutReviews], at clock reading [now]. *)
Definition autoRevealTimedOutReviews (db : Db.t) (now : Z) : Db.t :=
  let cutoff := now - REVIEW_REVEAL_TIMEOUT_DAYS * 24 * 60 * 60 * 1000 in
  let unrevealed :=
    filter (fun r => negb (Review.is_revealed r)
                     && (Review.created_at r <? cutoff)) (Db.reviews db) in
  match unrevealed with
  | [] => db
  | _ =>
      let ids := map Review.review_id unrevealed in
      let db1 :=
        Db.set_reviews
          (updateMany (fun r => includes ids (Review.review_id r))
             (Review.set_is_revealed true) (Db.reviews db)) db in
      let affected :=
        fold_left set_add
          (map Review.reviewed_user_id
             (filter (fun r => Review.reviewer_type r === "brand") unrevealed))
          [] in
      fold_left updateInfluencerRating affected db1
  end.

(** [router.post('/reviews')]; the body's [rating] may be missing. *)
Definition submitReview (db : Db.t) (session : option User.t)
  (application_id : string) (rating : option Q) (comment : option string)
  (review_id : string) (ts : Z) : result (Db.t * Review.t) :=
  user <- requireAuth session ;;
  rating <- match rating with
            | None => Err RatingOutOfRange
            | Some r =>
                if Qeq_bool r 0 || negb (Qle_bool 1 r) || negb (Qle_bool r 5)
                then Err RatingOutOfRange else Ok r
            end ;;
  application <- found (findOne
                          (fun a => Application.application_id a
                                    === application_id)
                          (Db.applications db)) ApplicationNotFound ;;
  reject_if (negb (Application.status application === "accepted"))
    ApplicationNotAccepted ;;;
  collab <- found (findOne (by_collab_id (Application.collab_id application))
                     (Db.collaborations db)) CollabNotFound ;;
  reject_if (is_paid collab
             && negb (match Collab.payment_status collab with
                      | Some s => s === "released"
                      | None => false
                      end)) ReviewFundsNotReleased ;;;
  reject_if (negb (is_paid collab)
             && negb (includes ["completed"; "completed_pending_release"]
                        (Collab.status collab))) ReviewCollabNotCompleted ;;;
  let is_brand := Collab.brand_user_id collab === User.user_id user in
  let is_influencer :=
    Application.influencer_user_id application === User.user_id user in
  reject_if (negb is_brand && negb is_influencer) ReviewNotAuthorized ;;;
  match findOne (fun r => (Review.application_id r === application_id)
                          && (Review.reviewer_user_id r === User.user_id user))
          (Db.reviews db) with
  | Some _ => Err AlreadyReviewed
  | None =>
      let reviewDoc :=
        Review.mk review_id application_id (Collab.collab_id collab)
          (User.user_id user) (User.name user)
          (if is_brand then "brand" else "influencer")
          (if is_brand then Application.influencer_user_id application
           else Collab.brand_user_id collab)
          rating comment (Collab.title collab) false ts in
      let db1 := Db.set_reviews (insertOne reviewDoc (Db.reviews db)) db in
      let otherReview :=
        findOne (fun r => (Review.application_id r === application_id)
                          && negb (Review.reviewer_user_id r
                                   === User.user_id user))
          (Db.reviews db1) in
      match otherReview with
      | Some _ =>
          let db2 :=
            Db.set_reviews
              (updateMany (fun r => Review.application_id r === application_id)
                 (Review.set_is_revealed true) (Db.reviews db1)) db1 in
          Ok (updateInfluencerRating db2
                (Application.influencer_user_id application), reviewDoc)
      | None => Ok (db1, reviewDoc)
      end
  end.

(** ** The server as a transition system *)

Definition empty_db : Db.t := Db.mk [] [] [] [] [] [] [] [] [] None.

(** One completed request. The handlers that are not modelled one by one
    (profiles, collaboration edits, applications, messages, reports, users)
    write to none of [escrow_payments], [disputes], [cancellations],
    [commissions] and [reviews]; [step_other] stands for all of them. *)
Inductive step (ADMIN_EMAILS : list string) : Db.t -> Db.t -> Prop :=
| step_createCollaboration db session data id db' doc :
    createCollaboration db session data id = Ok (db', doc) ->
    step ADMIN_EMAILS db db'
| step_requestStatusChange db session collab_id newStatus ts db' :
    requestStatusChange db session collab_id newStatus ts = Ok db' ->
    step ADMIN_EMAILS db db'
| step_requestCancellation db session collab_id reason details id ts db' :
    requestCancellation db session collab_id reason details id ts = Ok db' ->
    step ADMIN_EMAILS db db'
| step_resolveCancellation db session id resolution notes amount ts db' :
    resolveCancellation db ADMIN_EMAILS session id resolution notes amount ts
    = Ok db' ->
    step ADMIN_EMAILS db db'
| step_openDispute db session collab_id reason details id ts db' doc :
    openDispute db session collab_id reason details id ts = Ok (db', doc) ->
    step ADMIN_EMAILS db db'
| step_resolveDispute db session id resolution notes si sb genId ts db' :
    resolveDispute db ADMIN_EMAILS session id resolution notes si sb genId ts
    = Ok db' ->
    step ADMIN_EMAILS db db'
| step_createEscrow db session collab_id id ts db' doc :
    createEscrow db session collab_id id ts = Ok (db', doc) ->
    step ADMIN_EMAILS db db'
| step_secureEscrow db session id ref ts db' :
    secureEscrow db session id ref ts = Ok db' ->
    step ADMIN_EMAILS db db'
| step_releaseEscrow db session id genId ts db' :
    releaseEscrow db session id genId ts = Ok db' ->
    step ADMIN_EMAILS db db'
| step_refundEscrow db session id ts db' :
    refundEscrow db session id ts = Ok db' ->
    step ADMIN_EMAILS db db'
| step_setCommissionRate db session rate db' :
    setCommissionRate db ADMIN_EMAILS session rate = Ok db' ->
    step ADMIN_EMAILS db db'
| step_submitReview db session application_id rating comment id ts db' doc :
    submitReview db session application_id rating comment id ts
    = Ok (db', doc) ->
    step ADMIN_EMAILS db db'
| step_autoReveal db now :
    step ADMIN_EMAILS db (autoRevealTimedOutReviews db now)
| step_other db db' :
    Db.escrow_payments db' = Db.escrow_payments db ->
    Db.disputes db' = Db.disputes db ->
    Db.cancellations db' = Db.cancellations db ->
    Db.commissions db' = Db.commissions db ->
    Db.reviews db' = Db.reviews db ->
    step ADMIN_EMAILS db db'.

(** Any number of completed requests, one after the other. *)
Inductive steps (ADMIN_EMAILS : list string) : Db.t -> Db.t -> Prop :=
| steps_refl db : steps ADMIN_EMAILS db db
| steps_next db db' db'' :
    steps ADMIN_EMAILS db db' -> step ADMIN_EMAILS db' db'' ->
    steps ADMIN_EMAILS db db''.

(** The states the server can be in, started on an empty database. *)
Definition reachable (ADMIN_EMAILS : list string) (db : Db.t) : Prop :=
  steps ADMIN_EMAILS empty_db db.

(** ** What the properties speak about *)

(** The monetary fields of an escrow, with the rate they were computed at. *)
Definition money (e : Escrow.t) : Q * Q * Q * Q :=
  (Escrow.total_amount e, Escrow.commission_rate e,
   Escrow.platform_commission e, Escrow.influencer_payout e).

(** The statuses from which an escrow can still move. *)
Definition non_terminal : list string :=
  ["pending"; "secured"; "completed_pending_release"; "disputed"].

(** The number of documents of a collection that match a query. *)
Definition countDocuments {A : Type} (q : A -> bool) (c : list A) : nat :=
  List.length (filter q c).

(** What an update of one escrow document may do, whichever handler
    issues it: identifiers and monetary fields stay, the status never
    becomes [pending], and it becomes [secured] only from [pending]. *)
Definition moved (d d' : Escrow.t) : Prop :=
  Escrow.escrow_id d' = Escrow.escrow_id d
  /\ Escrow.collab_id d' = Escrow.collab_id d
  /\ money d' = money d
  /\ Escrow.status d' <> "pending"
  /\ (Escrow.status d' = "secured" -> Escrow.status d = "pending").

(** The two roundings of the escrow creation. *)
Definition money_identity (e : Escrow.t) : Prop :=
  Escrow.platform_commission e
  = round2 (Escrow.total_amount e * Escrow.commission_rate e / 100)
  /\ Escrow.influencer_payout e
     = round2 (Escrow.total_amount e - Escrow.platform_commission e).

(** How one request may change [escrow_payments]. *)
Inductive escrows_evolve (es : list Escrow.t) : list Escrow.t -> Prop :=
| evolve_same : escrows_evolve es es
| evolve_insert e :
    Escrow.status e = "pending" ->
    findOne (escrow_of_collab_in (Escrow.collab_id e) ["pending"; "secured"])
      es = None ->
    money_identity e ->
    escrows_evolve es (insertOne e es)
| evolve_update q set :
    (forall d, findOne q es = Some d -> moved d (set d)) ->
    escrows_evolve es (updateOne q set es).

(** A request that changed nothing but [collaborations]. *)
Definition only_collaborations_changed (db db' : Db.t) : Prop :=
  Db.escrow_payments db' = Db.escrow_payments db
  /\ Db.applications db' = Db.applications db
  /\ Db.disputes db' = Db.disputes db
  /\ Db.cancellations db' = Db.cancellations db
  /\ Db.messages db' = Db.messages db
  /\ Db.commissions db' = Db.commissions db
  /\ Db.reviews db' = Db.reviews db
  /\ Db.influencer_profiles db' = Db.influencer_profiles db
  /\ Db.settings_commission_rate db' = Db.settings_commission_rate db.

(** A request that changed nothing but [disputes]. *)
Definition only_disputes_changed (db db' : Db.t) : Prop :=
  Db.collaborations db' = Db.collaborations db
  /\ Db.escrow_payments db' = Db.escrow_payments db
  /\ Db.applications db' = Db.applications db
  /\ Db.cancellations db' = Db.cancellations db
  /\ Db.messages db' = Db.messages db
  /\ Db.commissions db' = Db.commissions db
  /\ Db.reviews db' = Db.reviews db
  /\ Db.influencer_profiles db' = Db.influencer_profiles db
  /\ Db.settings_commission_rate db' = Db.settings_commission_rate db.

(** The resolutions the dispute handler acts on. *)
Definition known_resolutions : list string :=
  ["release_to_influencer"; "refund_to_brand"; "split"].


(** A review is one per application and reviewer. *)
Definition review_key (r : Review.t) : string * string :=
  (Review.application_id r, Review.reviewer_user_id r).




(** The database after a request: the new one, or the old one when the
    request was rejected. *)
Definition commit (db : Db.t) (r : result Db.t) : Db.t :=
  match r with
  | Ok db' => db'
  | Err _ => db
  end.

(** The same for a handler that also answers with the document it made. *)
Definition commit_doc {A : Type} (db : Db.t) (r : result (Db.t * A)) : Db.t :=
  match r with
  | Ok (db', _) => db'
  | Err _ => db
  end.

(** What a commission row says, in lowest terms: rate, commission, net. *)
Definition commission_figures (c : Commission.t) : Q * Q * Q :=
  (Qred (Commission.commission_rate c), Qred (Commission.commission_amount c),
   Qred (Commission.net_amount c)).

(** The commission rows a release adds. *)
Definition released_figures (db : Db.t) (r : result Db.t) : list (Q * Q * Q) :=
  map commission_figures
    (skipn (List.length (Db.commissions db)) (Db.commissions (commit db r))).

(** ** A worked scenario *)

Definition brand : User.t :=
  User.mk "user_brand" "Brand" "brand@example.com" false false.

Definition creator : User.t :=
  User.mk "user_creator" "Creator" "creator@example.com" false false.

Definition admin : User.t :=
  User.mk "user_admin" "Admin" "admin@example.com" true false.

Definition paid_offer : CollabData :=
  {| data_title := "Campaign";
     data_budget_min := Some 1000%Q;
     data_budget_max := None;
     data_collaboration_type := Some "paid" |}.

(** The brand posts a paid offer with a budget of 1000 ... *)
Definition db_offer : Db.t :=
  commit_doc empty_db
    (createCollaboration empty_db (Some brand) paid_offer "collab_1").

(** ... the creator fills in a profile, applies and is accepted, and the
    brand sends a message (through the profile, application and message
    handlers, which write to [influencer_profiles], [applications] and
    [messages] only) ... *)
Definition db_accepted : Db.t :=
  Db.set_messages
    [Message.mk "msg_1" "collab_1" "user_brand" "Brand" "brand" "Welcome" 500
       false]
    (Db.set_applications
       [Application.mk "app_1" "collab_1" "user_creator" None "accepted"]
       (Db.set_influencer_profiles
          [Profile.mk "user_creator" "creator" None None] db_offer)).

(** ... the brand creates the escrow at the default rate of 10 ... *)
Definition db_pending : Db.t :=
  commit_doc db_accepted
    (createEscrow db_accepted (Some brand) "collab_1" "escrow_1" 1000).

(** The escrow document of that scenario, as created. *)
Definition escrow_1 : Escrow.t :=
  Escrow.mk "escrow_1" "collab_1" "user_brand" 1000
    (round2 (1000 - round2 (1000 * 10 / 100))) (round2 (1000 * 10 / 100))
    10 "pending" "pending" "mock" None 1000
    None None None None None None None None None None.

(** ... secures it ... *)
Definition db_secured : Db.t :=
  commit db_pending
    (secureEscrow db_pending (Some brand) "escrow_1" "pay_1" 2000).

(** The collaboration document once the escrow is secured. *)
Definition collab_1_secured : Collab.t :=
  Collab.mk "collab_1" "user_brand" "Campaign" (Some 1000%Q) None (Some "paid")
    "active" (Some "secured") (Some "escrow_1")
    None None None None None None None.

(** ... and marks the collaboration completed. *)
Definition db_delivered : Db.t :=
  commit db_secured
    (requestStatusChange db_secured (Some brand) "collab_1" "completed" 3000).

(** A second escrow asked for during the confirmation window. *)
Definition db_second_escrow : Db.t :=
  commit_doc db_delivered
    (createEscrow db_delivered (Some brand) "collab_1" "escrow_2" 4000).

(** The brand releases the funds after the window ... *)
Definition db_released : Db.t :=
  commit db_delivered
    (releaseEscrow db_delivered (Some brand) "escrow_1" (fun _ => "comm_1")
       5000).

(** ... and later asks for status 'active' again. *)
Definition db_reopened : Db.t :=
  commit db_released
    (requestStatusChange db_released (Some brand) "collab_1" "active" 6000).

(** After the release both parties review: the creator first ... *)
Definition db_first_review : Db.t :=
  commit_doc db_released
    (submitReview db_released (Some creator) "app_1" (Some 5%Q) None
       "review_1" 7000).

(** ... then the brand. *)
Definition db_both_reviews : Db.t :=
  commit_doc db_first_review
    (submitReview db_first_review (Some brand) "app_1" (Some 4%Q)
       (Some "On time") "review_2" 8000).

(** Instead of a release: the creator opens a dispute in the window. *)
Definition db_disputed : Db.t :=
  commit_doc db_delivered
    (openDispute db_delivered (Some creator) "collab_1" "quality_concerns"
       "Deliverable contested" "dispute_1" 5000).

(** The admin resolves that dispute with a resolution the handler does not
    know ... *)
Definition db_unknown_resolution : Db.t :=
  commit db_disputed
    (resolveDispute db_disputed [] (Some admin) "dispute_1" "escalate" ""
       0 0 (fun _ => "comm_1") 6000).

(** ... the brand writes the status of the window back ... *)
Definition db_window_again : Db.t :=
  commit db_unknown_resolution
    (requestStatusChange db_unknown_resolution (Some brand) "collab_1"
       "completed_pending_release" 7000).

(** ... opens a dispute of its own ... *)
Definition db_disputed_again : Db.t :=
  commit_doc db_window_again
    (openDispute db_window_again (Some brand) "collab_1" "other"
       "Funds are held" "dispute_2" 8000).

(** ... and the admin resolves this one for the brand. *)
Definition db_refunded_later : Db.t :=
  commit db_disputed_again
    (resolveDispute db_disputed_again [] (Some admin) "dispute_2"
       "refund_to_brand" "" 0 0 (fun _ => "comm_1") 9000).

(** ** The same scenario under a commission rate of 0 *)

(** The admin sets the rate to 0 before the escrow is created ... *)
Definition db_rate_zero : Db.t :=
  commit db_accepted (setCommissionRate db_accepted [] (Some admin) (Some 0%Q)).

(** ... the escrow is created, secured, and the collaboration marked
    completed ... *)
Definition db_zero_delivered : Db.t :=
  let db1 :=
    commit_doc db_rate_zero
      (createEscrow db_rate_zero (Some brand) "collab_1" "escrow_1" 1000) in
  let db2 :=
    commit db1 (secureEscrow db1 (Some brand) "escrow_1" "pay_1" 2000) in
  commit db2
    (requestStatusChange db2 (Some brand) "collab_1" "completed" 3000).

(** ... and raises it to 10 while the escrow waits for its release. *)
Definition db_rate_raised : Db.t :=
  commit db_zero_delivered
    (setCommissionRate db_zero_delivered [] (Some admin) (Some 10%Q)).

(** The creator disputes the delivery under the raised rate. *)
Definition db_zero_disputed : Db.t :=
  commit_doc db_rate_raised
    (openDispute db_rate_raised (Some creator) "collab_1" "quality_concerns"
       "Deliverable contested" "dispute_1" 5000).

(** ** Further handlers *)

(** [router.get('/reviews/application/:application_id')]: the handler asks
    for no session and filters on the application only. *)
Definition getApplicationReviews (db : Db.t) (application_id : string)
  : list Review.t :=
  filter (fun r => Review.application_id r === application_id) (Db.reviews db).

(** The refusals of the message handler. *)
Inductive MessageRefusal : Type :=
| MessageNotAuthenticated
| MessageEmpty
| MessageTooLong
| MessageCollabNotFound
| MessagesLockedByDispute
| MessageNotAuthorized
| MessagesNotAvailable
| MessagesNeedAcceptedApplication.

Inductive MessageAnswer : Type :=
| Sent (db : Db.t) (doc : Message.t)
| Refused (r : MessageRefusal).

(** The collaboration statuses in which messages may be sent. *)
Definition allowed : list string :=
  ["active"; "in_progress"; "completed_pending_release"; "completed";
   "cancellation_requested_by_brand"; "cancellation_requested_by_influencer"].

(** [router.post('/messages/:collab_id')]. [trim] and [jsLength] are
    [String.prototype.trim] and [.length] of the JavaScript runtime, which
    work on UTF-16 code units; they are taken as parameters. *)
Definition sendMessage (trim : string -> string) (jsLength : string -> Z)
  (db : Db.t) (session : option User.t) (collab_id : string)
  (body_content : option string) (message_id : string) (ts : Z)
  : MessageAnswer :=
  match session with
  | None => Refused MessageNotAuthenticated
  | Some user =>
      let content := trim (jsOrS body_content "") in
      if content === "" then Refused MessageEmpty
      else if 2000 <? jsLength content then Refused MessageTooLong
      else
        match findOne (by_collab_id collab_id) (Db.collaborations db) with
        | None => Refused MessageCollabNotFound
        | Some collab =>
            if Collab.status collab === "disputed"
            then Refused MessagesLockedByDispute
            else
              let is_brand :=
                Collab.brand_user_id collab === User.user_id user in
              let is_influencer :=
                if is_brand then false
                else match findOne
                             (accepted_application_of collab_id
                                (User.user_id user)) (Db.applications db) with
                     | Some _ => true
                     | None => false
                     end in
              if negb is_brand && negb is_influencer
              then Refused MessageNotAuthorized
              else if negb (includes allowed (Collab.status collab))
              then Refused MessagesNotAvailable
              else
                match findOne (accepted_application collab_id)
                        (Db.applications db) with
                | None => Refused MessagesNeedAcceptedApplication
                | Some _ =>
                    let msgDoc :=
                      Message.mk message_id collab_id (User.user_id user)
                        (User.name user)
                        (if is_brand then "brand" else "influencer")
                        content ts false in
                    Sent (Db.set_messages
                            (insertOne msgDoc (Db.messages db)) db) msgDoc
                end
        end
  end.

(** What [GET /escrow/collab/:collab_id] answers: [null], the escrow
    document, or the five fields shown to a user who is neither the brand
    nor an admin. *)
Inductive EscrowView : Type :=
| NoEscrow
| EscrowSummary (escrow_id status : string)
    (total_amount influencer_payout : Q) (payment_status : string)
| EscrowDocument (escrow : Escrow.t).

(** [router.get('/escrow/collab/:collab_id')] *)
Definition getEscrowForCollab (db : Db.t) (session : option User.t)
  (collab_id : string) : result EscrowView :=
  user <- requireAuth session ;;
  match findOne (fun e => (Escrow.collab_id e === collab_id)
                          && negb (includes ["cancelled"] (Escrow.status e)))
          (Db.escrow_payments db) with
  | None => Ok NoEscrow
  | Some escrow =>
      match findOne (by_collab_id collab_id) (Db.collaborations db) with
      | Some collab =>
          if negb (Collab.brand_user_id collab === User.user_id user)
             && negb (User.is_admin user)
          then Ok (EscrowSummary (Escrow.escrow_id escrow)
                     (Escrow.status escrow) (Escrow.total_amount escrow)
                     (Escrow.influencer_payout escrow) (Escrow.status escrow))
          else Ok (EscrowDocument escrow)
      | None => Ok (EscrowDocument escrow)
      end
  end.

(** ** What the further properties speak about *)




(** How one request may change [disputes]. *)
Inductive disputes_evolve (ds : list Dispute.t) : list Dispute.t -> Prop :=
| disputes_same : disputes_evolve ds ds
| disputes_open d :
    Dispute.status d = "open" ->
    findOne (active_dispute_of (Dispute.collab_id d)) ds = None ->
    disputes_evolve ds (insertOne d ds)
| disputes_resolve q set :
    (forall d, Dispute.status (set d) = "resolved") ->
    disputes_evolve ds (updateOne q set ds).


(** The clock reading before which a hidden review is due for the sweep. *)
Definition cutoff (now : Z) : Z :=
  now - REVIEW_REVEAL_TIMEOUT_DAYS * 24 * 60 * 60 * 1000.

(** ** Further scenarios *)

(** Work starts on the secured collaboration ... *)
Definition db_in_progress : Db.t :=
  commit db_secured
    (requestStatusChange db_secured (Some brand) "collab_1" "in_progress" 2500).

(** ... and the creator asks to cancel. *)
Definition db_cancel_requested : Db.t :=
  commit db_in_progress
    (requestCancellation db_in_progress (Some creator) "collab_1"
       "timeline_conflict" "Cannot deliver" "cancel_1" 2600).

(** * Properties *)

Open Scope list_scope.

(** ** Rounding *)




(** ** Collections *)

Section CollectionFacts.
Context {A : Type}.
Implicit Types (p q : A -> bool) (set : A -> A) (c : list A).

Lemma updateOne_no_match q set c :
  findOne q c = None -> updateOne q set c = c.
Proof.
  unfold findOne. induction c as [|d c IH]; simpl; [reflexivity|].
  destruct (q d); [discriminate|]. intros H. now rewrite IH.
Qed.

Lemma updateOne_first q set c d :
  findOne q c = Some d ->
  exists l1 l2, c = l1 ++ d :: l2 /\ updateOne q set c = l1 ++ set d :: l2.
Proof.
  unfold findOne. induction c as [|x c IH]; simpl; [discriminate|].
  destruct (q x) eqn:Hq; intros H.
  - injection H as ->. now exists [], c.
  - destruct (IH H) as (l1 & l2 & -> & E).
    exists (x :: l1), l2. simpl. now rewrite E.
Qed.

Lemma updateOne_length q set c :
  List.length (updateOne q set c) = List.length c.
Proof.
  induction c as [|d c IH]; simpl; [reflexivity|].
  destruct (q d); simpl; congruence.
Qed.


Lemma findOne_updateOne_same q set c d :
  findOne q c = Some d -> q (set d) = true ->
  findOne q (updateOne q set c) = Some (set d).
Proof.
  unfold findOne. induction c as [|x c IH]; simpl; [discriminate|].
  destruct (q x) eqn:Hq; intros H Hs.
  - injection H as ->. simpl. now rewrite Hs.
  - simpl. rewrite Hq. now apply IH.
Qed.

Lemma findOne_true q c d : findOne q c = Some d -> q d = true /\ In d c.
Proof. intros H. apply find_some in H. tauto. Qed.

Lemma findOne_none q c d : findOne q c = None -> In d c -> q d = false.
Proof. intros H. exact (find_none q c H d). Qed.

Lemma countDocuments_app p c1 c2 :
  countDocuments p (c1 ++ c2)
  = (countDocuments p c1 + countDocuments p c2)%nat.
Proof. unfold countDocuments. now rewrite filter_app, length_app. Qed.

Lemma countDocuments_none p c :
  findOne p c = None -> countDocuments p c = 0%nat.
Proof.
  unfold findOne, countDocuments. induction c as [|d c IH]; simpl;
    [reflexivity|].
  destruct (p d); [discriminate|]. exact IH.
Qed.

Lemma countDocuments_updateOne_le p q set c :
  (forall d, findOne q c = Some d -> p (set d) = true -> p d = true) ->
  (countDocuments p (updateOne q set c) <= countDocuments p c)%nat.
Proof.
  intros H. destruct (findOne q c) as [d|] eqn:F.
  - destruct (updateOne_first q set c d F) as (l1 & l2 & -> & ->).
    rewrite !countDocuments_app.
    change (set d :: l2) with ([set d] ++ l2).
    change (d :: l2) with ([d] ++ l2).
    rewrite !countDocuments_app. unfold countDocuments at 2 5. simpl.
    specialize (H d eq_refl).
    destruct (p (set d)); destruct (p d); simpl;
      solve [lia | discriminate (H eq_refl)].
  - rewrite updateOne_no_match by assumption. lia.
Qed.

Lemma updateMany_length q set c :
  List.length (updateMany q set c) = List.length c.
Proof. unfold updateMany. apply length_map. Qed.

Lemma In_updateMany q set c d' :
  In d' (updateMany q set c) ->
  exists d, In d c /\ d' = if q d then set d else d.
Proof.
  unfold updateMany. intros H. apply in_map_iff in H.
  destruct H as (d & <- & Hd). now exists d.
Qed.

End CollectionFacts.

(** ** Reading a handler that answered *)

Lemma bind_ok {A B : Type} (r : result A) (k : A -> result B) (b : B) :
  bind r k = Ok b -> exists a, r = Ok a /\ k a = Ok b.
Proof. destruct r; simpl; [eauto | discriminate]. Qed.

Lemma found_ok {A : Type} (o : option A) (f : Failure) (a : A) :
  found o f = Ok a -> o = Some a.
Proof. destruct o; simpl; congruence. Qed.

Lemma reject_if_ok (c : bool) (f : Failure) (u : unit) :
  reject_if c f = Ok u -> c = false.
Proof. destruct c; simpl; congruence. Qed.

Lemma requireAuth_ok (session : option User.t) (user : User.t) :
  requireAuth session = Ok user -> session = Some user.
Proof. apply found_ok. Qed.

(** Walks back through the binds and early returns of a handler whose
    answer is known to be [Ok]. *)
Ltac inv_ok :=
  repeat match goal with
  | H : bind _ _ = Ok _ |- _ =>
      let a := fresh "x" in
      apply bind_ok in H; destruct H as (a & ? & ?)
  | H : found _ _ = Ok _ |- _ => apply found_ok in H
  | H : reject_if _ _ = Ok _ |- _ => apply reject_if_ok in H
  | H : requireAuth _ = Ok _ |- _ => apply requireAuth_ok in H
  | H : requireAdmin _ _ = Ok _ |- _ => unfold requireAdmin in H
  | H : Err _ = Ok _ |- _ => discriminate H
  | H : Ok _ = Ok _ |- _ => injection H as H; try subst
  | H : (_, _) = (_, _) |- _ => injection H as ? ?; try subst
  | H : match ?x with _ => _ end = Ok _ |- _ => destruct x eqn:?
  end.

Ltac split_goal :=
  repeat match goal with
  | |- context [if ?c then _ else _] => destruct c eqn:?
  | |- context [match ?x with _ => _ end] => destruct x eqn:?
  end.

(** ** The rating and the sweep touch profiles and reviews only *)

Lemma updateInfluencerRating_frame (db : Db.t) (userId : string) :
  let db' := updateInfluencerRating db userId in
  Db.collaborations db' = Db.collaborations db
  /\ Db.escrow_payments db' = Db.escrow_payments db
  /\ Db.applications db' = Db.applications db
  /\ Db.disputes db' = Db.disputes db
  /\ Db.cancellations db' = Db.cancellations db
  /\ Db.messages db' = Db.messages db
  /\ Db.commissions db' = Db.commissions db
  /\ Db.reviews db' = Db.reviews db
  /\ Db.settings_commission_rate db' = Db.settings_commission_rate db.
Proof.
  unfold updateInfluencerRating.
  destruct (filter _ _); cbn; repeat split; reflexivity.
Qed.

Lemma fold_updateInfluencerRating_frame (uids : list string) (db : Db.t) :
  let db' := fold_left updateInfluencerRating uids db in
  Db.escrow_payments db' = Db.escrow_payments db
  /\ Db.disputes db' = Db.disputes db
  /\ Db.reviews db' = Db.reviews db.
Proof.
  revert db. induction uids as [|u uids IH]; intros db; simpl.
  - repeat split; reflexivity.
  - destruct (IH (updateInfluencerRating db u)) as (He & Hd & Hr).
    destruct (updateInfluencerRating_frame db u)
      as (_ & He' & _ & Hd' & _ & _ & _ & Hr' & _).
    simpl in *. repeat split; congruence.
Qed.

Lemma autoReveal_escrows (db : Db.t) (now : Z) :
  Db.escrow_payments (autoRevealTimedOutReviews db now)
  = Db.escrow_payments db.
Proof.
  unfold autoRevealTimedOutReviews.
  destruct (filter _ _); [reflexivity|].
  match goal with
  | |- Db.escrow_payments (fold_left _ ?u ?d) = _ =>
      destruct (fold_updateInfluencerRating_frame u d) as (-> & _)
  end.
  reflexivity.
Qed.

Lemma autoReveal_disputes (db : Db.t) (now : Z) :
  Db.disputes (autoRevealTimedOutReviews db now) = Db.disputes db.
Proof.
  unfold autoRevealTimedOutReviews.
  destruct (filter _ _); [reflexivity|].
  match goal with
  | |- Db.disputes (fold_left _ ?u ?d) = _ =>
      destruct (fold_updateInfluencerRating_frame u d) as (_ & -> & _)
  end.
  reflexivity.
Qed.

(** ** How the requests change [escrow_payments] *)

Ltac moved_by_computation :=
  intros ? ?; unfold moved, money; cbn; repeat split; try discriminate.

Ltac escrows_step :=
  intros; inv_ok; cbn; split_goal; cbn;
  first [ apply evolve_same
        | apply evolve_update; moved_by_computation ].

Lemma step_escrows (ADMIN_EMAILS : list string) (db db' : Db.t) :
  step ADMIN_EMAILS db db' ->
  escrows_evolve (Db.escrow_payments db) (Db.escrow_payments db').
Proof.
  intros S. destruct S as
    [db session data id db' doc H
    |db session collab_id newStatus ts db' H
    |db session collab_id reason details id ts db' H
    |db session id resolution notes amount ts db' H
    |db session collab_id reason details id ts db' doc H
    |db session id resolution notes si sb genId ts db' H
    |db session collab_id id ts db' doc H
    |db session id ref ts db' H
    |db session id genId ts db' H
    |db session id ts db' H
    |db session rate db' H
    |db session application_id rating comment id ts db' doc H
    |db now
    |db db' He Hd Hc Hm Hr].
  - unfold createCollaboration in H. escrows_step.
  - unfold requestStatusChange in H. escrows_step.
  - unfold requestCancellation in H. escrows_step.
  - unfold resolveCancellation in H. escrows_step.
  - unfold openDispute in H. escrows_step.
  - unfold resolveDispute in H. escrows_step.
  - unfold createEscrow in H. inv_ok. cbn.
    apply evolve_insert; [reflexivity | exact Heqo | split; reflexivity].
  - unfold secureEscrow in H. inv_ok. cbn.
    apply evolve_update. intros d Hd. unfold moved, money. cbn.
    repeat split; try discriminate. intros _.
    assert (d = x0) by congruence. subst d.
    apply negb_false_iff, String.eqb_eq in H2. exact H2.
  - unfold releaseEscrow in H. escrows_step.
  - unfold refundEscrow in H. escrows_step.
  - unfold setCommissionRate in H. escrows_step.
  - unfold submitReview in H. inv_ok; cbn.
    + match goal with
      | |- escrows_evolve _ (Db.escrow_payments (updateInfluencerRating ?d ?u)) =>
          destruct (updateInfluencerRating_frame d u) as (_ & He & _)
      end.
      cbn in He. rewrite He. apply evolve_same.
    + apply evolve_same.
  - rewrite autoReveal_escrows. apply evolve_same.
  - rewrite He. apply evolve_same.
Qed.

(** ** C1: the monetary fields of an escrow *)






(** ** C9: the commission calculator *)



(** ** C3: escrows that are pending or secured *)

Lemma includes_In (l : list string) (s : string) :
  includes l s = true <-> In s l.
Proof.
  unfold includes. rewrite existsb_exists. split.
  - intros (x & Hx & E). apply String.eqb_eq in E. now subst.
  - intros H. exists s. split; [assumption | apply String.eqb_refl].
Qed.

Lemma escrow_of_collab_in_true (c : string) (sts : list string)
  (e : Escrow.t) :
  escrow_of_collab_in c sts e = true
  <-> Escrow.collab_id e = c /\ In (Escrow.status e) sts.
Proof.
  unfold escrow_of_collab_in.
  now rewrite andb_true_iff, String.eqb_eq, includes_In.
Qed.

Lemma evolve_active_count (es es' : list Escrow.t) (c : string) :
  escrows_evolve es es' ->
  (countDocuments (escrow_of_collab_in c ["pending"; "secured"]) es <= 1)%nat ->
  (countDocuments (escrow_of_collab_in c ["pending"; "secured"]) es' <= 1)%nat.
Proof.
  intros [|e Hst Hnone _|q set Hm] Hle.
  - exact Hle.
  - unfold insertOne. rewrite countDocuments_app.
    unfold countDocuments at 2. simpl.
    destruct (escrow_of_collab_in c _ e) eqn:He; simpl; [|lia].
    apply escrow_of_collab_in_true in He. destruct He as [<- _].
    rewrite (countDocuments_none _ _ Hnone). lia.
  - etransitivity; [|exact Hle].
    apply countDocuments_updateOne_le. intros d Hd Hp.
    destruct (Hm d Hd) as (_ & Hc & _ & Hnp & Hsec).
    apply escrow_of_collab_in_true in Hp. destruct Hp as [Hcol Hin].
    apply escrow_of_collab_in_true. split; [congruence|].
    simpl in Hin. destruct Hin as [E|[E|[]]].
    + now elim Hnp.
    + left. symmetry. now apply Hsec.
Qed.

Lemma reachable_active_count (ADMIN_EMAILS : list string) (db db' : Db.t) :
  steps ADMIN_EMAILS db db' ->
  (forall c, (countDocuments (escrow_of_collab_in c ["pending"; "secured"])
                (Db.escrow_payments db) <= 1)%nat) ->
  forall c, (countDocuments (escrow_of_collab_in c ["pending"; "secured"])
               (Db.escrow_payments db') <= 1)%nat.
Proof.
  induction 1 as [db|db db' db'' _ IH S]; intros H0 c.
  - apply H0.
  - eapply evolve_active_count; [eapply step_escrows; exact S|].
    now apply IH.
Qed.

Lemma steps_one (ADMIN_EMAILS : list string) (db db' : Db.t) :
  step ADMIN_EMAILS db db' -> steps ADMIN_EMAILS db db'.
Proof. intros S. eapply steps_next; [apply steps_refl | exact S]. Qed.

Lemma steps_trans (ADMIN_EMAILS : list string) (db1 db2 db3 : Db.t) :
  steps ADMIN_EMAILS db1 db2 -> steps ADMIN_EMAILS db2 db3 ->
  steps ADMIN_EMAILS db1 db3.
Proof.
  intros H12 H23. induction H23 as [|db2 db3 db4 _ IH S]; [assumption|].
  eapply steps_next; [apply IH; assumption | exact S].
Qed.

(** The scenario is a run of the server. *)
Lemma scenario_accepted : reachable [] db_accepted.
Proof.
  unfold reachable. eapply steps_next; [eapply steps_next; [apply steps_refl|]|].
  - eapply step_createCollaboration
      with (session := Some brand) (data := paid_offer) (id := "collab_1").
    reflexivity.
  - apply step_other; vm_compute; reflexivity.
Qed.

Lemma scenario_pending_to_delivered : steps [] db_pending db_delivered.
Proof.
  eapply steps_next; [apply steps_one|].
  - eapply step_secureEscrow
      with (session := Some brand) (id := "escrow_1") (ref := "pay_1")
           (ts := 2000).
    vm_compute. reflexivity.
  - eapply step_requestStatusChange
      with (session := Some brand) (collab_id := "collab_1")
           (newStatus := "completed") (ts := 3000).
    vm_compute. reflexivity.
Qed.

Lemma scenario_delivered : reachable [] db_delivered.
Proof.
  unfold reachable. eapply steps_trans; [|apply scenario_pending_to_delivered].
  eapply steps_next; [apply scenario_accepted|].
  eapply step_createEscrow
    with (session := Some brand) (collab_id := "collab_1") (id := "escrow_1")
         (ts := 1000).
  vm_compute. reflexivity.
Qed.

Lemma scenario_createEscrow :
  createEscrow db_accepted (Some brand) "collab_1" "escrow_1" 1000
  = Ok (db_pending, escrow_1).
Proof. vm_compute. reflexivity. Qed.


Lemma createEscrow_conflict_iff (db : Db.t) (user : User.t)
  (collab : Collab.t) (collab_id escrow_id : string) (ts : Z) :
  findOne (by_collab_id collab_id) (Db.collaborations db) = Some collab ->
  Collab.brand_user_id collab = User.user_id user ->
  is_paid collab = true ->
  match findOne (escrow_of_collab_in collab_id ["pending"; "secured"])
          (Db.escrow_payments db) with
  | Some _ =>
      createEscrow db (Some user) collab_id escrow_id ts
      = Err EscrowAlreadyExists
  | None =>
      exists db' e,
        createEscrow db (Some user) collab_id escrow_id ts = Ok (db', e)
        /\ Escrow.status e = "pending"
        /\ Db.escrow_payments db' = Db.escrow_payments db ++ [e]
  end.
Proof.
  intros Hc Hb Hp. unfold createEscrow. simpl. rewrite Hc. simpl.
  rewrite Hb, String.eqb_refl, Hp. simpl.
  destruct (findOne (escrow_of_collab_in _ _) _); [reflexivity|].
  eexists _, _. repeat split.
Qed.

(** C3, as the code has it. In every state the server can reach, a
    collaboration has at most one escrow that is pending or secured. For the
    owning brand of a paid collaboration, [createEscrow] is rejected with the
    "already exists" conflict exactly when some escrow of the collaboration
    is pending or secured, and otherwise inserts a pending escrow; an escrow
    that is completed_pending_release or disputed does not stand in the way. *)
Theorem one_pending_or_secured_escrow :
  forall (ADMIN_EMAILS : list string) (db : Db.t),
    reachable ADMIN_EMAILS db ->
    (forall c,
        (countDocuments (escrow_of_collab_in c ["pending"; "secured"])
           (Db.escrow_payments db) <= 1)%nat)
    /\ forall (user : User.t) (collab : Collab.t)
              (collab_id escrow_id : string) (ts : Z),
        findOne (by_collab_id collab_id) (Db.collaborations db) = Some collab ->
        Collab.brand_user_id collab = User.user_id user ->
        is_paid collab = true ->
        ((exists e, In e (Db.escrow_payments db)
                    /\ Escrow.collab_id e = collab_id
                    /\ (Escrow.status e = "pending"
                        \/ Escrow.status e = "secured")) ->
         createEscrow db (Some user) collab_id escrow_id ts
         = Err EscrowAlreadyExists
         /\ error_kind EscrowAlreadyExists = Conflict)
        /\ ((forall e, In e (Db.escrow_payments db) ->
                       Escrow.collab_id e = collab_id ->
                       Escrow.status e <> "pending"
                       /\ Escrow.status e <> "secured") ->
            exists db' e,
              createEscrow db (Some user) collab_id escrow_id ts = Ok (db', e)
              /\ Escrow.status e = "pending"
              /\ Db.escrow_payments db' = Db.escrow_payments db ++ [e]).
Proof.
  intros A db R. split.
  - apply (reachable_active_count A empty_db db R). intros c.
    unfold empty_db, countDocuments. simpl. lia.
  - intros user collab collab_id escrow_id ts Hc Hb Hp.
    pose proof (createEscrow_conflict_iff db user collab collab_id escrow_id
                  ts Hc Hb Hp) as H.
    destruct (findOne (escrow_of_collab_in collab_id ["pending"; "secured"])
                (Db.escrow_payments db)) as [e0|] eqn:F.
    + split; [intros _; split; [exact H | reflexivity]|].
      intros Hnone. exfalso.
      destruct (findOne_true _ _ _ F) as [Hq Hin].
      apply escrow_of_collab_in_true in Hq. destruct Hq as [Hcol Hst].
      destruct (Hnone e0 Hin Hcol) as [N1 N2].
      simpl in Hst. destruct Hst as [E|[E|[]]]; congruence.
    + split; [|intros _; exact H].
      intros (e & Hin & Hcol & Hst). exfalso.
      pose proof (findOne_none _ _ e F Hin) as Hq.
      assert (escrow_of_collab_in collab_id ["pending"; "secured"] e = true).
      { apply escrow_of_collab_in_true. split; [assumption|].
        simpl. destruct Hst as [->| ->]; auto. }
      congruence.
Qed.

Lemma one_pending_or_secured_escrow_witness :
  reachable [] db_delivered
  /\ (countDocuments (escrow_of_collab_in "collab_1" ["pending"; "secured"])
        (Db.escrow_payments db_delivered) <= 1)%nat.
Proof.
  split; [apply scenario_delivered|].
  apply (one_pending_or_secured_escrow [] db_delivered scenario_delivered).
Defined.

(** C3, as stated, fails: in the scenario the first escrow waits in
    completed_pending_release, the brand's second [createEscrow] is accepted,
    and the collaboration then has two escrows in a non-terminal status. *)
Lemma second_escrow_during_confirmation_window :
  reachable [] db_delivered
  /\ (exists e, findOne (escrow_of_collab_in "collab_1" non_terminal)
                  (Db.escrow_payments db_delivered) = Some e)
  /\ (exists e,
        createEscrow db_delivered (Some brand) "collab_1" "escrow_2" 4000
        = Ok (db_second_escrow, e))
  /\ reachable [] db_second_escrow
  /\ countDocuments (escrow_of_collab_in "collab_1" non_terminal)
       (Db.escrow_payments db_second_escrow) = 2%nat.
Proof.
  split; [apply scenario_delivered|].
  split; [eexists; vm_compute; reflexivity|].
  split; [eexists; vm_compute; reflexivity|].
  split; [|vm_compute; reflexivity].
  eapply steps_next; [apply scenario_delivered|].
  eapply step_createEscrow
    with (session := Some brand) (collab_id := "collab_1") (id := "escrow_2")
         (ts := 4000).
  vm_compute. reflexivity.
Qed.

(** ** C4: marking a collaboration completed *)

Lemma by_collab_id_found (id : string) (cs : list Collab.t) (c : Collab.t) :
  findOne (by_collab_id id) cs = Some c -> Collab.collab_id c = id.
Proof.
  intros H. apply findOne_true in H. destruct H as [H _].
  now apply String.eqb_eq in H.
Qed.

(** With distinct identifiers, looking an escrow up by its identifier finds
    that very document. *)
Lemma findOne_by_escrow_id (es : list Escrow.t) (e : Escrow.t) :
  NoDup (map Escrow.escrow_id es) -> In e es ->
  findOne (by_escrow_id (Escrow.escrow_id e)) es = Some e.
Proof.
  unfold findOne, by_escrow_id.
  induction es as [|x es IH]; simpl; intros Hnd Hin; [contradiction|].
  inversion Hnd as [|? ? Hx Hnd']; subst.
  destruct (Escrow.escrow_id x === Escrow.escrow_id e) eqn:E.
  - destruct Hin as [->|Hin]; [reflexivity|].
    apply String.eqb_eq in E. exfalso. apply Hx. rewrite E.
    now apply in_map.
  - destruct Hin as [->|Hin]; [|now apply IH].
    now rewrite String.eqb_refl in E.
Qed.

(** C4. The owning brand asks for status 'completed'. On a paid
    collaboration the request is rejected ("funds must be secured", a failed
    precondition) when no secured escrow of the collaboration exists;
    otherwise the collaboration and that escrow both move to
    completed_pending_release and both get release_scheduled_at = now + 48 h.
    On a collaboration that is not paid (barter, free) the request always
    succeeds and sets status 'completed' and payment_status 'none'. Escrow
    identifiers are taken to be distinct, as [genId] draws them. *)
Theorem completion_needs_secured_funds :
  forall (db : Db.t) (user : User.t) (collab : Collab.t) (collab_id : string)
         (ts : Z),
    findOne (by_collab_id collab_id) (Db.collaborations db) = Some collab ->
    Collab.brand_user_id collab = User.user_id user ->
    NoDup (map Escrow.escrow_id (Db.escrow_payments db)) ->
    (is_paid collab = true ->
     match findOne (escrow_of_collab_in collab_id ["secured"])
             (Db.escrow_payments db) with
     | None =>
         requestStatusChange db (Some user) collab_id "completed" ts
         = Err FundsNotSecured
         /\ error_kind FundsNotSecured = PreconditionFailed
     | Some escrow =>
         exists db' collab' escrow' cs1 cs2 es1 es2,
           requestStatusChange db (Some user) collab_id "completed" ts = Ok db'
           /\ Db.collaborations db = cs1 ++ collab :: cs2
           /\ Db.collaborations db' = cs1 ++ collab' :: cs2
           /\ Collab.status collab' = "completed_pending_release"
           /\ Collab.payment_status collab' = Some "completed_pending_release"
           /\ Collab.release_scheduled_at collab'
              = Some (ts + 48 * 60 * 60 * 1000)
           /\ Db.escrow_payments db = es1 ++ escrow :: es2
           /\ Db.escrow_payments db' = es1 ++ escrow' :: es2
           /\ Escrow.escrow_id escrow' = Escrow.escrow_id escrow
           /\ Escrow.status escrow' = "completed_pending_release"
           /\ Escrow.release_scheduled_at escrow'
              = Some (ts + 48 * 60 * 60 * 1000)
     end)
    /\ (is_paid collab = false ->
        exists db' collab' cs1 cs2,
          requestStatusChange db (Some user) collab_id "completed" ts = Ok db'
          /\ Db.collaborations db = cs1 ++ collab :: cs2
          /\ Db.collaborations db' = cs1 ++ collab' :: cs2
          /\ Collab.status collab' = "completed"
          /\ Collab.payment_status collab' = Some "none"
          /\ Db.escrow_payments db' = Db.escrow_payments db).
Proof.
  intros db user collab collab_id ts Hc Hb Hnd.
  destruct (updateOne_first (by_collab_id collab_id)
              (set_all [Collab.set_status "completed_pending_release";
                        Collab.set_payment_status
                          (Some "completed_pending_release");
                        Collab.set_completed_at (Some ts);
                        Collab.set_release_scheduled_at
                          (Some (ts + 48 * 60 * 60 * 1000))])
              _ _ Hc) as (cs1 & cs2 & Ecs & Ecs').
  destruct (updateOne_first (by_collab_id collab_id)
              (set_all [Collab.set_status "completed";
                        Collab.set_payment_status (Some "none");
                        Collab.set_completed_at (Some ts)])
              _ _ Hc) as (cf1 & cf2 & Ecf & Ecf').
  split; intros Hp.
  - destruct (findOne (escrow_of_collab_in collab_id ["secured"])
                (Db.escrow_payments db)) as [escrow|] eqn:F.
    + destruct (findOne_true _ _ _ F) as [_ Hin].
      pose proof (findOne_by_escrow_id _ _ Hnd Hin) as Fid.
      destruct (updateOne_first (by_escrow_id (Escrow.escrow_id escrow))
                  (set_all [Escrow.set_status "completed_pending_release";
                            Escrow.set_completed_at (Some ts);
                            Escrow.set_release_scheduled_at
                              (Some (ts + 48 * 60 * 60 * 1000))])
                  _ _ Fid) as (es1 & es2 & Ees & Ees').
      eexists _, _, _, cs1, cs2, es1, es2.
      split.
      { unfold requestStatusChange. simpl. rewrite Hc. simpl.
        rewrite Hb, String.eqb_refl, Hp. simpl. rewrite F. simpl.
        reflexivity. }
      cbn [Db.collaborations Db.escrow_payments Db.set_collaborations
           Db.set_escrow_payments].
      split; [exact Ecs|]. split; [exact Ecs'|].
      split; [reflexivity|]. split; [reflexivity|]. split; [reflexivity|].
      split; [exact Ees|]. split; [exact Ees'|].
      repeat split.
    + split; [|reflexivity].
      unfold requestStatusChange. simpl. rewrite Hc. simpl.
      rewrite Hb, String.eqb_refl, Hp. simpl. rewrite F. reflexivity.
  - eexists _, _, cf1, cf2. split.
    { unfold requestStatusChange. simpl. rewrite Hc. simpl.
      rewrite Hb, String.eqb_refl, Hp. simpl. reflexivity. }
    cbn [Db.collaborations Db.escrow_payments Db.set_collaborations].
    split; [exact Ecf|]. split; [exact Ecf'|]. repeat split.
Qed.

Lemma completion_needs_secured_funds_witness :
  findOne (by_collab_id "collab_1") (Db.collaborations db_secured)
  = Some collab_1_secured
  /\ Collab.brand_user_id collab_1_secured = User.user_id brand
  /\ NoDup (map Escrow.escrow_id (Db.escrow_payments db_secured))
  /\ is_paid collab_1_secured = true
  /\ exists db',
       requestStatusChange db_secured (Some brand) "collab_1" "completed" 3000
       = Ok db'.
Proof.
  assert (H1 : findOne (by_collab_id "collab_1") (Db.collaborations db_secured)
               = Some collab_1_secured) by (vm_compute; reflexivity).
  assert (H2 : Collab.brand_user_id collab_1_secured = User.user_id brand)
    by reflexivity.
  assert (H3 : NoDup (map Escrow.escrow_id (Db.escrow_payments db_secured))).
  { vm_compute. constructor; [intros []|constructor]. }
  assert (H4 : is_paid collab_1_secured = true) by reflexivity.
  repeat (split; [assumption|]).
  destruct (completion_needs_secured_funds db_secured brand collab_1_secured
              "collab_1" 3000 H1 H2 H3) as [Hpaid _].
  specialize (Hpaid H4).
  destruct (findOne (escrow_of_collab_in "collab_1" ["secured"])
              (Db.escrow_payments db_secured)) eqn:F.
  - destruct Hpaid as (db' & _ & _ & _ & _ & _ & _ & H & _).
    exists db'. exact H.
  - vm_compute in F. discriminate F.
Defined.

(** ** C6: any other status request *)

(** C6, as the code has it. For the owning brand, a status request whose
    target is not 'completed' rewrites the status field of the collaboration
    and nothing else, whatever the current status is: a collaboration that is
    completed or cancelled is rewritten like any other. *)
Theorem other_status_is_written_unguarded :
  forall (db : Db.t) (user : User.t) (collab : Collab.t)
         (collab_id newStatus : string) (ts : Z),
    findOne (by_collab_id collab_id) (Db.collaborations db) = Some collab ->
    Collab.brand_user_id collab = User.user_id user ->
    newStatus <> "completed" ->
    exists db' cs1 cs2,
      requestStatusChange db (Some user) collab_id newStatus ts = Ok db'
      /\ Db.collaborations db = cs1 ++ collab :: cs2
      /\ Db.collaborations db' = cs1 ++ Collab.set_status newStatus collab :: cs2
      /\ only_collaborations_changed db db'.
Proof.
  intros db user collab collab_id newStatus ts Hc Hb Hn.
  destruct (updateOne_first (by_collab_id collab_id)
              (Collab.set_status newStatus) _ _ Hc) as (cs1 & cs2 & E & E').
  apply String.eqb_neq in Hn.
  eexists _, cs1, cs2. split.
  { unfold requestStatusChange. simpl. rewrite Hc. simpl.
    rewrite Hb, String.eqb_refl, Hn. simpl. reflexivity. }
  cbn [Db.collaborations Db.set_collaborations].
  split; [exact E|]. split; [exact E'|].
  unfold only_collaborations_changed. cbn. repeat split.
Qed.

Lemma other_status_is_written_unguarded_witness :
  exists db',
    requestStatusChange db_secured (Some brand) "collab_1" "in_progress" 2500
    = Ok db'.
Proof.
  assert (H1 : findOne (by_collab_id "collab_1") (Db.collaborations db_secured)
               = Some collab_1_secured) by (vm_compute; reflexivity).
  assert (H2 : Collab.brand_user_id collab_1_secured = User.user_id brand)
    by reflexivity.
  assert (H3 : "in_progress" <> "completed") by discriminate.
  destruct (other_status_is_written_unguarded db_secured brand
              collab_1_secured "collab_1" "in_progress" 2500 H1 H2 H3)
    as (db' & _ & _ & H & _).
  exists db'. exact H.
Defined.

(** C6, as stated, fails: the collaboration of the scenario is completed
    after the release, and the brand's request for status 'active' is
    answered with success and written. *)
Lemma completed_collaboration_accepts_status_change :
  option_map Collab.status
    (findOne (by_collab_id "collab_1") (Db.collaborations db_released))
  = Some "completed"
  /\ requestStatusChange db_released (Some brand) "collab_1" "active" 6000
     = Ok db_reopened
  /\ option_map Collab.status
       (findOne (by_collab_id "collab_1") (Db.collaborations db_reopened))
     = Some "active".
Proof. repeat split; vm_compute; reflexivity. Qed.

(** ** C7: cancellation before work starts *)

(** C7. The brand, or an influencer with an accepted application, asks to
    cancel a collaboration that is 'active' with payment_status secured,
    awaiting_escrow or none. The request resolves at once: the collaboration
    becomes 'cancelled'; if payment_status was 'secured' it becomes
    'refunded' and the secured escrow of the collaboration becomes
    'refunded', otherwise payment_status becomes 'none' and no escrow is
    touched; a Cancellation record with status 'completed' is added. *)
Theorem cancellation_auto_resolves :
  forall (db : Db.t) (user : User.t) (collab : Collab.t)
         (collab_id reason details cancellation_id : string) (ts : Z),
    findOne (by_collab_id collab_id) (Db.collaborations db) = Some collab ->
    Collab.brand_user_id collab = User.user_id user
    \/ (exists a, findOne (accepted_application_of collab_id
                             (User.user_id user)) (Db.applications db)
                  = Some a) ->
    Collab.status collab = "active" ->
    In (jsOrS (Collab.payment_status collab) "none")
      ["secured"; "awaiting_escrow"; "none"] ->
    exists db' collab' cancellation cs1 cs2,
      requestCancellation db (Some user) collab_id reason details
        cancellation_id ts = Ok db'
      /\ Db.collaborations db = cs1 ++ collab :: cs2
      /\ Db.collaborations db' = cs1 ++ collab' :: cs2
      /\ Collab.status collab' = "cancelled"
      /\ Collab.payment_status collab'
         = Some (if payment_secured collab then "refunded" else "none")
      /\ Db.escrow_payments db'
         = (if payment_secured collab
            then updateOne (escrow_of_collab_in collab_id ["secured"])
                   (set_all [Escrow.set_status "refunded";
                             Escrow.set_refunded_at (Some ts)])
                   (Db.escrow_payments db)
            else Db.escrow_payments db)
      /\ (payment_secured collab = true ->
          forall escrow,
            findOne (escrow_of_collab_in collab_id ["secured"])
              (Db.escrow_payments db) = Some escrow ->
            exists escrow' es1 es2,
              Db.escrow_payments db = es1 ++ escrow :: es2
              /\ Db.escrow_payments db' = es1 ++ escrow' :: es2
              /\ Escrow.status escrow' = "refunded"
              /\ Escrow.escrow_id escrow' = Escrow.escrow_id escrow)
      /\ Db.cancellations db' = Db.cancellations db ++ [cancellation]
      /\ Cancellation.collab_id cancellation = collab_id
      /\ Cancellation.requested_by cancellation = User.user_id user
      /\ Cancellation.status cancellation = "completed".
Proof.
  intros db user collab collab_id reason details cancellation_id ts
    Hc Hwho Hst Hpay.
  assert (Hauth :
    negb (Collab.brand_user_id collab === User.user_id user)
    && negb (if Collab.brand_user_id collab === User.user_id user then false
             else match findOne (accepted_application_of collab_id
                                   (User.user_id user)) (Db.applications db)
                  with Some _ => true | None => false end) = false).
  { destruct Hwho as [->|[a ->]].
    - now rewrite String.eqb_refl.
    - destruct (_ === _); reflexivity. }
  apply includes_In in Hpay.
  set (upd := set_all
                [Collab.set_status "cancelled";
                 Collab.set_payment_status
                   (Some (if payment_secured collab then "refunded"
                          else "none"));
                 Collab.set_cancelled_at (Some ts);
                 Collab.set_cancelled_by (Some (User.user_id user));
                 Collab.set_cancellation_reason (Some reason)]).
  destruct (updateOne_first (by_collab_id collab_id) upd _ _ Hc)
    as (cs1 & cs2 & E & E').
  eexists _, (upd collab),
    (Cancellation.mk cancellation_id collab_id (User.user_id user)
       (if Collab.brand_user_id collab === User.user_id user
        then "brand" else "influencer") reason details "completed"
       (Some (if payment_secured collab then "full_refund" else "no_payment"))
       ts (Some ts) None None), cs1, cs2.
  split.
  { unfold requestCancellation. simpl. rewrite Hc. simpl.
    rewrite Hauth. simpl. rewrite Hst. simpl.
    unfold includes in Hpay. simpl in Hpay. rewrite Hpay. reflexivity. }
  split; [exact E|]. split.
  { destruct (payment_secured collab); cbn; exact E'. }
  split; [reflexivity|]. split; [reflexivity|]. split.
  { destruct (payment_secured collab); reflexivity. }
  split.
  { intros Hsec escrow F. rewrite Hsec. cbn.
    destruct (updateOne_first (escrow_of_collab_in collab_id ["secured"])
                (set_all [Escrow.set_status "refunded";
                          Escrow.set_refunded_at (Some ts)]) _ _ F)
      as (es1 & es2 & Ee & Ee').
    eexists _, es1, es2. split; [exact Ee|]. split; [exact Ee'|].
    split; reflexivity. }
  destruct (payment_secured collab); cbn; repeat split.
Qed.

Lemma cancellation_auto_resolves_witness :
  exists db',
    requestCancellation db_secured (Some brand) "collab_1" "budget_issues"
      "No budget" "cancel_1" 2500 = Ok db'.
Proof.
  assert (H1 : findOne (by_collab_id "collab_1") (Db.collaborations db_secured)
               = Some collab_1_secured) by (vm_compute; reflexivity).
  assert (H2 : Collab.brand_user_id collab_1_secured = User.user_id brand
               \/ exists a, findOne (accepted_application_of "collab_1"
                                       (User.user_id brand))
                              (Db.applications db_secured) = Some a)
    by (left; reflexivity).
  assert (H3 : Collab.status collab_1_secured = "active") by reflexivity.
  assert (H4 : In (jsOrS (Collab.payment_status collab_1_secured) "none")
                 ["secured"; "awaiting_escrow"; "none"])
    by (left; reflexivity).
  destruct (cancellation_auto_resolves db_secured brand collab_1_secured
              "collab_1" "budget_issues" "No budget" "cancel_1" 2500
              H1 H2 H3 H4) as (db' & _ & _ & _ & _ & H & _).
  exists db'. exact H.
Defined.

(** ** C5: opening a dispute *)






(** ** C10: a resolution the handler does not know *)

Lemma releaseEscrow_rejects_disputed (db : Db.t) (session : option User.t)
  (id : string) (genId : nat -> string) (ts : Z) (escrow : Escrow.t) :
  findOne (by_escrow_id id) (Db.escrow_payments db) = Some escrow ->
  Escrow.status escrow = "disputed" ->
  exists f, releaseEscrow db session id genId ts = Err f.
Proof.
  intros F Hst. unfold releaseEscrow.
  destruct session as [user|]; simpl; [|eauto].
  rewrite F. simpl.
  destruct (negb (Escrow.brand_user_id escrow === User.user_id user)
            && negb (User.is_admin user)); simpl; [eauto|].
  rewrite Hst. simpl. eauto.
Qed.

Lemma refundEscrow_rejects_disputed (db : Db.t) (session : option User.t)
  (id : string) (ts : Z) (escrow : Escrow.t) :
  findOne (by_escrow_id id) (Db.escrow_payments db) = Some escrow ->
  Escrow.status escrow = "disputed" ->
  exists f, refundEscrow db session id ts = Err f.
Proof.
  intros F Hst. unfold refundEscrow.
  destruct session as [user|]; simpl; [|eauto].
  rewrite F. simpl.
  destruct (negb (Escrow.brand_user_id escrow === User.user_id user)
            && negb (User.is_admin user)); simpl; [eauto|].
  rewrite Hst. simpl. eauto.
Qed.

Lemma resolveDispute_rejects_resolved (db : Db.t) (ADMIN_EMAILS : list string)
  (session : option User.t) (id resolution notes : string) (si sb : Q)
  (genId : nat -> string) (ts : Z) (dispute : Dispute.t) :
  findOne (by_dispute_id id) (Db.disputes db) = Some dispute ->
  Dispute.status dispute = "resolved" ->
  exists f,
    resolveDispute db ADMIN_EMAILS session id resolution notes si sb genId ts
    = Err f.
Proof.
  intros F Hst. unfold resolveDispute.
  destruct (requireAdmin ADMIN_EMAILS session) as [user|f]; simpl; [|eauto].
  rewrite F. simpl. rewrite Hst. simpl. eauto.
Qed.

(** C10, as the code has it. An admin resolves a dispute that is not yet
    'resolved' with a resolution other than release_to_influencer,
    refund_to_brand and split. The call succeeds: the dispute becomes
    'resolved' with that resolution recorded, and nothing else in the
    database changes, so a disputed escrow stays disputed. In the state that
    results, the release and the refund of a disputed escrow are rejected and
    so is a second resolution of this dispute. *)
Theorem unknown_resolution_is_recorded :
  forall (db : Db.t) (ADMIN_EMAILS : list string) (session : option User.t)
         (user : User.t) (dispute : Dispute.t)
         (dispute_id resolution admin_notes : string)
         (split_influencer split_brand : Q) (genId : nat -> string) (ts : Z),
    requireAdmin ADMIN_EMAILS session = Ok user ->
    findOne (by_dispute_id dispute_id) (Db.disputes db) = Some dispute ->
    Dispute.status dispute <> "resolved" ->
    ~ In resolution known_resolutions ->
    exists db' dispute' ds1 ds2,
      resolveDispute db ADMIN_EMAILS session dispute_id resolution admin_notes
        split_influencer split_brand genId ts = Ok db'
      /\ Db.disputes db = ds1 ++ dispute :: ds2
      /\ Db.disputes db' = ds1 ++ dispute' :: ds2
      /\ Dispute.status dispute' = "resolved"
      /\ Dispute.resolution dispute' = Some resolution
      /\ only_disputes_changed db db'
      /\ (forall id escrow session' genId' ts',
            findOne (by_escrow_id id) (Db.escrow_payments db') = Some escrow ->
            Escrow.status escrow = "disputed" ->
            (exists f, releaseEscrow db' session' id genId' ts' = Err f)
            /\ (exists f, refundEscrow db' session' id ts' = Err f))
      /\ (forall session' resolution' notes' si' sb' genId' ts',
            exists f,
              resolveDispute db' ADMIN_EMAILS session' dispute_id resolution'
                notes' si' sb' genId' ts' = Err f).
Proof.
  intros db A session user dispute dispute_id resolution admin_notes
    si sb genId ts Ha Hd Hst Hres.
  assert (R1 : (resolution === "release_to_influencer") = false).
  { apply String.eqb_neq. intros ->. apply Hres. simpl. auto. }
  assert (R2 : (resolution === "refund_to_brand") = false).
  { apply String.eqb_neq. intros ->. apply Hres. simpl. auto. }
  assert (R3 : (resolution === "split") = false).
  { apply String.eqb_neq. intros ->. apply Hres. simpl. auto. }
  apply String.eqb_neq in Hst.
  set (upd := set_all [Dispute.set_status "resolved";
                       Dispute.set_resolution (Some resolution);
                       Dispute.set_admin_notes (Some admin_notes);
                       Dispute.set_split_influencer None;
                       Dispute.set_split_brand None;
                       Dispute.set_resolved_at (Some ts)]).
  destruct (updateOne_first (by_dispute_id dispute_id) upd _ _ Hd)
    as (ds1 & ds2 & E & E').
  exists (Db.set_disputes (updateOne (by_dispute_id dispute_id) upd
                             (Db.disputes db)) db),
    (upd dispute), ds1, ds2.
  split.
  { unfold resolveDispute. rewrite Ha. simpl. rewrite Hd. simpl.
    rewrite Hst. simpl. rewrite R1, R2, R3. reflexivity. }
  cbn [Db.disputes Db.set_disputes Db.escrow_payments].
  split; [exact E|]. split; [exact E'|].
  split; [reflexivity|]. split; [reflexivity|]. split.
  { unfold only_disputes_changed. cbn. repeat split. }
  split.
  - intros id escrow session' genId' ts' F Hs. split.
    + eapply releaseEscrow_rejects_disputed; eauto.
    + eapply refundEscrow_rejects_disputed; eauto.
  - intros. eapply resolveDispute_rejects_resolved with (dispute := upd dispute).
    + cbn [Db.disputes Db.set_disputes].
      apply findOne_updateOne_same; [exact Hd|].
      apply findOne_true in Hd. exact (proj1 Hd).
    + reflexivity.
Qed.

Lemma unknown_resolution_is_recorded_witness :
  exists db',
    resolveDispute db_disputed [] (Some admin) "dispute_1" "escalate" ""
      0 0 (fun _ => "comm_1") 6000 = Ok db'
    /\ Db.escrow_payments db' = Db.escrow_payments db_disputed.
Proof.
  assert (H1 : requireAdmin [] (Some admin) = Ok admin) by reflexivity.
  assert (H4 : ~ In "escalate" known_resolutions).
  { simpl. intros [H|[H|[H|[]]]]; discriminate H. }
  destruct (findOne (by_dispute_id "dispute_1") (Db.disputes db_disputed))
    as [d|] eqn:F.
  - assert (H3 : Dispute.status d <> "resolved").
    { vm_compute in F. injection F as <-. discriminate. }
    destruct (unknown_resolution_is_recorded db_disputed [] (Some admin) admin
                d "dispute_1" "escalate" "" 0 0 (fun _ => "comm_1") 6000
                H1 F H3 H4)
      as (db' & _ & _ & _ & H & _ & _ & _ & _ & (_ & He & _) & _).
    exists db'. split; [exact H | exact He].
  - vm_compute in F. discriminate F.
Defined.

(** C10, as stated, goes too far in one point: the disputed escrow is not
    out of reach of every operation. After the unknown resolution the brand
    writes the window's status back, a new dispute is opened, and its
    resolution for the brand refunds the escrow that was left disputed. *)
Lemma disputed_escrow_refunded_by_a_later_dispute :
  resolveDispute db_disputed [] (Some admin) "dispute_1" "escalate" ""
    0 0 (fun _ => "comm_1") 6000 = Ok db_unknown_resolution
  /\ option_map Escrow.status
       (findOne (by_escrow_id "escrow_1")
          (Db.escrow_payments db_unknown_resolution)) = Some "disputed"
  /\ requestStatusChange db_unknown_resolution (Some brand) "collab_1"
       "completed_pending_release" 7000 = Ok db_window_again
  /\ (exists doc,
        openDispute db_window_again (Some brand) "collab_1" "other"
          "Funds are held" "dispute_2" 8000 = Ok (db_disputed_again, doc))
  /\ resolveDispute db_disputed_again [] (Some admin) "dispute_2"
       "refund_to_brand" "" 0 0 (fun _ => "comm_1") 9000
     = Ok db_refunded_later
  /\ option_map Escrow.status
       (findOne (by_escrow_id "escrow_1")
          (Db.escrow_payments db_refunded_later)) = Some "refunded".
Proof.
  split; [vm_compute; reflexivity|].
  split; [vm_compute; reflexivity|].
  split; [vm_compute; reflexivity|].
  split; [eexists; vm_compute; reflexivity|].
  split; vm_compute; reflexivity.
Qed.

(** ** C2: the rate a release computes with *)

(** A captured rate other than 0 is the rate of the release, whatever the
    settings say by then. *)
Lemma release_rate_is_captured (db : Db.t) (escrow : Escrow.t) :
  ~ (Escrow.commission_rate escrow == 0)%Q ->
  release_rate db escrow = Escrow.commission_rate escrow.
Proof.
  intros H. unfold release_rate, jsOrQ.
  destruct (Qeq_bool (Escrow.commission_rate escrow) 0) eqn:E;
    [|reflexivity].
  apply Qeq_bool_iff in E. contradiction.
Qed.

(** A captured rate of 0 is falsy: the release reads the settings. *)
Lemma release_rate_zero_is_current (db : Db.t) (escrow : Escrow.t) :
  (Escrow.commission_rate escrow == 0)%Q ->
  release_rate db escrow = getCommissionRate db.
Proof.
  intros H. unfold release_rate, jsOrQ.
  apply Qeq_bool_iff in H. now rewrite H.
Qed.

(** C2 at a captured rate of 0. The escrow is created while the rate is 0
    (commission 0, payout 1000). Released under the same settings, the
    commission row says rate 0, commission 0, net 1000. Released after the
    admin has raised the rate to 10, it says rate 10, commission 100, net
    900; the resolution of a dispute in favour of the influencer computes
    with the same expression. *)
Theorem release_at_captured_rate_zero_reads_settings :
  map money (Db.escrow_payments db_zero_delivered)
  = [(1000, 0, round2 (1000 * 0 / 100),
      round2 (1000 - round2 (1000 * 0 / 100)))%Q]
  /\ Db.escrow_payments db_rate_raised = Db.escrow_payments db_zero_delivered
  /\ released_figures db_zero_delivered
       (releaseEscrow db_zero_delivered (Some brand) "escrow_1"
          (fun _ => "comm_1") 5000)
     = [(0, 0, 1000)%Q]
  /\ released_figures db_rate_raised
       (releaseEscrow db_rate_raised (Some brand) "escrow_1"
          (fun _ => "comm_1") 5000)
     = [(10, 100, 900)%Q]
  /\ released_figures db_zero_disputed
       (resolveDispute db_zero_disputed [] (Some admin) "dispute_1"
          "release_to_influencer" "" 0 0 (fun _ => "comm_1") 6000)
     = [(10, 100, 900)%Q].
Proof. repeat split; vm_compute; reflexivity. Qed.

(** ** C8: reviews are revealed together *)







(** What an accepted review submission leaves in [reviews]. *)
Lemma submitReview_reviews (db : Db.t) (session : option User.t)
  (application_id : string) (rating : option Q) (comment : option string)
  (review_id : string) (ts : Z) (db' : Db.t) (doc : Review.t) :
  submitReview db session application_id rating comment review_id ts
  = Ok (db', doc) ->
  Review.application_id doc = application_id
  /\ Review.is_revealed doc = false
  /\ ~ In (review_key doc) (map review_key (Db.reviews db))
  /\ ((db' = Db.set_reviews (insertOne doc (Db.reviews db)) db
       /\ forall r0, In r0 (Db.reviews db) ->
                     Review.application_id r0 <> application_id)
      \/ (exists application r0,
            findOne (fun a => Application.application_id a === application_id)
              (Db.applications db) = Some application
            /\ db'
               = updateInfluencerRating
                   (Db.set_reviews
                      (updateMany
                         (fun x => Review.application_id x === application_id)
                         (Review.set_is_revealed true)
                         (insertOne doc (Db.reviews db))) db)
                   (Application.influencer_user_id application)
            /\ In r0 (Db.reviews db)
            /\ Review.application_id r0 = application_id)).
Proof.
  unfold submitReview. intros H. inv_ok.
  - (* a counterpart exists *)
    cbn [Review.application_id Review.is_revealed].
    split; [reflexivity|]. split; [reflexivity|].
    assert (Hkey : ~ In (application_id, User.user_id x)
                     (map review_key (Db.reviews db))).
    { intros Hin. apply in_map_iff in Hin. destruct Hin as (r0 & E & H0).
      pose proof (findOne_none _ _ r0 Heqo H0) as Hq.
      unfold review_key in E. injection E as E1 E2.
      cbn in Hq. rewrite E1, E2, !String.eqb_refl in Hq. discriminate. }
    split; [exact Hkey|]. right.
    cbn [Db.reviews Db.set_reviews] in Heqo0.
    apply findOne_true in Heqo0. destruct Heqo0 as [Hq Hin].
    apply andb_true_iff in Hq. destruct Hq as [Ha Hr].
    apply String.eqb_eq in Ha.
    unfold insertOne in Hin. apply in_app_or in Hin.
    destruct Hin as [Hin|[<-|[]]].
    + exists x1, t. repeat split; assumption.
    + cbn in Hr. now rewrite String.eqb_refl in Hr.
  - (* the first review of the application *)
    cbn [Review.application_id Review.is_revealed].
    split; [reflexivity|]. split; [reflexivity|].
    assert (Hkey : ~ In (application_id, User.user_id x)
                     (map review_key (Db.reviews db))).
    { intros Hin. apply in_map_iff in Hin. destruct Hin as (r0 & E & H0).
      pose proof (findOne_none _ _ r0 Heqo H0) as Hq.
      unfold review_key in E. injection E as E1 E2.
      cbn in Hq. rewrite E1, E2, !String.eqb_refl in Hq. discriminate. }
    split; [exact Hkey|]. left. split; [reflexivity|].
    intros r0 H0 Ha.
    cbn [Db.reviews Db.set_reviews] in Heqo0.
    assert (Hin : In r0 (insertOne
                           {| Review.review_id := review_id;
                              Review.application_id := application_id;
                              Review.collab_id := Collab.collab_id x3;
                              Review.reviewer_user_id := User.user_id x;
                              Review.reviewer_name := User.name x;
                              Review.reviewer_type :=
                                if Collab.brand_user_id x3 === User.user_id x
                                then "brand" else "influencer";
                              Review.reviewed_user_id :=
                                if Collab.brand_user_id x3 === User.user_id x
                                then Application.influencer_user_id x1
                                else Collab.brand_user_id x3;
                              Review.rating := x0;
                              Review.comment := comment;
                              Review.collab_title := Collab.title x3;
                              Review.is_revealed := false;
                              Review.created_at := ts |} (Db.reviews db)))
      by (unfold insertOne; apply in_or_app; now left).
    pose proof (findOne_none _ _ r0 Heqo0 Hin) as Hother.
    pose proof (findOne_none _ _ r0 Heqo H0) as Hsame.
    cbn in Hother, Hsame. rewrite Ha, String.eqb_refl in Hother, Hsame.
    simpl in Hother, Hsame.
    apply negb_false_iff in Hother. congruence.
Qed.









(** The two reviews of the scenario: hidden after the first, both revealed
    after the second, and the creator's profile then shows the brand's 4. *)
Example scenario_reviews :
  map Review.is_revealed (Db.reviews db_first_review) = [false]
  /\ map Review.is_revealed (Db.reviews db_both_reviews) = [true; true]
  /\ map (fun p => (option_map Qred (Profile.avg_rating p),
                    Profile.review_count p))
       (Db.influencer_profiles db_both_reviews)
     = [(Some 4%Q, Some 1%nat)].
Proof. repeat split; vm_compute; reflexivity. Qed.


(** The first scenario of the design: budget 1000 at a rate of 10 gives a
    commission of 100 and a payout of 900, and the release writes one
    commission row with the same figures. *)
Example scenario_figures :
  map (fun e => (Qred (Escrow.total_amount e),
                 Qred (Escrow.platform_commission e),
                 Qred (Escrow.influencer_payout e)))
    (Db.escrow_payments db_pending) = [(1000, 100, 900)%Q]
  /\ map commission_figures (Db.commissions db_released)
     = [(10, 100, 900)%Q]
  /\ map Escrow.status (Db.escrow_payments db_released) = ["released"].
Proof. repeat split; vm_compute; reflexivity. Qed.

(** * Further properties *)

(** ** Securing an escrow *)

Lemma findOne_by_collab_id_updateOne (id : string) (set : Collab.t -> Collab.t)
  (cs : list Collab.t) (c : Collab.t) :
  (forall d, Collab.collab_id (set d) = Collab.collab_id d) ->
  findOne (by_collab_id id) cs = Some c ->
  findOne (by_collab_id id) (updateOne (by_collab_id id) set cs)
  = Some (set c).
Proof.
  intros Hset F. apply findOne_updateOne_same; [exact F|].
  unfold by_collab_id. rewrite Hset.
  apply findOne_true in F. exact (proj1 F).
Qed.

Lemma findOne_by_escrow_id_updateOne (id : string) (set : Escrow.t -> Escrow.t)
  (es : list Escrow.t) (e : Escrow.t) :
  (forall d, Escrow.escrow_id (set d) = Escrow.escrow_id d) ->
  findOne (by_escrow_id id) es = Some e ->
  findOne (by_escrow_id id) (updateOne (by_escrow_id id) set es)
  = Some (set e).
Proof.
  intros Hset F. apply findOne_updateOne_same; [exact F|].
  unfold by_escrow_id. rewrite Hset.
  apply findOne_true in F. exact (proj1 F).
Qed.

(** X1. [secureEscrow] succeeds only for the brand of a pending escrow. It
    moves that escrow to 'secured' with the payment reference, leaves its
    monetary fields alone, and writes payment_status 'secured' and the
    escrow id on the collaboration without touching its status. Securing the
    same escrow again is refused for every caller; for the brand the refusal
    is "not in pending state". *)
Theorem secure_escrow_once :
  forall (db : Db.t) (session : option User.t) (escrow_id payment_ref : string)
         (ts : Z) (db' : Db.t),
    secureEscrow db session escrow_id payment_ref ts = Ok db' ->
    exists user escrow escrow' es1 es2,
      session = Some user
      /\ Escrow.brand_user_id escrow = User.user_id user
      /\ Escrow.status escrow = "pending"
      /\ Db.escrow_payments db = es1 ++ escrow :: es2
      /\ Db.escrow_payments db' = es1 ++ escrow' :: es2
      /\ Escrow.status escrow' = "secured"
      /\ Escrow.payment_reference escrow' = Some payment_ref
      /\ money escrow' = money escrow
      /\ (forall collab,
            findOne (by_collab_id (Escrow.collab_id escrow))
              (Db.collaborations db) = Some collab ->
            exists collab',
              findOne (by_collab_id (Escrow.collab_id escrow))
                (Db.collaborations db') = Some collab'
              /\ Collab.payment_status collab' = Some "secured"
              /\ Collab.escrow_id collab' = Some escrow_id
              /\ Collab.status collab' = Collab.status collab)
      /\ secureEscrow db' session escrow_id payment_ref ts
         = Err EscrowNotPending
      /\ forall session' ref' ts',
           exists f, secureEscrow db' session' escrow_id ref' ts' = Err f.
Proof.
  intros db session escrow_id payment_ref ts db' H.
  unfold secureEscrow in H. inv_ok.
  rename x into user. rename x0 into escrow. rename H0 into F.
  apply negb_false_iff, String.eqb_eq in H1, H2.
  set (upd := set_all [Escrow.set_status "secured";
                       Escrow.set_payment_reference (Some payment_ref);
                       Escrow.set_secured_at (Some ts)]).
  destruct (updateOne_first (by_escrow_id escrow_id) upd _ _ F)
    as (es1 & es2 & E & E').
  assert (F' : findOne (by_escrow_id escrow_id)
                 (updateOne (by_escrow_id escrow_id) upd
                    (Db.escrow_payments db)) = Some (upd escrow))
    by (apply findOne_by_escrow_id_updateOne; [reflexivity | exact F]).
  exists user, escrow, (upd escrow), es1, es2.
  cbn [Db.escrow_payments Db.collaborations Db.set_collaborations
       Db.set_escrow_payments].
  repeat (split; [first [reflexivity | assumption]|]).
  split.
  { intros collab Fc. eexists. split.
    - apply findOne_by_collab_id_updateOne; [reflexivity | exact Fc].
    - repeat split. }
  split.
  - unfold secureEscrow. simpl. rewrite F'. simpl.
    rewrite H1, String.eqb_refl. reflexivity.
  - intros session' ref' ts'. unfold secureEscrow.
    destruct session' as [u|]; simpl; [|eauto].
    rewrite F'. simpl.
    destruct (negb (Escrow.brand_user_id escrow === User.user_id u));
      simpl; eauto.
Qed.

Lemma secure_escrow_once_witness :
  exists db',
    secureEscrow db_pending (Some brand) "escrow_1" "pay_1" 2000 = Ok db'
    /\ secureEscrow db' (Some brand) "escrow_1" "pay_1" 2000
       = Err EscrowNotPending.
Proof.
  destruct (secureEscrow db_pending (Some brand) "escrow_1" "pay_1" 2000)
    as [db'|f] eqn:E.
  - exists db'. split; [reflexivity|].
    destruct (secure_escrow_once _ _ _ _ _ _ E)
      as (user & escrow & escrow' & es1 & es2 & Hs).
    decompose [and] Hs. assumption.
  - vm_compute in E. discriminate E.
Defined.

(** ** Releasing and refunding *)




(** X3. [refundEscrow] succeeds only for the brand or an admin on an escrow
    that is secured or in completed_pending_release. The escrow becomes
    'refunded' with its monetary fields unchanged, no commission row is
    written, and on the collaboration only payment_status changes, to
    'refunded': its status stays as it was. Afterwards neither a refund nor
    a release of that escrow is accepted. *)
Theorem refund_writes_no_commission :
  forall (db : Db.t) (session : option User.t) (escrow_id : string) (ts : Z)
         (db' : Db.t),
    refundEscrow db session escrow_id ts = Ok db' ->
    exists user escrow escrow' es1 es2,
      session = Some user
      /\ (Escrow.brand_user_id escrow = User.user_id user
          \/ User.is_admin user = true)
      /\ (Escrow.status escrow = "secured"
          \/ Escrow.status escrow = "completed_pending_release")
      /\ Db.escrow_payments db = es1 ++ escrow :: es2
      /\ Db.escrow_payments db' = es1 ++ escrow' :: es2
      /\ Escrow.status escrow' = "refunded"
      /\ money escrow' = money escrow
      /\ Db.commissions db' = Db.commissions db
      /\ (forall collab,
            findOne (by_collab_id (Escrow.collab_id escrow))
              (Db.collaborations db) = Some collab ->
            exists collab',
              findOne (by_collab_id (Escrow.collab_id escrow))
                (Db.collaborations db') = Some collab'
              /\ Collab.payment_status collab' = Some "refunded"
              /\ Collab.status collab' = Collab.status collab)
      /\ (forall session' ts',
            exists f, refundEscrow db' session' escrow_id ts' = Err f)
      /\ (forall session' genId' ts',
            exists f, releaseEscrow db' session' escrow_id genId' ts' = Err f).
Proof.
  intros db session escrow_id ts db' H.
  unfold refundEscrow in H. inv_ok.
  rename x into user. rename x0 into escrow. rename H0 into F.
  apply negb_false_iff, includes_In in H2.
  set (upd := set_all [Escrow.set_status "refunded";
                       Escrow.set_refunded_at (Some ts)]).
  destruct (updateOne_first (by_escrow_id escrow_id) upd _ _ F)
    as (es1 & es2 & E & E').
  assert (F' : findOne (by_escrow_id escrow_id)
                 (updateOne (by_escrow_id escrow_id) upd
                    (Db.escrow_payments db)) = Some (upd escrow))
    by (apply findOne_by_escrow_id_updateOne; [reflexivity | exact F]).
  exists user, escrow, (upd escrow), es1, es2.
  cbn [Db.escrow_payments Db.collaborations Db.commissions
       Db.set_collaborations Db.set_escrow_payments].
  split; [reflexivity|]. split.
  { destruct (Escrow.brand_user_id escrow === User.user_id user) eqn:Eb.
    - left. now apply String.eqb_eq.
    - right. simpl in H1. now apply negb_false_iff in H1. }
  split.
  { simpl in H2. destruct H2 as [<-|[<-|[]]]; auto. }
  repeat (split; [first [reflexivity | assumption]|]).
  split.
  { intros collab Fc. eexists. split.
    - apply findOne_by_collab_id_updateOne; [reflexivity | exact Fc].
    - split; reflexivity. }
  split.
  - intros session' ts'. unfold refundEscrow.
    destruct session' as [u|]; simpl; [|eauto].
    rewrite F'. simpl.
    destruct (negb (Escrow.brand_user_id escrow === User.user_id u)
              && negb (User.is_admin u)); simpl; eauto.
  - intros session' genId' ts'. unfold releaseEscrow.
    destruct session' as [u|]; simpl; [|eauto].
    rewrite F'. simpl.
    destruct (negb (Escrow.brand_user_id escrow === User.user_id u)
              && negb (User.is_admin u)); simpl; eauto.
Qed.

Lemma refund_writes_no_commission_witness :
  exists db',
    refundEscrow db_delivered (Some admin) "escrow_1" 5000 = Ok db'
    /\ Db.commissions db' = Db.commissions db_delivered.
Proof.
  destruct (refundEscrow db_delivered (Some admin) "escrow_1" 5000)
    as [db'|f] eqn:E.
  - destruct (refund_writes_no_commission _ _ _ _ _ E)
      as (user & escrow & escrow' & es1 & es2 & Hs).
    decompose [and] Hs. exists db'. split; [reflexivity | assumption].
  - vm_compute in E. discriminate E.
Defined.

(** ** The life of an escrow *)












(** ** The commission ledger *)

Lemma updateInfluencerRating_commissions (db : Db.t) (userId : string) :
  Db.commissions (updateInfluencerRating db userId) = Db.commissions db.
Proof. apply (updateInfluencerRating_frame db userId). Qed.

Lemma autoReveal_commissions (db : Db.t) (now : Z) :
  Db.commissions (autoRevealTimedOutReviews db now) = Db.commissions db.
Proof.
  unfold autoRevealTimedOutReviews.
  destruct (filter _ _) as [|r rs]; [reflexivity|].
  generalize (fold_left set_add
                (map Review.reviewed_user_id
                   (filter (fun r => Review.reviewer_type r === "brand")
                      (r :: rs))) []).
  intros uids.
  match goal with
  | |- Db.commissions (fold_left _ _ ?d) = _ =>
      change (Db.commissions db) with (Db.commissions d); generalize d
  end.
  induction uids as [|u uids IH]; intros d; simpl; [reflexivity|].
  rewrite IH. apply updateInfluencerRating_commissions.
Qed.





(** ** Disputes *)

Ltac disputes_step :=
  intros; inv_ok; cbn; split_goal; cbn;
  first
    [ apply disputes_same
    | apply disputes_open; [reflexivity | assumption]
    | apply disputes_resolve; intros ?; reflexivity ].

Lemma step_disputes (ADMIN_EMAILS : list string) (db db' : Db.t) :
  step ADMIN_EMAILS db db' ->
  disputes_evolve (Db.disputes db) (Db.disputes db').
Proof.
  intros S. destruct S as
    [db session data id db' doc H
    |db session collab_id newStatus ts db' H
    |db session collab_id reason details id ts db' H
    |db session id resolution notes amount ts db' H
    |db session collab_id reason details id ts db' doc H
    |db session id resolution notes si sb genId ts db' H
    |db session collab_id id ts db' doc H
    |db session id ref ts db' H
    |db session id genId ts db' H
    |db session id ts db' H
    |db session rate db' H
    |db session application_id rating comment id ts db' doc H
    |db now
    |db db' He Hd Hc Hm Hr].
  - unfold createCollaboration in H. disputes_step.
  - unfold requestStatusChange in H. disputes_step.
  - unfold requestCancellation in H. disputes_step.
  - unfold resolveCancellation in H. disputes_step.
  - unfold openDispute in H. disputes_step.
  - unfold resolveDispute in H. disputes_step.
  - unfold createEscrow in H. disputes_step.
  - unfold secureEscrow in H. disputes_step.
  - unfold releaseEscrow in H. disputes_step.
  - unfold refundEscrow in H. disputes_step.
  - unfold setCommissionRate in H. disputes_step.
  - destruct (submitReview_reviews _ _ _ _ _ _ _ _ _ H)
      as (_ & _ & _ & [[-> _]|(a & r0 & _ & -> & _)]); [apply disputes_same|].
    match goal with
    | |- disputes_evolve _ (Db.disputes (updateInfluencerRating ?d ?u)) =>
        destruct (updateInfluencerRating_frame d u)
          as (_ & _ & _ & -> & _)
    end.
    apply disputes_same.
  - rewrite autoReveal_disputes. apply disputes_same.
  - rewrite Hd. apply disputes_same.
Qed.

Lemma active_dispute_of_true (c : string) (d : Dispute.t) :
  active_dispute_of c d = true
  <-> Dispute.collab_id d = c
      /\ (Dispute.status d = "open" \/ Dispute.status d = "under_review").
Proof.
  unfold active_dispute_of.
  rewrite andb_true_iff, String.eqb_eq, includes_In. simpl.
  intuition congruence.
Qed.

Lemma disputes_evolve_inv (ds ds' : list Dispute.t) :
  disputes_evolve ds ds' ->
  (forall c, (countDocuments (active_dispute_of c) ds <= 1)%nat)
  /\ (forall d, In d ds ->
        Dispute.status d = "open" \/ Dispute.status d = "resolved") ->
  (forall c, (countDocuments (active_dispute_of c) ds' <= 1)%nat)
  /\ (forall d, In d ds' ->
        Dispute.status d = "open" \/ Dispute.status d = "resolved").
Proof.
  intros [|d Hst Hnone|q set Hset] [Hcount Hstat].
  - now split.
  - split.
    + intros c. unfold insertOne. rewrite countDocuments_app.
      unfold countDocuments at 2. simpl.
      destruct (active_dispute_of c d) eqn:Ed; simpl;
        [|specialize (Hcount c); lia].
      apply active_dispute_of_true in Ed. destruct Ed as [<- _].
      rewrite (countDocuments_none _ _ Hnone). lia.
    + intros d0 Hd0. unfold insertOne in Hd0. apply in_app_or in Hd0.
      destruct Hd0 as [Hd0|[<-|[]]]; [now apply Hstat | now left].
  - split.
    + intros c. etransitivity; [|apply (Hcount c)].
      apply countDocuments_updateOne_le. intros d _ Hp.
      apply active_dispute_of_true in Hp. rewrite Hset in Hp.
      destruct Hp as [_ [Hp|Hp]]; discriminate Hp.
    + intros d0 Hd0.
      destruct (findOne q ds) as [d|] eqn:F.
      * destruct (updateOne_first q set _ _ F) as (l1 & l2 & E & E').
        rewrite E' in Hd0. apply in_app_or in Hd0.
        destruct Hd0 as [Hd0|[<-|Hd0]].
        -- apply Hstat. rewrite E. apply in_or_app. now left.
        -- right. apply Hset.
        -- apply Hstat. rewrite E. apply in_or_app. right. now right.
      * rewrite updateOne_no_match in Hd0 by assumption. now apply Hstat.
Qed.

(** X6. In every state the server can reach, a collaboration has at most
    one dispute that is open or under_review, and every dispute is either
    'open' or 'resolved': no handler ever writes 'under_review'. *)
Theorem one_open_dispute_per_collaboration :
  forall (ADMIN_EMAILS : list string) (db : Db.t),
    reachable ADMIN_EMAILS db ->
    (forall c,
        (countDocuments (active_dispute_of c) (Db.disputes db) <= 1)%nat)
    /\ (forall d, In d (Db.disputes db) ->
          Dispute.status d = "open" \/ Dispute.status d = "resolved").
Proof.
  intros A db R. unfold reachable in R.
  remember empty_db as db0 eqn:E0.
  induction R as [db|db db' db'' _ IH S]; subst.
  - split; [intros c; unfold countDocuments; simpl; lia | intros d []].
  - eapply disputes_evolve_inv; [eapply step_disputes; exact S | now apply IH].
Qed.

Lemma scenario_disputed : reachable [] db_disputed.
Proof.
  eapply steps_next; [apply scenario_delivered|].
  eapply step_openDispute
    with (session := Some creator) (collab_id := "collab_1")
         (reason := "quality_concerns") (details := "Deliverable contested")
         (id := "dispute_1") (ts := 5000).
  vm_compute. reflexivity.
Qed.

Lemma one_open_dispute_per_collaboration_witness :
  reachable [] db_disputed
  /\ (countDocuments (active_dispute_of "collab_1") (Db.disputes db_disputed)
      <= 1)%nat.
Proof.
  split; [apply scenario_disputed|].
  apply (one_open_dispute_per_collaboration [] db_disputed scenario_disputed).
Defined.

Lemma findOne_by_dispute_id_updateOne (id : string)
  (set : Dispute.t -> Dispute.t) (ds : list Dispute.t) (d : Dispute.t) :
  (forall x, Dispute.dispute_id (set x) = Dispute.dispute_id x) ->
  findOne (by_dispute_id id) ds = Some d ->
  findOne (by_dispute_id id) (updateOne (by_dispute_id id) set ds)
  = Some (set d).
Proof.
  intros Hset F. apply findOne_updateOne_same; [exact F|].
  unfold by_dispute_id. rewrite Hset.
  apply findOne_true in F. exact (proj1 F).
Qed.

(** X7. An admin resolves an unresolved dispute with 'split' while the
    collaboration has a disputed escrow (identifiers distinct). The escrow
    becomes 'split_resolved' and records the two split amounts as they were
    sent, whatever they are; its monetary fields stay; the collaboration
    becomes 'completed' with payment_status 'split_resolved'; the dispute is
    'resolved' with the same amounts; and no commission row is written. *)
Theorem split_records_amounts_without_commission :
  forall (db : Db.t) (ADMIN_EMAILS : list string) (session : option User.t)
         (user : User.t) (dispute : Dispute.t) (escrow : Escrow.t)
         (dispute_id admin_notes : string) (split_influencer split_brand : Q)
         (genId : nat -> string) (ts : Z),
    requireAdmin ADMIN_EMAILS session = Ok user ->
    findOne (by_dispute_id dispute_id) (Db.disputes db) = Some dispute ->
    Dispute.status dispute <> "resolved" ->
    findOne (escrow_of_collab_in (Dispute.collab_id dispute) ["disputed"])
      (Db.escrow_payments db) = Some escrow ->
    NoDup (map Escrow.escrow_id (Db.escrow_payments db)) ->
    exists db' escrow' es1 es2 dispute',
      resolveDispute db ADMIN_EMAILS session dispute_id "split" admin_notes
        split_influencer split_brand genId ts = Ok db'
      /\ Db.escrow_payments db = es1 ++ escrow :: es2
      /\ Db.escrow_payments db' = es1 ++ escrow' :: es2
      /\ Escrow.status escrow' = "split_resolved"
      /\ Escrow.split_influencer escrow' = Some split_influencer
      /\ Escrow.split_brand escrow' = Some split_brand
      /\ money escrow' = money escrow
      /\ Db.commissions db' = Db.commissions db
      /\ findOne (by_dispute_id dispute_id) (Db.disputes db') = Some dispute'
      /\ Dispute.status dispute' = "resolved"
      /\ Dispute.resolution dispute' = Some "split"
      /\ Dispute.split_influencer dispute' = Some split_influencer
      /\ Dispute.split_brand dispute' = Some split_brand
      /\ forall collab,
           findOne (by_collab_id (Dispute.collab_id dispute))
             (Db.collaborations db) = Some collab ->
           exists collab',
             findOne (by_collab_id (Dispute.collab_id dispute))
               (Db.collaborations db') = Some collab'
             /\ Collab.status collab' = "completed"
             /\ Collab.payment_status collab' = Some "split_resolved".
Proof.
  intros db A session user dispute escrow dispute_id admin_notes si sb genId ts
    Ha Hd Hst Fe Hnd.
  apply String.eqb_neq in Hst.
  destruct (findOne_true _ _ _ Fe) as [_ Hin].
  pose proof (findOne_by_escrow_id _ _ Hnd Hin) as Fid.
  set (upd := set_all [Escrow.set_status "split_resolved";
                       Escrow.set_split_influencer (Some si);
                       Escrow.set_split_brand (Some sb);
                       Escrow.set_resolved_at (Some ts)]).
  destruct (updateOne_first (by_escrow_id (Escrow.escrow_id escrow)) upd _ _
              Fid) as (es1 & es2 & E & E').
  eexists _, (upd escrow), es1, es2, _.
  split.
  { unfold resolveDispute. rewrite Ha. simpl. rewrite Hd. simpl.
    rewrite Hst. simpl. rewrite Fe. reflexivity. }
  cbn [Db.escrow_payments Db.collaborations Db.commissions Db.disputes
       Db.set_collaborations Db.set_escrow_payments Db.set_disputes].
  split; [exact E|]. split; [exact E'|].
  do 5 (split; [reflexivity|]).
  split.
  { apply findOne_by_dispute_id_updateOne; [reflexivity | exact Hd]. }
  do 4 (split; [reflexivity|]).
  intros collab Fc. eexists. split.
  - apply findOne_by_collab_id_updateOne; [reflexivity | exact Fc].
  - split; reflexivity.
Qed.

Lemma split_records_amounts_without_commission_witness :
  exists db',
    resolveDispute db_disputed [] (Some admin) "dispute_1" "split" ""
      600 300 (fun _ => "comm_1") 6000 = Ok db'
    /\ Db.commissions db' = Db.commissions db_disputed.
Proof.
  assert (H1 : requireAdmin [] (Some admin) = Ok admin) by reflexivity.
  assert (Hnd : NoDup (map Escrow.escrow_id (Db.escrow_payments db_disputed))).
  { vm_compute. constructor; [intros []|constructor]. }
  destruct (findOne (by_dispute_id "dispute_1") (Db.disputes db_disputed))
    as [d|] eqn:F; [|vm_compute in F; discriminate F].
  assert (Hc : Dispute.collab_id d = "collab_1")
    by (vm_compute in F; injection F as <-; reflexivity).
  assert (H3 : Dispute.status d <> "resolved")
    by (vm_compute in F; injection F as <-; discriminate).
  destruct (findOne (escrow_of_collab_in (Dispute.collab_id d) ["disputed"])
              (Db.escrow_payments db_disputed)) as [e|] eqn:Fe;
    [|rewrite Hc in Fe; vm_compute in Fe; discriminate Fe].
  destruct (split_records_amounts_without_commission db_disputed []
              (Some admin) admin d e "dispute_1" "" 600 300
              (fun _ => "comm_1") 6000 H1 F H3 Fe Hnd)
    as (db' & escrow' & es1 & es2 & dispute' & Hs).
  decompose [and] Hs. exists db'. split; assumption.
Defined.



(** ** Cancellations decided by an admin *)

(** X9. [resolveCancellation] succeeds only for an admin on a cancellation
    in pending_admin_review. The cancellation becomes 'resolved' with the
    resolution as sent, and keeps the partial amount only for
    'partial_refund'; no commission row is written. With 'continue' the
    collaboration goes back to 'in_progress' and no escrow changes; with a
    resolution other than full_refund, partial_refund and continue nothing
    but the cancellation changes. A second resolution is refused. *)
Theorem cancellation_is_resolved_once :
  forall (db : Db.t) (ADMIN_EMAILS : list string) (session : option User.t)
         (cancellation_id resolution admin_notes : string) (partial_amount : Q)
         (ts : Z) (db' : Db.t),
    resolveCancellation db ADMIN_EMAILS session cancellation_id resolution
      admin_notes partial_amount ts = Ok db' ->
    exists user c c' cs1 cs2,
      requireAdmin ADMIN_EMAILS session = Ok user
      /\ Cancellation.status c = "pending_admin_review"
      /\ Db.cancellations db = cs1 ++ c :: cs2
      /\ Db.cancellations db' = cs1 ++ c' :: cs2
      /\ Cancellation.status c' = "resolved"
      /\ Cancellation.resolution c' = Some resolution
      /\ Cancellation.partial_amount c'
         = (if resolution === "partial_refund" then Some partial_amount
            else None)
      /\ Db.commissions db' = Db.commissions db
      /\ (resolution = "continue" ->
          Db.escrow_payments db' = Db.escrow_payments db
          /\ forall collab,
               findOne (by_collab_id (Cancellation.collab_id c))
                 (Db.collaborations db) = Some collab ->
               exists collab',
                 findOne (by_collab_id (Cancellation.collab_id c))
                   (Db.collaborations db') = Some collab'
                 /\ Collab.status collab' = "in_progress"
                 /\ Collab.payment_status collab'
                    = Collab.payment_status collab)
      /\ (~ In resolution ["full_refund"; "partial_refund"; "continue"] ->
          Db.escrow_payments db' = Db.escrow_payments db
          /\ Db.collaborations db' = Db.collaborations db)
      /\ forall session' resolution' notes' amount' ts',
           exists f,
             resolveCancellation db' ADMIN_EMAILS session' cancellation_id
               resolution' notes' amount' ts' = Err f.
Proof.
  intros db A session cancellation_id resolution admin_notes partial_amount
    ts db' H.
  unfold resolveCancellation in H.
  apply bind_ok in H. destruct H as (user & Ha & H).
  revert Ha. inv_ok. intros Ha.
  match goal with
  | Hf : findOne _ (Db.cancellations db) = Some ?x |- _ =>
      rename Hf into F; rename x into c
  end.
  match goal with
  | Hs : negb (Cancellation.status c === _) = false |- _ =>
      apply negb_false_iff, String.eqb_eq in Hs; rename Hs into H1
  end.
  set (q := fun c0 => Cancellation.cancellation_id c0 === cancellation_id)
    in *.
  set (upd := set_all
                [Cancellation.set_status "resolved";
                 Cancellation.set_resolution (Some resolution);
                 Cancellation.set_admin_notes (Some admin_notes);
                 Cancellation.set_partial_amount
                   (if resolution === "partial_refund"
                    then Some partial_amount else None);
                 Cancellation.set_resolved_at (Some ts)]) in *.
  assert (Hcanc : forall d, Db.cancellations d = Db.cancellations db ->
            Db.cancellations
              (Db.set_cancellations (updateOne q upd (Db.cancellations d)) d)
            = updateOne q upd (Db.cancellations db)).
  { intros d ->. reflexivity. }
  destruct (updateOne_first q upd _ _ F) as (cs1 & cs2 & E & E').
  assert (F' : findOne q (updateOne q upd (Db.cancellations db))
               = Some (upd c)).
  { apply findOne_updateOne_same; [exact F|].
    apply findOne_true in F. exact (proj1 F). }
  exists user, c, (upd c), cs1, cs2.
  split; [exact Ha|]. split; [exact H1|]. split; [exact E|].
  match goal with
  | |- Db.cancellations (Db.set_cancellations _ ?d) = _ /\ _ =>
      assert (Hd : Db.cancellations d = Db.cancellations db
                   /\ Db.commissions d = Db.commissions db)
        by (split_goal; cbn; split; reflexivity)
  end.
  destruct Hd as [Hd1 Hd2].
  cbn [Db.cancellations Db.set_cancellations Db.commissions
       Db.escrow_payments Db.collaborations].
  rewrite Hd1, Hd2.
  split; [exact E'|].
  do 3 (split; [reflexivity|]). split; [reflexivity|].
  split.
  { intros ->. simpl. split; [reflexivity|].
    intros collab Fc. eexists. split.
    - apply findOne_by_collab_id_updateOne; [reflexivity | exact Fc].
    - split; reflexivity. }
  split.
  { intros Hn.
    assert (R1 : (resolution === "full_refund") = false).
    { apply String.eqb_neq. intros ->. apply Hn. simpl. auto. }
    assert (R2 : (resolution === "partial_refund") = false).
    { apply String.eqb_neq. intros ->. apply Hn. simpl. auto. }
    assert (R3 : (resolution === "continue") = false).
    { apply String.eqb_neq. intros ->. apply Hn. simpl. auto. }
    rewrite R1, R2, R3. split; reflexivity. }
  intros session' resolution' notes' amount' ts'.
  unfold resolveCancellation.
  destruct (requireAdmin A session') as [u|f]; simpl; [|eauto].
  fold q. rewrite F'. simpl. eauto.
Qed.

Lemma cancellation_is_resolved_once_witness :
  exists db',
    resolveCancellation db_cancel_requested [] (Some admin) "cancel_1"
      "continue" "" 0 2700 = Ok db'
    /\ Db.escrow_payments db' = Db.escrow_payments db_cancel_requested.
Proof.
  destruct (resolveCancellation db_cancel_requested [] (Some admin) "cancel_1"
              "continue" "" 0 2700) as [db'|f] eqn:E.
  - destruct (cancellation_is_resolved_once _ _ _ _ _ _ _ _ _ E)
      as (user & c & c' & cs1 & cs2 & Hs).
    decompose [and] Hs. exists db'. split; [reflexivity|].
    match goal with
    | Hc : "continue" = "continue" -> _ |- _ => apply (Hc eq_refl)
    end.
  - vm_compute in E. discriminate E.
Defined.

(** ** Cancellation once work is under way *)

Lemma requestCancellation_not_possible (db : Db.t) (user : User.t)
  (collab : Collab.t) (collab_id reason details cancellation_id : string)
  (ts : Z) :
  findOne (by_collab_id collab_id) (Db.collaborations db) = Some collab ->
  Collab.brand_user_id collab = User.user_id user
  \/ (exists a, findOne (accepted_application_of collab_id
                           (User.user_id user)) (Db.applications db)
                = Some a) ->
  ~ In (Collab.status collab) blocked ->
  Collab.status collab <> "active" ->
  Collab.status collab <> "in_progress" ->
  requestCancellation db (Some user) collab_id reason details cancellation_id
    ts = Err CancelNotPossible.
Proof.
  intros Hc Hwho Hb Ha Hp.
  assert (Hauth :
    negb (Collab.brand_user_id collab === User.user_id user)
    && negb (if Collab.brand_user_id collab === User.user_id user then false
             else match findOne (accepted_application_of collab_id
                                   (User.user_id user)) (Db.applications db)
                  with Some _ => true | None => false end) = false).
  { destruct Hwho as [->|[a ->]].
    - now rewrite String.eqb_refl.
    - destruct (_ === _); reflexivity. }
  assert (Hb' : includes blocked (Collab.status collab) = false).
  { destruct (includes blocked (Collab.status collab)) eqn:E; [|reflexivity].
    apply includes_In in E. contradiction. }
  apply String.eqb_neq in Ha, Hp.
  unfold requestCancellation.
  cbn beta iota delta [bind found reject_if requireAuth]. rewrite Hc.
  cbn beta iota delta [bind found reject_if]. rewrite Hauth.
  cbn beta iota delta [bind found reject_if]. rewrite Hb'.
  cbn beta iota delta [bind found reject_if]. rewrite Ha, Hp. reflexivity.
Qed.

(** X10. The brand, or an influencer with an accepted application, asks to
    cancel a collaboration that is 'in_progress'. Nothing is decided: the
    collaboration's status becomes cancellation_requested_by_brand or
    cancellation_requested_by_influencer, its payment_status and every
    escrow stay as they are, and a Cancellation in 'pending_admin_review'
    is added. A further request by the same user on that collaboration is
    refused as not possible in the current state. *)
Theorem cancellation_in_progress_waits_for_admin :
  forall (db : Db.t) (user : User.t) (collab : Collab.t)
         (collab_id reason details cancellation_id : string) (ts : Z),
    findOne (by_collab_id collab_id) (Db.collaborations db) = Some collab ->
    Collab.brand_user_id collab = User.user_id user
    \/ (exists a, findOne (accepted_application_of collab_id
                             (User.user_id user)) (Db.applications db)
                  = Some a) ->
    Collab.status collab = "in_progress" ->
    exists db' collab' cancellation role,
      requestCancellation db (Some user) collab_id reason details
        cancellation_id ts = Ok db'
      /\ role = (if Collab.brand_user_id collab === User.user_id user
                 then "brand" else "influencer")
      /\ findOne (by_collab_id collab_id) (Db.collaborations db')
         = Some collab'
      /\ Collab.status collab'
         = String.append "cancellation_requested_by_" role
      /\ Collab.payment_status collab' = Collab.payment_status collab
      /\ Db.escrow_payments db' = Db.escrow_payments db
      /\ Db.cancellations db' = Db.cancellations db ++ [cancellation]
      /\ Cancellation.status cancellation = "pending_admin_review"
      /\ Cancellation.requester_type cancellation = role
      /\ Cancellation.resolution cancellation = None
      /\ forall reason' details' id' ts',
           requestCancellation db' (Some user) collab_id reason' details' id'
             ts' = Err CancelNotPossible.
Proof.
  intros db user collab collab_id reason details cancellation_id ts
    Hc Hwho Hst.
  assert (Hauth :
    negb (Collab.brand_user_id collab === User.user_id user)
    && negb (if Collab.brand_user_id collab === User.user_id user then false
             else match findOne (accepted_application_of collab_id
                                   (User.user_id user)) (Db.applications db)
                  with Some _ => true | None => false end) = false).
  { destruct Hwho as [->|[a ->]].
    - now rewrite String.eqb_refl.
    - destruct (_ === _); reflexivity. }
  set (role := if Collab.brand_user_id collab === User.user_id user
               then "brand" else "influencer").
  set (upd := Collab.set_status
                (String.append "cancellation_requested_by_" role)).
  assert (F' : findOne (by_collab_id collab_id)
                 (updateOne (by_collab_id collab_id) upd
                    (Db.collaborations db)) = Some (upd collab))
    by (apply findOne_by_collab_id_updateOne; [reflexivity | exact Hc]).
  eexists _, (upd collab), _, role.
  split.
  { unfold requestCancellation. simpl. rewrite Hc. simpl.
    rewrite Hauth. simpl. rewrite Hst. simpl. reflexivity. }
  cbn [Db.collaborations Db.escrow_payments Db.cancellations
       Db.set_collaborations Db.set_cancellations].
  split; [reflexivity|]. split; [exact F'|].
  do 7 (split; [reflexivity|]).
  intros reason' details' id' ts'.
  apply requestCancellation_not_possible with (collab := upd collab).
  - exact F'.
  - exact Hwho.
  - unfold upd, role. cbn.
    destruct (Collab.brand_user_id collab === User.user_id user);
      simpl; intros H;
      repeat (destruct H as [H|H]; [discriminate H|]); exact H.
  - unfold upd, role. cbn.
    destruct (Collab.brand_user_id collab === User.user_id user);
      discriminate.
  - unfold upd, role. cbn.
    destruct (Collab.brand_user_id collab === User.user_id user);
      discriminate.
Qed.

Lemma cancellation_in_progress_waits_for_admin_witness :
  exists db',
    requestCancellation db_in_progress (Some creator) "collab_1"
      "timeline_conflict" "Cannot deliver" "cancel_1" 2600 = Ok db'
    /\ Db.escrow_payments db' = Db.escrow_payments db_in_progress.
Proof.
  destruct (findOne (by_collab_id "collab_1") (Db.collaborations db_in_progress))
    as [c|] eqn:F; [|vm_compute in F; discriminate F].
  assert (H2 : Collab.brand_user_id c = User.user_id creator
               \/ exists a, findOne (accepted_application_of "collab_1"
                                       (User.user_id creator))
                              (Db.applications db_in_progress) = Some a)
    by (right; eexists; vm_compute; reflexivity).
  assert (H3 : Collab.status c = "in_progress")
    by (vm_compute in F; injection F as <-; reflexivity).
  destruct (cancellation_in_progress_waits_for_admin db_in_progress creator c
              "collab_1" "timeline_conflict" "Cannot deliver" "cancel_1" 2600
              F H2 H3) as (db' & collab' & cancellation & role & Hs).
  decompose [and] Hs. exists db'. split; assumption.
Defined.

(** ** The commission rate of the settings *)



(** ** Who may review, and once *)

Lemma submitReview_checks (db : Db.t) (session : option User.t)
  (application_id : string) (rating : option Q) (comment : option string)
  (review_id : string) (ts : Z) (db' : Db.t) (doc : Review.t) :
  submitReview db session application_id rating comment review_id ts
  = Ok (db', doc) ->
  exists user r application collab,
    session = Some user
    /\ rating = Some r /\ (1 <= r)%Q /\ (r <= 5)%Q
    /\ findOne (fun a => Application.application_id a === application_id)
         (Db.applications db) = Some application
    /\ Application.status application = "accepted"
    /\ findOne (by_collab_id (Application.collab_id application))
         (Db.collaborations db) = Some collab
    /\ (is_paid collab = true
        -> Collab.payment_status collab = Some "released")
    /\ (is_paid collab = false
        -> In (Collab.status collab)
             ["completed"; "completed_pending_release"])
    /\ (Collab.brand_user_id collab = User.user_id user
        \/ Application.influencer_user_id application = User.user_id user)
    /\ findOne (fun r0 => (Review.application_id r0 === application_id)
                          && (Review.reviewer_user_id r0
                              === User.user_id user))
         (Db.reviews db) = None
    /\ doc = Review.mk review_id application_id (Collab.collab_id collab)
               (User.user_id user) (User.name user)
               (if Collab.brand_user_id collab === User.user_id user
                then "brand" else "influencer")
               (if Collab.brand_user_id collab === User.user_id user
                then Application.influencer_user_id application
                else Collab.brand_user_id collab)
               r comment (Collab.title collab) false ts.
Proof.
  unfold submitReview. intros H.
  apply bind_ok in H. destruct H as (user & Hu & H).
  apply requireAuth_ok in Hu.
  apply bind_ok in H. destruct H as (r & Hr & H).
  destruct rating as [r0|]; [|discriminate Hr].
  destruct (Qeq_bool r0 0 || negb (Qle_bool 1 r0) || negb (Qle_bool r0 5))
    eqn:Hrange; [discriminate Hr|].
  injection Hr as <-.
  apply orb_false_iff in Hrange. destruct Hrange as [Hrange H5].
  apply orb_false_iff in Hrange. destruct Hrange as [_ H1].
  apply negb_false_iff, Qle_bool_iff in H1, H5.
  apply bind_ok in H. destruct H as (application & Ha & H).
  apply found_ok in Ha.
  apply bind_ok in H. destruct H as (u1 & Hacc & H).
  apply reject_if_ok, negb_false_iff, String.eqb_eq in Hacc.
  apply bind_ok in H. destruct H as (collab & Hc & H).
  apply found_ok in Hc.
  apply bind_ok in H. destruct H as (u2 & Hpaid & H).
  apply reject_if_ok in Hpaid.
  apply bind_ok in H. destruct H as (u3 & Hfree & H).
  apply reject_if_ok in Hfree.
  apply bind_ok in H. destruct H as (u4 & Hwho & H).
  apply reject_if_ok in Hwho.
  destruct (findOne _ (Db.reviews db)) eqn:Hex in H; [discriminate H|].
  exists user, r0, application, collab.
  split; [exact Hu|]. split; [reflexivity|].
  split; [exact H1|]. split; [exact H5|].
  split; [exact Ha|]. split; [exact Hacc|]. split; [exact Hc|].
  split.
  { intros P. rewrite P in Hpaid.
    apply andb_false_iff in Hpaid. destruct Hpaid as [X|Hpaid];
      [discriminate X|].
    apply negb_false_iff in Hpaid.
    destruct (Collab.payment_status collab) as [s|]; [|discriminate Hpaid].
    apply String.eqb_eq in Hpaid. now subst. }
  split.
  { intros P. rewrite P in Hfree.
    apply andb_false_iff in Hfree. destruct Hfree as [X|Hfree];
      [discriminate X|].
    apply negb_false_iff in Hfree. now apply includes_In in Hfree. }
  split.
  { apply andb_false_iff in Hwho.
    destruct Hwho as [Hb|Hi];
      [apply negb_false_iff, String.eqb_eq in Hb; now left
      |apply negb_false_iff, String.eqb_eq in Hi; now right]. }
  split; [exact Hex|].
  destruct (findOne _ (Db.reviews (Db.set_reviews _ db))) in H;
    injection H as _ <-; reflexivity.
Qed.






(** ** Reading the reviews of an application *)

Lemma filter_nothing {A : Type} (q : A -> bool) (c : list A) :
  (forall d, In d c -> q d = false) -> filter q c = [].
Proof.
  induction c as [|a c IH]; intros H; [reflexivity|].
  simpl. rewrite (H a) by now left.
  apply IH. intros d Hd. apply H. now right.
Qed.

(** X13. The first review of an application is stored hidden, yet
    [getApplicationReviews], which asks for no session, answers with
    exactly that review, rating included. *)
Theorem hidden_review_is_served_by_application :
  forall (db : Db.t) (session : option User.t) (application_id : string)
         (rating : option Q) (comment : option string) (review_id : string)
         (ts : Z) (db' : Db.t) (doc : Review.t),
    submitReview db session application_id rating comment review_id ts
    = Ok (db', doc) ->
    (forall r0, In r0 (Db.reviews db) ->
                Review.application_id r0 <> application_id) ->
    getApplicationReviews db' application_id = [doc]
    /\ Review.is_revealed doc = false
    /\ rating = Some (Review.rating doc)
    /\ forall r, In r (Db.reviews db') ->
                 Review.application_id r = application_id ->
                 Review.is_revealed r = false.
Proof.
  intros db session application_id rating comment review_id ts db' doc H
    Hfirst.
  destruct (submitReview_checks _ _ _ _ _ _ _ _ _ H)
    as (user & r & application & collab & _ & Hr & _ & _ & _ & _ & _ & _ & _
        & _ & _ & Hdoc).
  destruct (submitReview_reviews _ _ _ _ _ _ _ _ _ H)
    as (Hid & Hhid & _ & [[Hdb _]|(a & r0 & _ & _ & Hin & Happ)]).
  2: { exfalso. exact (Hfirst r0 Hin Happ). }
  assert (Hf : filter (fun r1 => Review.application_id r1 === application_id)
                 (Db.reviews db) = []).
  { apply filter_nothing. intros r1 H1. apply String.eqb_neq.
    now apply Hfirst. }
  split.
  { unfold getApplicationReviews. rewrite Hdb.
    cbn [Db.reviews Db.set_reviews]. unfold insertOne.
    rewrite filter_app, Hf. simpl. rewrite Hid, String.eqb_refl.
    reflexivity. }
  split; [exact Hhid|].
  split; [rewrite Hr, Hdoc; reflexivity|].
  intros r1 Hin Happ. rewrite Hdb in Hin.
  cbn [Db.reviews Db.set_reviews] in Hin. unfold insertOne in Hin.
  apply in_app_or in Hin. destruct Hin as [Hin|[<-|[]]].
  - exfalso. exact (Hfirst r1 Hin Happ).
  - exact Hhid.
Qed.

Lemma hidden_review_is_served_by_application_witness :
  exists db' doc,
    submitReview db_released (Some creator) "app_1" (Some 5%Q) None
      "review_1" 7000 = Ok (db', doc)
    /\ getApplicationReviews db' "app_1" = [doc]
    /\ Review.is_revealed doc = false.
Proof.
  destruct (submitReview db_released (Some creator) "app_1" (Some 5%Q) None
              "review_1" 7000) as [[db' doc]|f] eqn:E.
  - exists db', doc. split; [reflexivity|].
    assert (Hfirst : forall r0, In r0 (Db.reviews db_released) ->
                                Review.application_id r0 <> "app_1")
      by (vm_compute; intros r0 []).
    destruct (hidden_review_is_served_by_application _ _ _ _ _ _ _ _ _ E
                Hfirst) as (H1 & H2 & _).
    split; assumption.
  - vm_compute in E. discriminate E.
Defined.

(** ** The sweep of overdue reviews *)

Lemma updateMany_never (A : Type) (set : A -> A) (c : list A) :
  updateMany (fun _ => false) set c = c.
Proof. unfold updateMany. apply map_id. Qed.

Lemma updateMany_pointwise (A : Type) (q : A -> bool) (set : A -> A)
  (c : list A) :
  Forall2 (fun d d' => d' = if q d then set d else d) c (updateMany q set c).
Proof.
  unfold updateMany. induction c as [|a c IH]; simpl; constructor; auto.
Qed.

(** What the sweep leaves in [reviews]: one [updateMany] on the identifiers
    of the overdue hidden reviews. *)
Lemma autoReveal_reviews_eq (db : Db.t) (now : Z) :
  Db.reviews (autoRevealTimedOutReviews db now)
  = updateMany
      (fun r => includes
                  (map Review.review_id
                     (filter (fun r0 => negb (Review.is_revealed r0)
                                        && (Review.created_at r0
                                            <? cutoff now))
                        (Db.reviews db)))
                  (Review.review_id r))
      (Review.set_is_revealed true) (Db.reviews db).
Proof.
  unfold autoRevealTimedOutReviews, cutoff.
  destruct (filter _ _) as [|r rs] eqn:E.
  - simpl. symmetry. apply updateMany_never.
  - match goal with
    | |- Db.reviews (fold_left _ ?u ?d) = _ =>
        destruct (fold_updateInfluencerRating_frame u d) as (_ & _ & ->)
    end.
    reflexivity.
Qed.

(** X14. After [autoRevealTimedOutReviews] no hidden review is older than
    the reveal timeout. The sweep changes nothing of a review but its
    [is_revealed], which it only ever sets; a review created at or after
    the cutoff stays hidden unless it shares its identifier with an overdue
    one; escrows, disputes and commission rows are not touched; and a
    second sweep at the same clock reading changes nothing. *)
Theorem sweep_reveals_every_overdue_review :
  forall (db : Db.t) (now : Z),
    let db' := autoRevealTimedOutReviews db now in
    (forall r', In r' (Db.reviews db') ->
                Review.is_revealed r' = false ->
                cutoff now <= Review.created_at r')
    /\ Forall2 (fun r r' => r' = r \/ r' = Review.set_is_revealed true r)
         (Db.reviews db) (Db.reviews db')
    /\ (forall r, In r (Db.reviews db) ->
                  Review.is_revealed r = false ->
                  (forall r0, In r0 (Db.reviews db) ->
                              Review.review_id r0 = Review.review_id r ->
                              cutoff now <= Review.created_at r0) ->
                  In r (Db.reviews db'))
    /\ Db.escrow_payments db' = Db.escrow_payments db
    /\ Db.disputes db' = Db.disputes db
    /\ Db.commissions db' = Db.commissions db
    /\ autoRevealTimedOutReviews db' now = db'.
Proof.
  intros db now db'.
  set (due := fun r0 => negb (Review.is_revealed r0)
                        && (Review.created_at r0 <? cutoff now)).
  set (ids := map Review.review_id (filter due (Db.reviews db))).
  assert (E : Db.reviews db'
              = updateMany (fun r => includes ids (Review.review_id r))
                  (Review.set_is_revealed true) (Db.reviews db))
    by apply autoReveal_reviews_eq.
  assert (Hdue : forall r, In r (Db.reviews db) -> due r = true ->
                           includes ids (Review.review_id r) = true).
  { intros r Hin Hd. apply includes_In. unfold ids.
    apply in_map. apply filter_In. now split. }
  assert (Hleft : forall r', In r' (Db.reviews db') ->
                             Review.is_revealed r' = false ->
                             cutoff now <= Review.created_at r').
  { intros r' Hin Hhid. rewrite E in Hin.
    apply In_updateMany in Hin. destruct Hin as (r & Hin & ->).
    destruct (includes ids (Review.review_id r)) eqn:Hi;
      [discriminate Hhid|].
    destruct (due r) eqn:Hd.
    - rewrite (Hdue r Hin Hd) in Hi. discriminate Hi.
    - unfold due in Hd. rewrite Hhid in Hd. simpl in Hd.
      apply Z.ltb_ge in Hd. exact Hd. }
  split; [exact Hleft|].
  split.
  { rewrite E.
    eapply Forall2_impl; [|apply updateMany_pointwise].
    intros r r' ->. simpl.
    destruct (includes ids (Review.review_id r)); auto. }
  split.
  { intros r Hin Hhid Hids. rewrite E. unfold updateMany.
    apply in_map_iff. exists r. split; [|exact Hin].
    destruct (includes ids (Review.review_id r)) eqn:Hi; [|reflexivity].
    exfalso. apply includes_In in Hi. unfold ids in Hi.
    apply in_map_iff in Hi. destruct Hi as (r0 & Hid & H0).
    apply filter_In in H0. destruct H0 as [H0 Hd].
    unfold due in Hd. apply andb_true_iff in Hd. destruct Hd as [_ Hd].
    apply Z.ltb_lt in Hd. specialize (Hids r0 H0 Hid). lia. }
  split; [apply autoReveal_escrows|].
  split; [apply autoReveal_disputes|].
  split; [apply autoReveal_commissions|].
  assert (Hnil : filter (fun r0 => negb (Review.is_revealed r0)
                                   && (Review.created_at r0
                                       <? now
                                          - REVIEW_REVEAL_TIMEOUT_DAYS
                                            * 24 * 60 * 60 * 1000))
                   (Db.reviews db') = []).
  { apply filter_nothing. intros r' Hin.
    destruct (Review.is_revealed r') eqn:Hr; [reflexivity|]. simpl.
    apply Z.ltb_ge. exact (Hleft r' Hin Hr). }
  unfold autoRevealTimedOutReviews at 1. fold db'. rewrite Hnil.
  reflexivity.
Qed.

Lemma sweep_reveals_every_overdue_review_witness :
  map Review.is_revealed
    (Db.reviews (autoRevealTimedOutReviews db_first_review 1300000000))
  = [true]
  /\ autoRevealTimedOutReviews
       (autoRevealTimedOutReviews db_first_review 1300000000) 1300000000
     = autoRevealTimedOutReviews db_first_review 1300000000.
Proof.
  split; [vm_compute; reflexivity|].
  pose proof (sweep_reveals_every_overdue_review db_first_review 1300000000)
    as H.
  cbv zeta in H. destruct H as (_ & _ & _ & _ & _ & _ & H). exact H.
Defined.

(** ** Ratings *)










(** ** Messages *)

(** X16. [sendMessage] stores a message only for a signed-in user whose
    trimmed content is not empty and at most 2000 long, on a collaboration
    that exists, is not disputed and is in one of the allowed statuses, when
    the user is its brand or an influencer with an accepted application and
    the collaboration has an accepted application. The message is appended
    with the trimmed content, the sender and thread_locked = false, and no
    other collection changes. *)
Theorem message_needs_an_open_thread :
  forall (trim : string -> string) (jsLength : string -> Z) (db : Db.t)
         (session : option User.t) (collab_id : string)
         (body_content : option string) (message_id : string) (ts : Z)
         (db' : Db.t) (doc : Message.t),
    sendMessage trim jsLength db session collab_id body_content message_id ts
    = Sent db' doc ->
    exists user collab application,
      session = Some user
      /\ Message.content doc = trim (jsOrS body_content "")
      /\ Message.content doc <> ""
      /\ jsLength (Message.content doc) <= 2000
      /\ findOne (by_collab_id collab_id) (Db.collaborations db) = Some collab
      /\ Collab.status collab <> "disputed"
      /\ In (Collab.status collab) allowed
      /\ (Collab.brand_user_id collab = User.user_id user
          \/ exists a, findOne (accepted_application_of collab_id
                                  (User.user_id user)) (Db.applications db)
                       = Some a)
      /\ findOne (accepted_application collab_id) (Db.applications db)
         = Some application
      /\ Db.messages db' = Db.messages db ++ [doc]
      /\ Message.collab_id doc = collab_id
      /\ Message.sender_id doc = User.user_id user
      /\ Message.sender_type doc
         = (if Collab.brand_user_id collab === User.user_id user
            then "brand" else "influencer")
      /\ Message.thread_locked doc = false
      /\ Db.collaborations db' = Db.collaborations db
      /\ Db.escrow_payments db' = Db.escrow_payments db
      /\ Db.disputes db' = Db.disputes db
      /\ Db.reviews db' = Db.reviews db.
Proof.
  intros trim jsLength db session collab_id body message_id ts db' doc H.
  unfold sendMessage in H.
  destruct session as [user|]; [|discriminate H].
  destruct (trim (jsOrS body "") === "") eqn:Hempty; [discriminate H|].
  destruct (2000 <? jsLength (trim (jsOrS body ""))) eqn:Hlong;
    [discriminate H|].
  destruct (findOne (by_collab_id collab_id) (Db.collaborations db))
    as [collab|] eqn:Hc; [|discriminate H].
  destruct (Collab.status collab === "disputed") eqn:Hd; [discriminate H|].
  destruct (negb (Collab.brand_user_id collab === User.user_id user)
            && negb _) eqn:Hwho; [discriminate H|].
  destruct (negb (includes allowed (Collab.status collab))) eqn:Hal;
    [discriminate H|].
  destruct (findOne (accepted_application collab_id) (Db.applications db))
    as [application|] eqn:Hacc; [|discriminate H].
  injection H as <- <-.
  exists user, collab, application.
  split; [reflexivity|]. split; [reflexivity|].
  split; [now apply String.eqb_neq|].
  split; [now apply Z.ltb_ge|].
  split; [reflexivity|].
  split; [now apply String.eqb_neq|].
  split; [apply includes_In; now apply negb_false_iff|].
  split.
  { destruct (Collab.brand_user_id collab === User.user_id user) eqn:Hb.
    - left. now apply String.eqb_eq.
    - right. simpl in Hwho.
      destruct (findOne (accepted_application_of collab_id
                           (User.user_id user)) (Db.applications db))
        as [a|]; [eauto | discriminate Hwho]. }
  repeat split; reflexivity.
Qed.

Lemma message_needs_an_open_thread_witness :
  exists db' doc,
    sendMessage (fun s => s) (fun s => Z.of_nat (String.length s))
      db_in_progress (Some creator) "collab_1" (Some "Draft attached")
      "msg_1" 2550 = Sent db' doc
    /\ Message.thread_locked doc = false.
Proof.
  destruct (sendMessage (fun s => s) (fun s => Z.of_nat (String.length s))
              db_in_progress (Some creator) "collab_1"
              (Some "Draft attached") "msg_1" 2550) as [db' doc|r] eqn:E.
  - exists db', doc. split; [reflexivity|].
    destruct (message_needs_an_open_thread _ _ _ _ _ _ _ _ _ _ E)
      as (user & collab & application & Hs).
    decompose [and] Hs. assumption.
  - vm_compute in E. discriminate E.
Defined.

(** X17. Once [openDispute] has succeeded, [sendMessage] stores nothing on
    that collaboration whoever asks and whatever is sent; a signed-in user
    whose trimmed content is not empty and at most 2000 long is told that
    messages are locked by the dispute. *)
Theorem dispute_locks_the_thread :
  forall (db : Db.t) (session : option User.t)
         (collab_id reason details dispute_id : string) (ts : Z)
         (db' : Db.t) (doc : Dispute.t),
    openDispute db session collab_id reason details dispute_id ts
    = Ok (db', doc) ->
    forall (trim : string -> string) (jsLength : string -> Z)
           (session' : option User.t) (body_content : option string)
           (message_id : string) (ts' : Z),
      (exists r,
         sendMessage trim jsLength db' session' collab_id body_content
           message_id ts' = Refused r)
      /\ forall user',
           session' = Some user' ->
           trim (jsOrS body_content "") <> "" ->
           jsLength (trim (jsOrS body_content "")) <= 2000 ->
           sendMessage trim jsLength db' session' collab_id body_content
             message_id ts' = Refused MessagesLockedByDispute.
Proof.
  intros db session collab_id reason details dispute_id ts db' doc H
    trim jsLength session' body message_id ts'.
  assert (Hc : exists collab',
             findOne (by_collab_id collab_id) (Db.collaborations db')
             = Some collab'
             /\ Collab.status collab' = "disputed").
  { unfold openDispute in H. inv_ok. cbn.
    match goal with
    | Hf : findOne (by_collab_id collab_id) (Db.collaborations db) = Some ?c
      |- _ =>
        eexists; split;
        [apply findOne_by_collab_id_updateOne; [reflexivity | exact Hf]
        |reflexivity]
    end. }
  destruct Hc as (collab' & Hf & Hst).
  split.
  - unfold sendMessage. destruct session' as [user'|]; [|eauto].
    destruct (trim (jsOrS body "") === ""); [eauto|].
    destruct (2000 <? jsLength (trim (jsOrS body ""))); [eauto|].
    rewrite Hf, Hst. simpl. eauto.
  - intros user' -> Hne Hlen.
    apply String.eqb_neq in Hne. apply Z.ltb_ge in Hlen.
    unfold sendMessage. rewrite Hne, Hlen, Hf, Hst. reflexivity.
Qed.

Lemma dispute_locks_the_thread_witness :
  exists db' doc,
    openDispute db_delivered (Some creator) "collab_1" "quality_concerns"
      "Deliverable contested" "dispute_1" 5000 = Ok (db', doc)
    /\ sendMessage (fun s => s) (fun s => Z.of_nat (String.length s)) db'
         (Some brand) "collab_1" (Some "Please reconsider") "msg_2" 5100
       = Refused MessagesLockedByDispute.
Proof.
  destruct (openDispute db_delivered (Some creator) "collab_1"
              "quality_concerns" "Deliverable contested" "dispute_1" 5000)
    as [[db' doc]|f] eqn:E.
  - exists db', doc. split; [reflexivity|].
    apply (dispute_locks_the_thread _ _ _ _ _ _ _ _ _ E) with (user' := brand).
    + reflexivity.
    + vm_compute. discriminate.
    + vm_compute. discriminate.
  - vm_compute in E. discriminate E.
Defined.

(** ** The thread after a dispute *)

Lemma sendMessage_sent (trim : string -> string) (jsLength : string -> Z)
  (db : Db.t) (user : User.t) (collab : Collab.t)
  (application : Application.t) (collab_id : string)
  (body_content : option string) (message_id : string) (ts : Z) :
  trim (jsOrS body_content "") <> "" ->
  jsLength (trim (jsOrS body_content "")) <= 2000 ->
  findOne (by_collab_id collab_id) (Db.collaborations db) = Some collab ->
  In (Collab.status collab) allowed ->
  Collab.brand_user_id collab = User.user_id user
  \/ (exists a, findOne (accepted_application_of collab_id
                           (User.user_id user)) (Db.applications db)
                = Some a) ->
  findOne (accepted_application collab_id) (Db.applications db)
  = Some application ->
  exists msg,
    sendMessage trim jsLength db (Some user) collab_id body_content
      message_id ts
    = Sent (Db.set_messages (insertOne msg (Db.messages db)) db) msg
    /\ Message.thread_locked msg = false
    /\ Message.collab_id msg = collab_id.
Proof.
  intros Hne Hlen Hc Hal Hwho Hacc.
  apply String.eqb_neq in Hne. apply Z.ltb_ge in Hlen.
  assert (Hd : (Collab.status collab === "disputed") = false).
  { apply String.eqb_neq. intros E. rewrite E in Hal.
    simpl in Hal. repeat (destruct Hal as [Hal|Hal]; [discriminate Hal|]).
    exact Hal. }
  assert (Hauth :
    negb (Collab.brand_user_id collab === User.user_id user)
    && negb (if Collab.brand_user_id collab === User.user_id user then false
             else match findOne (accepted_application_of collab_id
                                   (User.user_id user)) (Db.applications db)
                  with Some _ => true | None => false end) = false).
  { destruct Hwho as [->|[a ->]].
    - now rewrite String.eqb_refl.
    - destruct (Collab.brand_user_id collab === User.user_id user);
        reflexivity. }
  apply includes_In in Hal.
  eexists. unfold sendMessage.
  rewrite Hne, Hlen, Hc, Hd.
  cbn beta iota zeta. rewrite Hauth, Hal, Hacc.
  cbn beta iota delta [negb].
  split; [reflexivity|]. split; reflexivity.
Qed.

(** X18. [resolveDispute] leaves the messages as they are, so those locked
    when the dispute was opened stay thread_locked. Yet after
    'release_to_influencer' or 'split' the collaboration is 'completed' and
    [sendMessage] stores a new message, with thread_locked = false, for a
    party of the collaboration; after 'refund_to_brand' the collaboration is
    'cancelled' and messages are not available. *)
Theorem resolved_dispute_reopens_the_thread :
  forall (db : Db.t) (ADMIN_EMAILS : list string) (session : option User.t)
         (dispute_id resolution admin_notes : string)
         (split_influencer split_brand : Q) (genId : nat -> string) (ts : Z)
         (db' : Db.t),
    resolveDispute db ADMIN_EMAILS session dispute_id resolution admin_notes
      split_influencer split_brand genId ts = Ok db' ->
    Db.messages db' = Db.messages db
    /\ Db.applications db' = Db.applications db
    /\ forall dispute collab user application,
         findOne (by_dispute_id dispute_id) (Db.disputes db) = Some dispute ->
         findOne (by_collab_id (Dispute.collab_id dispute))
           (Db.collaborations db) = Some collab ->
         Collab.brand_user_id collab = User.user_id user
         \/ (exists a, findOne (accepted_application_of
                                  (Dispute.collab_id dispute)
                                  (User.user_id user)) (Db.applications db)
                       = Some a) ->
         findOne (accepted_application (Dispute.collab_id dispute))
           (Db.applications db) = Some application ->
         forall (trim : string -> string) (jsLength : string -> Z)
                (body_content : option string) (message_id : string)
                (ts' : Z),
           trim (jsOrS body_content "") <> "" ->
           jsLength (trim (jsOrS body_content "")) <= 2000 ->
           (resolution = "release_to_influencer" \/ resolution = "split" ->
            exists msg,
              sendMessage trim jsLength db' (Some user)
                (Dispute.collab_id dispute) body_content message_id ts'
              = Sent (Db.set_messages (Db.messages db ++ [msg]) db') msg
              /\ Message.thread_locked msg = false)
           /\ (resolution = "refund_to_brand" ->
               sendMessage trim jsLength db' (Some user)
                 (Dispute.collab_id dispute) body_content message_id ts'
               = Refused MessagesNotAvailable).
Proof.
  intros db A session dispute_id resolution admin_notes si sb genId ts db' H.
  unfold resolveDispute in H.
  apply bind_ok in H. destruct H as (admin0 & _ & H).
  apply bind_ok in H. destruct H as (dispute0 & Hd0 & H).
  apply found_ok in Hd0.
  apply bind_ok in H. destruct H as (u & _ & H).
  injection H as H. cbv zeta in H.
  set (cid := Dispute.collab_id dispute0) in *.
  assert (Hdb :
    Db.messages db' = Db.messages db
    /\ Db.applications db' = Db.applications db
    /\ Db.collaborations db'
       = if resolution === "release_to_influencer" then
           updateOne (by_collab_id cid)
             (set_all [Collab.set_status "completed";
                       Collab.set_payment_status (Some "released");
                       Collab.set_released_at (Some ts)])
             (Db.collaborations db)
         else if resolution === "refund_to_brand" then
           updateOne (by_collab_id cid)
             (set_all [Collab.set_status "cancelled";
                       Collab.set_payment_status (Some "refunded");
                       Collab.set_cancelled_at (Some ts)])
             (Db.collaborations db)
         else if resolution === "split" then
           updateOne (by_collab_id cid)
             (set_all [Collab.set_status "completed";
                       Collab.set_payment_status (Some "split_resolved")])
             (Db.collaborations db)
         else Db.collaborations db).
  { rewrite <- H.
    cbn [Db.messages Db.applications Db.collaborations Db.set_disputes].
    destruct (resolution === "release_to_influencer");
      [|destruct (resolution === "refund_to_brand");
        [|destruct (resolution === "split"); [|repeat split]]];
      cbn [Db.messages Db.applications Db.collaborations
           Db.set_collaborations];
      destruct (findOne (escrow_of_collab_in cid ["disputed"])
                  (Db.escrow_payments db));
      repeat split. }
  clear H. destruct Hdb as (Hm & Hap & Hco).
  split; [exact Hm|]. split; [exact Hap|].
  intros dispute collab user application Hd Hc Hwho Hacc trim jsLength body
    message_id ts' Hne Hlen.
  rewrite Hd0 in Hd. injection Hd as <-. fold cid in Hc, Hwho, Hacc |- *.
  rewrite <- Hap in Hwho, Hacc.
  split.
  - intros Hres.
    assert (Hf : exists collab',
               findOne (by_collab_id cid) (Db.collaborations db')
               = Some collab'
               /\ Collab.status collab' = "completed"
               /\ Collab.brand_user_id collab' = Collab.brand_user_id collab).
    { rewrite Hco. destruct Hres as [-> | ->]; simpl;
        (eexists; split;
         [apply findOne_by_collab_id_updateOne; [reflexivity | exact Hc]
         |split; reflexivity]). }
    destruct Hf as (collab' & Hf & Hst & Hb).
    rewrite <- Hb in Hwho. rewrite <- Hm.
    destruct (sendMessage_sent trim jsLength db' user collab' application cid
                body message_id ts' Hne Hlen Hf) as (msg & Hs & Hl & _);
      try assumption.
    + rewrite Hst. simpl. auto.
    + exists msg. split; [exact Hs | exact Hl].
  - intros ->.
    assert (Hf : exists collab',
               findOne (by_collab_id cid) (Db.collaborations db')
               = Some collab'
               /\ Collab.status collab' = "cancelled"
               /\ Collab.brand_user_id collab' = Collab.brand_user_id collab).
    { rewrite Hco. simpl.
      eexists; split;
        [apply findOne_by_collab_id_updateOne; [reflexivity | exact Hc]
        |split; reflexivity]. }
    destruct Hf as (collab' & Hf & Hst & Hb).
    rewrite <- Hb in Hwho.
    assert (Hauth :
      negb (Collab.brand_user_id collab' === User.user_id user)
      && negb (if Collab.brand_user_id collab' === User.user_id user
               then false
               else match findOne (accepted_application_of cid
                                     (User.user_id user))
                            (Db.applications db')
                    with Some _ => true | None => false end) = false).
    { destruct Hwho as [->|[a ->]].
      - now rewrite String.eqb_refl.
      - destruct (Collab.brand_user_id collab' === User.user_id user);
          reflexivity. }
    apply String.eqb_neq in Hne. apply Z.ltb_ge in Hlen.
    unfold sendMessage. rewrite Hne, Hlen, Hf, Hst.
    cbn beta iota zeta delta [String.eqb Ascii.eqb Bool.eqb].
    rewrite Hauth. reflexivity.
Qed.

Lemma resolved_dispute_reopens_the_thread_witness :
  exists db' db'' msg,
    resolveDispute db_disputed [] (Some admin) "dispute_1" "split" "" 60 40
      (fun _ => "comm_1") 6000 = Ok db'
    /\ sendMessage (fun s => s) (fun s => Z.of_nat (String.length s)) db'
         (Some brand) "collab_1" (Some "Thanks") "msg_3" 6100
       = Sent db'' msg
    /\ Message.thread_locked msg = false.
Proof.
  destruct (resolveDispute db_disputed [] (Some admin) "dispute_1" "split" ""
              60 40 (fun _ => "comm_1") 6000) as [db'|f] eqn:E;
    [|vm_compute in E; discriminate E].
  destruct (resolved_dispute_reopens_the_thread _ _ _ _ _ _ _ _ _ _ _ E)
    as (_ & _ & Hsend).
  destruct (findOne (by_dispute_id "dispute_1") (Db.disputes db_disputed))
    as [dispute|] eqn:Hd; [|vm_compute in Hd; discriminate Hd].
  assert (Hcid : Dispute.collab_id dispute = "collab_1")
    by (vm_compute in Hd; injection Hd as <-; reflexivity).
  destruct (findOne (by_collab_id "collab_1") (Db.collaborations db_disputed))
    as [collab|] eqn:Hc; [|vm_compute in Hc; discriminate Hc].
  assert (Hb : Collab.brand_user_id collab = User.user_id brand)
    by (vm_compute in Hc; injection Hc as <-; reflexivity).
  destruct (findOne (accepted_application "collab_1")
              (Db.applications db_disputed))
    as [application|] eqn:Ha; [|vm_compute in Ha; discriminate Ha].
  rewrite <- Hcid in Hc, Ha.
  destruct (Hsend dispute collab brand application eq_refl Hc (or_introl Hb)
              Ha (fun s => s) (fun s => Z.of_nat (String.length s))
              (Some "Thanks") "msg_3" 6100) as [Hok _].
  - vm_compute. discriminate.
  - vm_compute. discriminate.
  - destruct (Hok (or_intror eq_refl)) as (msg & Hs & Hl).
    rewrite Hcid in Hs.
    exists db', (Db.set_messages (Db.messages db_disputed ++ [msg]) db'), msg.
    split; [reflexivity|]. split; [exact Hs | exact Hl].
Defined.

(** ** The release against the figures of the escrow *)



(** ** Creating a collaboration *)

Lemma findOne_insertOne_fresh {A : Type} (q : A -> bool) (c : list A)
  (d : A) :
  findOne q c = None -> q d = true -> findOne q (insertOne d c) = Some d.
Proof.
  unfold findOne, insertOne. intros Hn Hq.
  induction c as [|a c IH]; simpl in *.
  - now rewrite Hq.
  - destruct (q a); [discriminate Hn | now apply IH].
Qed.

(** X20. [createCollaboration] appends an 'active' collaboration of the
    signed-in user; a user who is not PRO has at most 3 active
    collaborations afterwards. payment_status is 'awaiting_escrow' exactly
    when the body says collaboration_type 'paid'. A body without
    collaboration_type is stored as type 'paid' with payment_status 'none',
    and is paid for [createEscrow]: with a fresh collab_id and no escrow
    under it, the brand gets an escrow on the budget. *)
Theorem collaboration_without_type_is_paid :
  forall (db : Db.t) (session : option User.t) (data : CollabData)
         (collab_id : string) (db' : Db.t) (doc : Collab.t),
    createCollaboration db session data collab_id = Ok (db', doc) ->
    exists user,
      session = Some user
      /\ Db.collaborations db' = Db.collaborations db ++ [doc]
      /\ Collab.collab_id doc = collab_id
      /\ Collab.status doc = "active"
      /\ Collab.brand_user_id doc = User.user_id user
      /\ (User.is_pro user = false ->
          (countDocuments
             (fun c => (Collab.brand_user_id c === User.user_id user)
                       && (Collab.status c === "active"))
             (Db.collaborations db') <= 3)%nat)
      /\ (Collab.payment_status doc = Some "awaiting_escrow"
          <-> data_collaboration_type data = Some "paid")
      /\ (data_collaboration_type data = None ->
          Collab.collaboration_type doc = Some "paid"
          /\ Collab.payment_status doc = Some "none"
          /\ is_paid doc = true
          /\ (findOne (by_collab_id collab_id) (Db.collaborations db) = None ->
              findOne (escrow_of_collab_in collab_id ["pending"; "secured"])
                (Db.escrow_payments db) = None ->
              forall escrow_id ts,
              exists db'' e,
                createEscrow db' session collab_id escrow_id ts
                = Ok (db'', e)
                /\ Escrow.total_amount e
                   = jsOrQ (Collab.budget_max doc)
                       (jsOrQ (Collab.budget_min doc) 0))).
Proof.
  intros db session data collab_id db' doc H.
  unfold createCollaboration in H.
  apply bind_ok in H. destruct H as (user & Hu & H).
  apply requireAuth_ok in Hu.
  apply bind_ok in H. destruct H as (u & Hlim & H).
  apply reject_if_ok in Hlim.
  injection H as <- <-.
  exists user. split; [exact Hu|].
  cbn [Db.collaborations Db.set_collaborations Collab.collab_id Collab.status
       Collab.brand_user_id Collab.payment_status Collab.collaboration_type
       Collab.budget_max Collab.budget_min Db.escrow_payments].
  do 4 (split; [reflexivity|]).
  split.
  { intros Hpro. rewrite Hpro in Hlim. simpl in Hlim.
    apply Z.leb_gt in Hlim.
    unfold countDocuments, insertOne. rewrite filter_app, length_app.
    simpl. rewrite String.eqb_refl. simpl. lia. }
  split.
  { destruct (data_collaboration_type data) as [s|]; [|split; discriminate].
    split.
    - intros E. injection E as E.
      destruct s as [|[[] [] [] [] [] [] [] []] s]; try discriminate E;
        try reflexivity.
      all: try (destruct s as [|[[] [] [] [] [] [] [] []] s];
                try discriminate E; try reflexivity).
      all: try (destruct s as [|[[] [] [] [] [] [] [] []] s];
                try discriminate E; try reflexivity).
      all: try (destruct s as [|[[] [] [] [] [] [] [] []] s];
                try discriminate E; try reflexivity).
      all: try (destruct s; [reflexivity | discriminate E]).
    - intros E. injection E as ->. reflexivity. }
  intros Hty. rewrite Hty.
  do 3 (split; [reflexivity|]).
  intros Hfresh Hnone escrow_id ts.
  unfold createEscrow. rewrite Hu.
  cbn beta iota delta [bind found reject_if requireAuth Db.collaborations
                       Db.set_collaborations Db.escrow_payments].
  rewrite (findOne_insertOne_fresh (by_collab_id collab_id) _ _ Hfresh)
    by apply String.eqb_refl.
  cbn beta iota delta [bind found reject_if Collab.brand_user_id].
  rewrite String.eqb_refl.
  cbn beta iota delta [bind found reject_if negb is_paid jsOrS
                       Collab.collaboration_type String.eqb Ascii.eqb
                       Bool.eqb].
  rewrite Hnone.
  eexists _, _. split; reflexivity.
Qed.

Lemma collaboration_without_type_is_paid_witness :
  exists db' doc,
    createCollaboration empty_db (Some brand)
      {| data_title := "Launch"; data_budget_min := Some 100%Q;
         data_budget_max := None; data_collaboration_type := None |}
      "collab_7" = Ok (db', doc)
    /\ Collab.payment_status doc = Some "none"
    /\ is_paid doc = true.
Proof.
  destruct (createCollaboration empty_db (Some brand)
              {| data_title := "Launch"; data_budget_min := Some 100%Q;
                 data_budget_max := None; data_collaboration_type := None |}
              "collab_7") as [[db' doc]|f] eqn:E;
    [|vm_compute in E; discriminate E].
  destruct (collaboration_without_type_is_paid _ _ _ _ _ _ E)
    as (user & Hs).
  decompose [and] Hs.
  match goal with
  | Hn : data_collaboration_type _ = None -> _ |- _ =>
      destruct (Hn eq_refl) as (_ & Hp & Hi & _)
  end.
  exists db', doc. split; [reflexivity|]. split; assumption.
Defined.

(** ** Reading the escrow of a collaboration *)

Lemma findOne_insertOne_old {A : Type} (q : A -> bool) (c : list A)
  (d x : A) :
  findOne q c = Some x -> findOne q (insertOne d c) = Some x.
Proof.
  unfold findOne, insertOne. intros H.
  induction c as [|a c IH]; simpl in *; [discriminate H|].
  destruct (q a); [exact H | now apply IH].
Qed.

(** X21. [getEscrowForCollab] answers with the first escrow stored for the
    collaboration. So after [createEscrow] has added an escrow, whoever was
    shown an earlier escrow of the collaboration is still shown that one,
    not the new one. When there was none, the brand is shown the new escrow
    document, and a signed-in user who is neither the brand nor an admin,
    taking part in the collaboration or not, is given its identifier, its
    status 'pending', its total and its payout. *)
Theorem escrow_view_shows_the_oldest_escrow :
  forall (db : Db.t) (session : option User.t) (collab_id escrow_id : string)
         (ts : Z) (db' : Db.t) (e : Escrow.t),
    createEscrow db session collab_id escrow_id ts = Ok (db', e) ->
    (forall session' v,
       getEscrowForCollab db session' collab_id = Ok v ->
       v <> NoEscrow ->
       getEscrowForCollab db' session' collab_id = Ok v)
    /\ (getEscrowForCollab db session collab_id = Ok NoEscrow ->
        getEscrowForCollab db' session collab_id = Ok (EscrowDocument e))
    /\ forall user' collab,
         findOne (by_collab_id collab_id) (Db.collaborations db)
         = Some collab ->
         Collab.brand_user_id collab <> User.user_id user' ->
         User.is_admin user' = false ->
         getEscrowForCollab db (Some user') collab_id = Ok NoEscrow ->
         getEscrowForCollab db' (Some user') collab_id
         = Ok (EscrowSummary escrow_id "pending" (Escrow.total_amount e)
                 (Escrow.influencer_payout e) "pending").
Proof.
  intros db session collab_id escrow_id ts db' e H.
  set (q := fun e0 => (Escrow.collab_id e0 === collab_id)
                      && negb (includes ["cancelled"] (Escrow.status e0))).
  assert (Hshape :
    exists user collab,
      session = Some user
      /\ findOne (by_collab_id collab_id) (Db.collaborations db) = Some collab
      /\ Collab.brand_user_id collab = User.user_id user
      /\ db' = Db.set_escrow_payments (insertOne e (Db.escrow_payments db)) db
      /\ q e = true
      /\ Escrow.escrow_id e = escrow_id
      /\ Escrow.status e = "pending").
  { unfold createEscrow in H. inv_ok.
    match goal with
    | Hb : negb (_ === _) = false |- _ =>
        apply negb_false_iff, String.eqb_eq in Hb
    end.
    eexists _, _. split; [reflexivity|]. split; [eassumption|].
    split; [assumption|]. split; [reflexivity|].
    split; [|split; reflexivity].
    unfold q. cbn. now rewrite String.eqb_refl. }
  destruct Hshape as (user & collab & Hu & Hc & Hb & Hdb & Hq & Hid & Hst).
  split; [|split].
  - intros session' v Hv Hne.
    unfold getEscrowForCollab in *. rewrite Hdb.
    cbn [Db.escrow_payments Db.set_escrow_payments Db.collaborations].
    destruct (requireAuth session') as [user'|f]; [|exact Hv].
    cbn beta iota delta [bind] in *. fold q in Hv |- *.
    destruct (findOne q (Db.escrow_payments db)) as [x|] eqn:Hx.
    + rewrite (findOne_insertOne_old q _ e x Hx). exact Hv.
    + injection Hv as <-. contradiction.
  - intros Hv.
    unfold getEscrowForCollab in *. rewrite Hdb, Hu in *.
    cbn [Db.escrow_payments Db.set_escrow_payments Db.collaborations].
    cbn beta iota delta [bind requireAuth found] in *. fold q in Hv |- *.
    destruct (findOne q (Db.escrow_payments db)) as [x|] eqn:Hx.
    + rewrite Hc in Hv. destruct (negb _ && negb _) in Hv; discriminate Hv.
    + rewrite (findOne_insertOne_fresh q _ e Hx Hq), Hc, Hb.
      rewrite String.eqb_refl. reflexivity.
  - intros user' collab0 Hc0 Hnb Hna Hv.
    rewrite Hc in Hc0. injection Hc0 as <-.
    apply String.eqb_neq in Hnb.
    unfold getEscrowForCollab in *. rewrite Hdb.
    cbn [Db.escrow_payments Db.set_escrow_payments Db.collaborations].
    cbn beta iota delta [bind requireAuth found] in *. fold q in Hv |- *.
    destruct (findOne q (Db.escrow_payments db)) as [x|] eqn:Hx.
    + rewrite Hc in Hv. destruct (negb _ && negb _) in Hv; discriminate Hv.
    + rewrite (findOne_insertOne_fresh q _ e Hx Hq), Hc, Hnb, Hna, Hid, Hst.
      reflexivity.
Qed.

Lemma escrow_view_shows_the_oldest_escrow_witness :
  getEscrowForCollab db_accepted (Some brand) "collab_1" = Ok NoEscrow
  /\ getEscrowForCollab db_pending (Some brand) "collab_1"
     = Ok (EscrowDocument escrow_1).
Proof.
  assert (Hv : getEscrowForCollab db_accepted (Some brand) "collab_1"
               = Ok NoEscrow) by (vm_compute; reflexivity).
  split; [exact Hv|].
  destruct (escrow_view_shows_the_oldest_escrow db_accepted (Some brand)
              "collab_1" "escrow_1" 1000 db_pending escrow_1
              scenario_createEscrow) as (_ & Hnew & _).
  exact (Hnew Hv).
Defined.
